(** * Delivery estimation service: holidays, delivery dates, configuration cache

    A shallow embedding of the delivery-service sources (holidays.py,
    calculator.py, config.py, validators.py, sheetCredential.py, main.py)
    and the properties of the specification proved about it.

    Conventions of the embedding:
    - Python [int] is [Z]; [//] and [%] are [Z.div] and [Z.modulo] (both
      floor, the sign of the remainder follows the divisor, as in Python).
    - A Python call that can raise returns a [result]; a [try/except] is a
      [match] on it.
    - Class-level mutable attributes ([_holiday_cache], [_cache], ...) are
      fields of an explicit state record threaded through the calls.
    - [str] values are Rocq strings; the string built-ins are modelled on
      ASCII code points. *)

From Stdlib Require Import ZArith List Bool Lia String Ascii.
From Stdlib Require Import Floats.SpecFloat.
From stdpp Require Import base option list gmap strings sorting.

Local Open Scope string_scope.
Local Open Scope list_scope.
Local Open Scope Z_scope.

(** ** Exceptions and results *)

Inductive exn : Type :=
  | ValueError
  | OverflowError
  | KeyError
  | TypeError
  | AttributeError
  | ZeroDivisionError
  | RemoteError.

Inductive result (A : Type) : Type :=
  | Ok (a : A)
  | Raise (e : exn).
Arguments Ok {A} a.
Arguments Raise {A} e.

Definition rbind {A B : Type} (r : result A) (k : A -> result B) : result B :=
  match r with
  | Ok a => k a
  | Raise e => Raise e
  end.

Notation "x <-! r ;; k" := (rbind r (fun x => k))
  (at level 100, r at next level, right associativity).

(** ** The run-time library: [datetime.date] *)

Module PyDate.

Record date : Type := mkdate { year : Z; month : Z; day : Z }.

Definition MINYEAR : Z := 1.
Definition MAXYEAR : Z := 9999.
Definition _MAXORDINAL : Z := 3652059.

Definition _DAYS_IN_MONTH : list Z :=
  [-1; 31; 28; 31; 30; 31; 30; 31; 31; 30; 31; 30; 31].
Definition _DAYS_BEFORE_MONTH : list Z :=
  [-1; 0; 31; 59; 90; 120; 151; 181; 212; 243; 273; 304; 334].
Definition _DI400Y : Z := 146097.
Definition _DI100Y : Z := 36524.
Definition _DI4Y : Z := 1461.

Definition table (t : list Z) (i : Z) : Z := nth (Z.to_nat i) t 0.

Definition _is_leap (y : Z) : bool :=
  (y mod 4 =? 0) && (negb (y mod 100 =? 0) || (y mod 400 =? 0)).

Definition _days_before_year (y : Z) : Z :=
  let y := y - 1 in y * 365 + y / 4 - y / 100 + y / 400.

Definition _days_in_month (y m : Z) : Z :=
  if (m =? 2) && _is_leap y then 29 else table _DAYS_IN_MONTH m.

Definition _days_before_month (y m : Z) : Z :=
  table _DAYS_BEFORE_MONTH m + (if (2 <? m) && _is_leap y then 1 else 0).

Definition _ymd2ord (y m d : Z) : Z :=
  _days_before_year y + _days_before_month y m + d.

Definition _ord2ymd (n : Z) : date :=
  let n := n - 1 in
  let n400 := n / _DI400Y in
  let n := n mod _DI400Y in
  let y := n400 * 400 + 1 in
  let n100 := n / _DI100Y in
  let n := n mod _DI100Y in
  let n4 := n / _DI4Y in
  let n := n mod _DI4Y in
  let n1 := n / 365 in
  let n := n mod 365 in
  let y := y + n100 * 100 + n4 * 4 + n1 in
  if (n1 =? 4) || (n100 =? 4) then mkdate (y - 1) 12 31
  else
    let leapyear := (n1 =? 3) && (negb (n4 =? 24) || (n100 =? 3)) in
    let m := Z.shiftr (n + 50) 5 in
    let preceding :=
      table _DAYS_BEFORE_MONTH m + (if (2 <? m) && leapyear then 1 else 0) in
    if n <? preceding then
      let m := m - 1 in
      let preceding :=
        preceding
        - (table _DAYS_IN_MONTH m + (if (m =? 2) && leapyear then 1 else 0)) in
      mkdate y m (n - preceding + 1)
    else mkdate y m (n - preceding + 1).

(** [datetime(year, month, day).date()]: the field check of the
    constructor. *)
Definition new_date (y m d : Z) : result date :=
  if negb ((MINYEAR <=? y) && (y <=? MAXYEAR)) then Raise ValueError
  else if negb ((1 <=? m) && (m <=? 12)) then Raise ValueError
  else if negb ((1 <=? d) && (d <=? _days_in_month y m)) then Raise ValueError
  else Ok (mkdate y m d).

Definition toordinal (d : date) : Z := _ymd2ord (year d) (month d) (day d).

(** Monday is 0, Sunday is 6. *)
Definition weekday (d : date) : Z := (toordinal d + 6) mod 7.

(** [d + timedelta(days=n)] *)
Definition add_days (d : date) (n : Z) : result date :=
  let o := toordinal d + n in
  if (0 <? o) && (o <=? _MAXORDINAL) then Ok (_ord2ymd o)
  else Raise OverflowError.

(** [d - timedelta(days=n)] *)
Definition sub_days (d : date) (n : Z) : result date := add_days d (- n).

(** [(d1 - d2).days] *)
Definition days_between (d1 d2 : date) : Z := toordinal d1 - toordinal d2.

(** Comparison of dates is comparison of the (year, month, day) triples. *)
Definition date_eqb (a b : date) : bool :=
  (year a =? year b) && (month a =? month b) && (day a =? day b).

Definition date_ltb (a b : date) : bool :=
  (year a <? year b)
  || ((year a =? year b)
      && ((month a <? month b)
          || ((month a =? month b) && (day a <? day b)))).

Definition date_lt (a b : date) : Prop := date_ltb a b = true.
Definition date_le (a b : date) : Prop := date_ltb b a = false.

(** [x in l] for a list of dates. *)
Definition date_in (x : date) (l : list date) : bool := existsb (date_eqb x) l.

End PyDate.
Export PyDate.


Global Instance date_eq_dec : EqDecision date.
Proof. solve_decision. Defined.

Global Instance date_le_dec : RelDecision date_le.
Proof. intros a b. unfold date_le. apply _. Defined.

(** ** State threaded through the calls *)

Definition State (S A : Type) : Type := S -> A * S.

Definition ret {S A : Type} (a : A) : State S A := fun st => (a, st).

Definition bind {S A B : Type} (m : State S A) (k : A -> State S B) : State S B :=
  fun st => let '(a, st1) := m st in k a st1.

Notation "x <-- m ;; k" := (bind m (fun x => k))
  (at level 100, m at next level, right associativity).

(** ** holidays.py *)

Module HolidayCalculator.

(** The two class-level dictionaries. *)
Record caches : Type := mkcaches {
  _holiday_cache : gmap Z (list date);
  _major_holiday_cache : gmap Z (list date)
}.

Definition initial : caches := mkcaches ∅ ∅.

(** [sorted(list(set(l)))]: the iteration order of a Python set carries
    no information, the sort fixes the order of the distinct elements. *)
Definition py_set (l : list date) : list date := remove_dups l.
Definition py_sorted (l : list date) : list date := merge_sort date_le l.

Definition _calculate_easter (y : Z) : result date :=
  let a := y mod 19 in
  let b := y / 100 in
  let c := y mod 100 in
  let d := b / 4 in
  let e := b mod 4 in
  let f := (b + 8) / 25 in
  let g := (b - f + 1) / 3 in
  let h := (19 * a + b - d - g + 15) mod 30 in
  let i := c / 4 in
  let k := c mod 4 in
  let l := (32 + 2 * e + 2 * i - h - k) mod 7 in
  let m := (a + 11 * h + 22 * l) / 451 in
  let month := (h + l - 7 * m + 114) / 31 in
  let day := ((h + l - 7 * m + 114) mod 31) + 1 in
  match new_date y month day with
  | Ok easter => Ok easter
  | Raise _ => new_date y 4 15
  end.

Definition _get_holy_week_dates (y : Z) : list date :=
  match
    (easter_sunday <-! _calculate_easter y ;;
     maundy_thursday <-! sub_days easter_sunday 3 ;;
     good_friday <-! sub_days easter_sunday 2 ;;
     black_saturday <-! sub_days easter_sunday 1 ;;
     Ok [maundy_thursday; good_friday; black_saturday])
  with
  | Ok l => l
  | Raise _ => []
  end.

(** The body of the [try] of [get_ph_holidays], before the result is
    cached. *)
Definition compute_ph_holidays (y : Z) : result (list date) :=
  h1 <-! new_date y 1 1 ;;
  h2 <-! new_date y 4 9 ;;
  h3 <-! new_date y 5 1 ;;
  h4 <-! new_date y 6 12 ;;
  h5 <-! new_date y 8 21 ;;
  h6 <-! new_date y 8 25 ;;
  h7 <-! new_date y 11 1 ;;
  h8 <-! new_date y 11 30 ;;
  h9 <-! new_date y 12 25 ;;
  h10 <-! new_date y 12 30 ;;
  h11 <-! new_date y 12 31 ;;
  let holidays := [h1; h2; h3; h4; h5; h6; h7; h8; h9; h10; h11] in
  let holy_week := _get_holy_week_dates y in
  let holidays := holidays ++ holy_week in
  Ok (py_sorted (py_set holidays)).

Definition get_ph_holidays (y : Z) : State caches (list date) := fun st =>
  match _holiday_cache st !! y with
  | Some cached => (cached, st)
  | None =>
      match compute_ph_holidays y with
      | Ok holidays =>
          (holidays,
           mkcaches (<[y := holidays]> (_holiday_cache st))
                    (_major_holiday_cache st))
      | Raise _ => ([], st)
      end
  end.

(** The body of the [try] of [get_major_ph_holidays]. *)
Definition compute_major_ph_holidays (y : Z) : result (list date) :=
  h1 <-! new_date y 1 1 ;;
  h2 <-! new_date y 12 25 ;;
  let holidays := [h1; h2] in
  let holy_week := _get_holy_week_dates y in
  let holidays :=
    match holy_week with
    | hw0 :: hw1 :: _ => holidays ++ [hw0; hw1]
    | _ => holidays
    end in
  Ok (py_sorted (py_set holidays)).

Definition get_major_ph_holidays (y : Z) : State caches (list date) := fun st =>
  match _major_holiday_cache st !! y with
  | Some cached => (cached, st)
  | None =>
      match compute_major_ph_holidays y with
      | Ok holidays =>
          (holidays,
           mkcaches (_holiday_cache st)
                    (<[y := holidays]> (_major_holiday_cache st)))
      | Raise _ => ([], st)
      end
  end.

Definition is_holiday (d : date) (major_only : bool) : State caches bool :=
  let y := year d in
  holidays <-- (if major_only then get_major_ph_holidays y
                else get_ph_holidays y) ;;
  ret (date_in d holidays).

Definition is_weekend (d : date) : bool :=
  (weekday d =? 5) || (weekday d =? 6).

Definition is_sunday (d : date) : bool := weekday d =? 6.

Definition clear_cache : State caches unit := fun _ => (tt, initial).

(** The scan of [get_next_working_day]: [n] is what is left of the 30
    iterations. An advance past the last date raises. *)
Fixpoint next_working_day_scan (n : nat) (next_day : date)
    (major_holidays_only : bool) : State caches (result date) := fun st =>
  match n with
  | O => (Ok next_day, st)
  | S n' =>
      let '(working, st1) :=
        if is_sunday next_day then (false, st)
        else
          let '(hol, st1) := is_holiday next_day major_holidays_only st in
          (negb hol, st1) in
      if working then (Ok next_day, st1)
      else
        match add_days next_day 1 with
        | Ok d => next_working_day_scan n' d major_holidays_only st1
        | Raise e => (Raise e, st1)
        end
  end.

Definition get_next_working_day (d : date) (major_holidays_only : bool)
    : State caches (result date) := fun st =>
  match add_days d 1 with
  | Ok next_day => next_working_day_scan 30 next_day major_holidays_only st
  | Raise e => (Raise e, st)
  end.

End HolidayCalculator.

(** ** The run-time library: [str] built-ins on ASCII code points *)

Module PyStr.

Definition code (c : ascii) : Z := Z.of_nat (nat_of_ascii c).

(** [str.isspace] on one code point: tab to carriage return, the four
    separators 0x1c to 0x1f, and the space. *)
Definition isspace (c : ascii) : bool :=
  let n := code c in
  ((9 <=? n) && (n <=? 13)) || ((28 <=? n) && (n <=? 32)).

(** The white space that [int] drops around a number: tab to carriage
    return and the space, without the four separators. *)
Definition isspace_int (c : ascii) : bool :=
  let n := code c in
  ((9 <=? n) && (n <=? 13)) || (n =? 32).

Definition isdigit (c : ascii) : bool :=
  let n := code c in (48 <=? n) && (n <=? 57).

Definition isupper (c : ascii) : bool :=
  let n := code c in (65 <=? n) && (n <=? 90).

Definition islower (c : ascii) : bool :=
  let n := code c in (97 <=? n) && (n <=? 122).

Definition isalnum_char (c : ascii) : bool :=
  isdigit c || isupper c || islower c.

Definition upper_char (c : ascii) : ascii :=
  if islower c then ascii_of_nat (nat_of_ascii c - 32) else c.

Definition lower_char (c : ascii) : ascii :=
  if isupper c then ascii_of_nat (nat_of_ascii c + 32) else c.

Fixpoint map_chars (f : ascii -> ascii) (s : string) : string :=
  match s with
  | EmptyString => EmptyString
  | String c r => String (f c) (map_chars f r)
  end.

Definition upper (s : string) : string := map_chars upper_char s.
Definition lower (s : string) : string := map_chars lower_char s.

(** Leading characters that satisfy [p] are dropped. *)
Fixpoint lstrip_by (p : ascii -> bool) (s : string) : string :=
  match s with
  | EmptyString => EmptyString
  | String c r => if p c then lstrip_by p r else s
  end.

(** Trailing characters that satisfy [p] are dropped: a character goes
    when it satisfies [p] and everything after it has gone. *)
Fixpoint rstrip_by (p : ascii -> bool) (s : string) : string :=
  match s with
  | EmptyString => EmptyString
  | String c r =>
      match rstrip_by p r with
      | EmptyString => if p c then EmptyString else String c EmptyString
      | r' => String c r'
      end
  end.

(** [s.strip()] *)
Definition strip (s : string) : string :=
  rstrip_by isspace (lstrip_by isspace s).

Fixpoint all_chars (p : ascii -> bool) (s : string) : bool :=
  match s with
  | EmptyString => true
  | String c r => p c && all_chars p r
  end.

(** [s.isalnum()]: false on the empty string. *)
Definition isalnum (s : string) : bool :=
  match s with
  | EmptyString => false
  | _ => all_chars isalnum_char s
  end.

(** [s.replace(c, '')] for a one-character [c]. *)
Fixpoint remove_char (x : ascii) (s : string) : string :=
  match s with
  | EmptyString => EmptyString
  | String c r =>
      if Ascii.eqb c x then remove_char x r else String c (remove_char x r)
  end.

(** [c in s] for a one-character [c]. *)
Fixpoint contains_char (x : ascii) (s : string) : bool :=
  match s with
  | EmptyString => false
  | String c r => Ascii.eqb c x || contains_char x r
  end.

(** [x in s] for strings: [x] occurs as a substring. *)
Fixpoint contains (x s : string) : bool :=
  String.prefix x s
  || match s with
     | EmptyString => false
     | String _ r => contains x r
     end.

(** [s.split(sep)] for a one-character separator: never the empty list. *)
Fixpoint split (sep : ascii) (s : string) : list string :=
  match s with
  | EmptyString => [EmptyString]
  | String c r =>
      if Ascii.eqb c sep then EmptyString :: split sep r
      else
        match split sep r with
        | w :: ws => String c w :: ws
        | [] => [String c EmptyString]
        end
  end.

(** [sep.join(l)] *)
Fixpoint join (sep : string) (l : list string) : string :=
  match l with
  | [] => EmptyString
  | [w] => w
  | w :: ws => String.append w (String.append sep (join sep ws))
  end.

(** The digits of [int(s)] after the sign: decimal digits, single
    underscores allowed between two digits. [acc] is the value so far,
    [prev_digit] tells whether the previous character was a digit. *)
Fixpoint int_digits (s : string) (acc : Z) (prev_digit : bool) : result Z :=
  match s with
  | EmptyString => if prev_digit then Ok acc else Raise ValueError
  | String c r =>
      if isdigit c then int_digits r (acc * 10 + (code c - 48)) true
      else if Ascii.eqb c "_"%char && prev_digit then
        match r with
        | String c' _ =>
            if isdigit c' then int_digits r acc false else Raise ValueError
        | EmptyString => Raise ValueError
        end
      else Raise ValueError
  end.

(** [int(s)] in base 10: surrounding white space is dropped, one sign is
    allowed. *)
Definition int (s : string) : result Z :=
  match rstrip_by isspace_int (lstrip_by isspace_int s) with
  | String "-"%char r => v <-! int_digits r 0 false ;; Ok (- v)
  | String "+"%char r => int_digits r 0 false
  | r => int_digits r 0 false
  end.

Definition len (s : string) : Z := Z.of_nat (String.length s).

End PyStr.

(** ** The run-time library: the values a configuration is made of *)

#[warnings="-register-all"]
Inductive pyval : Type :=
  | PNone
  | PBool (b : bool)
  | PInt (z : Z)
  | PFloat (f : spec_float)
  | PStr (s : string)
  | PList (l : list pyval)
  | PDict (d : list (string * pyval)).

(** A [dict] with string keys, in insertion order. *)
Definition dict : Type := list (string * pyval).

Module PyVal.

Fixpoint dict_find (d : dict) (k : string) : option pyval :=
  match d with
  | [] => None
  | (k', v) :: r => if String.eqb k' k then Some v else dict_find r k
  end.

(** [k in d] *)
Definition dict_has (d : dict) (k : string) : bool :=
  match dict_find d k with Some _ => true | None => false end.

(** [d[k]] *)
Definition dict_get (d : dict) (k : string) : result pyval :=
  match dict_find d k with Some v => Ok v | None => Raise KeyError end.

(** [d[k] = v]: an existing key keeps its place. *)
Fixpoint dict_set (d : dict) (k : string) (v : pyval) : dict :=
  match d with
  | [] => [(k, v)]
  | (k', v') :: r =>
      if String.eqb k' k then (k', v) :: r else (k', v') :: dict_set r k v
  end.

(** [list(d.keys())] *)
Definition dict_keys (d : dict) : list string := map fst d.

Definition is_str (s : string) (v : pyval) : bool :=
  match v with PStr s' => String.eqb s' s | _ => false end.

(** [x in c] for a string [x]: key of a dict, element of a list,
    substring of a string; the other values are not iterable. *)
Definition contains_str (c : pyval) (x : string) : result bool :=
  match c with
  | PDict d => Ok (dict_has d x)
  | PList l => Ok (existsb (is_str x) l)
  | PStr s => Ok (PyStr.contains x s)
  | PNone | PBool _ | PInt _ | PFloat _ => Raise TypeError
  end.

(** [c[x]] for a string [x]: only a dict can be subscripted by a
    string. *)
Definition getitem_str (c : pyval) (x : string) : result pyval :=
  match c with
  | PDict d => dict_get d x
  | _ => Raise TypeError
  end.

(** [isinstance(v, int)]: [bool] is a subclass of [int]. *)
Definition isinstance_int (v : pyval) : bool :=
  match v with PInt _ | PBool _ => true | _ => false end.

(** The integer an [int] instance stands for in arithmetic and
    comparisons ([True] is 1, [False] is 0). *)
Definition int_value (v : pyval) : Z :=
  match v with
  | PInt z => z
  | PBool true => 1
  | _ => 0
  end.

Definition isinstance_dict (v : pyval) : bool :=
  match v with PDict _ => true | _ => false end.

Definition isinstance_str (v : pyval) : bool :=
  match v with PStr _ => true | _ => false end.

End PyVal.

(** ** The run-time library: [datetime.datetime] *)

Module PyDateTime.

Record datetime : Type := mkdatetime {
  dt_date : date;
  hour : Z;
  minute : Z;
  second : Z;
  microsecond : Z;
  tzname : string
}.

(** [dt.replace(hour=h, minute=m, second=s, microsecond=us)]: the date
    and the zone are kept, the time fields are checked. *)
Definition replace_time (dt : datetime) (h m s us : Z) : result datetime :=
  if negb ((0 <=? h) && (h <=? 23)) then Raise ValueError
  else if negb ((0 <=? m) && (m <=? 59)) then Raise ValueError
  else if negb ((0 <=? s) && (s <=? 59)) then Raise ValueError
  else if negb ((0 <=? us) && (us <=? 999999)) then Raise ValueError
  else Ok (mkdatetime (dt_date dt) h m s us (tzname dt)).

Definition time_ltb (h1 m1 s1 u1 h2 m2 s2 u2 : Z) : bool :=
  (h1 <? h2)
  || ((h1 =? h2)
      && ((m1 <? m2)
          || ((m1 =? m2)
              && ((s1 <? s2) || ((s1 =? s2) && (u1 <? u2)))))).

(** [a < b] for two datetimes that carry the same zone object (as [dt]
    and [dt.replace(...)] do): the fields are compared in order. *)
Definition datetime_ltb (a b : datetime) : bool :=
  date_ltb (dt_date a) (dt_date b)
  || (date_eqb (dt_date a) (dt_date b)
      && time_ltb (hour a) (minute a) (second a) (microsecond a)
                  (hour b) (minute b) (second b) (microsecond b)).

End PyDateTime.
Export PyDateTime.

(** ** The collaborators

    What the service takes from outside: the zone database of [pytz],
    [json.loads], the remote sheet ([get_sheet_data n] is what fetch
    number [n] of the process yields) and the clock ([now_in z] is
    [datetime.now(tz)] for the zone named [z]). Readings of [time.time()]
    are passed to the calls that take them, as integers on the tick scale
    of the clock. *)

Record world : Type := mkworld {
  known_zone : string -> bool;
  json_loads : string -> result pyval;
  get_sheet_data : nat -> result (list (list string));
  now_in : string -> datetime
}.

(** ** The run-time library: true division of integers

    [a / b] on two [int]s is the quotient rounded once to the nearest
    binary64 value (ties to even); it raises when [b] is zero and when the
    rounded quotient is beyond the largest finite float. *)

Module PyFloat.

Definition prec : Z := 53.
Definition emax : Z := 1024.

(** The integer as an exact operand of the division. *)
Definition operand (z : Z) : spec_float :=
  match z with
  | Z0 => S754_zero false
  | Zpos p => S754_finite false p 0
  | Zneg p => S754_finite true p 0
  end.

Definition int_truediv (a b : Z) : result spec_float :=
  if b =? 0 then Raise ZeroDivisionError
  else
    match SFdiv prec emax (operand a) (operand b) with
    | S754_infinity _ => Raise OverflowError
    | q => Ok q
    end.

(** The float [m * 2^e]. *)
Definition literal (m e : Z) : spec_float := binary_normalize prec emax m e false.

Definition leb (x y : spec_float) : bool := SFleb x y.

End PyFloat.

(** ** calculator.py *)

Module DeliveryCalculator.
Import HolidayCalculator.

Definition MAX_CALCULATION_ITERATIONS : Z := 100.

Definition get_current_datetime (w : world) (timezone : pyval)
    : option datetime :=
  match timezone with
  | PStr z =>
      if known_zone w z then Some (now_in w z) else Some (now_in w "UTC")
  | _ => Some (now_in w "UTC")
  end.

(** [cutoff_hour, cutoff_min = map(int, cutoff_time.split(':'))] *)
Definition parse_hh_mm (cutoff_time : string) : result (Z * Z) :=
  match PyStr.split ":" cutoff_time with
  | [a; b] =>
      h <-! PyStr.int a ;;
      m <-! PyStr.int b ;;
      Ok (h, m)
  | _ => Raise ValueError
  end.

(** The cutoff instant of the day of [current_time]. *)
Definition cutoff_dt (current_time : datetime) (cutoff_time : string)
    : result datetime :=
  hm <-! parse_hh_mm cutoff_time ;;
  replace_time current_time (fst hm) (snd hm) 0 0.

Definition check_cutoff_time (current_time : datetime) (cutoff_time : pyval)
    : bool :=
  match cutoff_time with
  | PStr s =>
      match cutoff_dt current_time s with
      | Ok c => datetime_ltb current_time c
      | Raise _ => false
      end
  | _ => false
  end.

Definition get_courier_base_days (config : dict) (courier_name region : string)
    : option Z :=
  match
    (couriers <-! PyVal.dict_get config "couriers" ;;
     has_courier <-! PyVal.contains_str couriers courier_name ;;
     if negb has_courier then Ok None
     else
       courier_data <-! PyVal.getitem_str couriers courier_name ;;
       has_region <-! PyVal.contains_str courier_data region ;;
       if negb has_region then Ok None
       else
         base_days <-! PyVal.getitem_str courier_data region ;;
         if negb (PyVal.isinstance_int base_days) then Ok None
         else if PyVal.int_value base_days <=? 0 then Ok None
         else Ok (Some (PyVal.int_value base_days)))
  with
  | Ok r => r
  | Raise _ => None
  end.

(** Nothing in the body of [should_skip_date] raises (the holiday
    lookups catch their own failures), so its handler is never entered. *)
Definition should_skip_date (courier_name : string) (d : date)
    : State caches bool :=
  let is_sun := is_sunday d in
  if String.eqb courier_name "LBC" then
    is_hol <-- is_holiday d false ;;
    ret (is_sun || is_hol)
  else if String.eqb courier_name "J&T" then
    is_major_holiday <-- is_holiday d true ;;
    ret is_major_holiday
  else
    is_hol <-- is_holiday d false ;;
    ret (is_sun || is_hol).

Record loop_state : Type := mkloop {
  days_added : Z;
  current_date : date;
  iterations : Z
}.

(** The [while] loop of [calculate_delivery_date]. [fuel] bounds the
    unfolding; [None] is "fuel ran out", which [Z.to_nat max_iterations]
    units of fuel exclude. *)
Fixpoint while_loop (fuel : nat) (courier_name : string)
    (base_days max_iterations : Z) (s : loop_state)
    : State caches (option (result loop_state)) := fun st =>
  if (days_added s <? base_days) && (iterations s <? max_iterations) then
    match fuel with
    | O => (None, st)
    | S fuel' =>
        match add_days (current_date s) 1 with
        | Raise e => (Some (Raise e), st)
        | Ok d =>
            let its := iterations s + 1 in
            let '(skip, st1) := should_skip_date courier_name d st in
            let added := if negb skip then days_added s + 1 else days_added s in
            while_loop fuel' courier_name base_days max_iterations
                       (mkloop added d its) st1
        end
    end
  else (Some (Ok s), st).

(** The final state of the loop of a call: the date reached and the
    number of calendar-day advances consumed. *)
Definition run_loop (start_date : date) (base_days : Z) (courier_name : string)
    (max_iterations : Z) : State caches (option (result loop_state)) :=
  while_loop (Z.to_nat max_iterations) courier_name base_days max_iterations
             (mkloop 0 start_date 0).

Definition calculate_delivery_date (start_date : date) (base_days : Z)
    (courier_name : string) (max_iterations : option Z)
    : State caches (option date) :=
  let max_iterations :=
    match max_iterations with
    | None => MAX_CALCULATION_ITERATIONS
    | Some m => m
    end in
  if base_days <=? 0 then ret None
  else
    r <-- run_loop start_date base_days courier_name max_iterations ;;
    match r with
    | Some (Ok s) =>
        if max_iterations <=? iterations s then ret None
        else ret (Some (current_date s))
    | Some (Raise _) => ret None
    | None => ret None
    end.

Definition get_delivery_confidence (base_days total_calendar_days : Z)
    (courier_name : string) : string :=
  match
    (if 0 <? base_days then PyFloat.int_truediv total_calendar_days base_days
     else Ok (PyFloat.literal 1 0))
  with
  | Ok day_ratio =>
      if PyFloat.leb day_ratio (PyFloat.literal 3 (-1)) then "high"
      else if PyFloat.leb day_ratio (PyFloat.literal 2 0) then "medium"
      else "low"
  | Raise _ => "medium"
  end.

End DeliveryCalculator.

(** ** sheetCredential.py *)

Module SheetCredential.

Definition empty_config : dict :=
  [("store_name", PStr ""); ("timezone", PStr ""); ("cutoff_time", PStr "");
   ("working_days", PList []); ("couriers", PDict [])].

Definition parse_row (w : world) (config : dict) (row : list string)
    : result dict :=
  match row with
  | r0 :: r1 :: _ =>
      let key := PyStr.strip r0 in
      let value := PyStr.strip r1 in
      if String.eqb key "store_name" then
        Ok (PyVal.dict_set config "store_name" (PStr value))
      else if String.eqb key "timezone" then
        Ok (PyVal.dict_set config "timezone" (PStr value))
      else if String.eqb key "cutoff_time" then
        Ok (PyVal.dict_set config "cutoff_time" (PStr value))
      else if String.eqb key "working_days" then
        Ok (PyVal.dict_set config "working_days"
              (PList (map (fun day => PStr (PyStr.strip day))
                          (PyStr.split "," value))))
      else if String.eqb key "couriers" then
        v <-! json_loads w value ;;
        Ok (PyVal.dict_set config "couriers" v)
      else Ok config
  | _ => Ok config
  end.

Fixpoint parse_rows (w : world) (config : dict)
    (values_list : list (list string)) : result dict :=
  match values_list with
  | [] => Ok config
  | row :: rest =>
      config' <-! parse_row w config row ;;
      parse_rows w config' rest
  end.

Definition parse_to_config (w : world) (values_list : list (list string))
    : result dict :=
  parse_rows w empty_config values_list.

End SheetCredential.

(** ** config.py *)

Module ConfigCache.

Record cache_state : Type := mkcache {
  _cache : option dict;
  _cache_time : option Z;
  _cache_ttl : Z;
  _fetch_in_progress : bool
}.

Definition initial : cache_state := mkcache None None 600 false.

Definition set_in_progress (st : cache_state) (b : bool) : cache_state :=
  mkcache (_cache st) (_cache_time st) (_cache_ttl st) b.

(** The cutoff block of [_validate_config]. *)
Definition valid_cutoff (cutoff_time : pyval) : bool :=
  match cutoff_time with
  | PStr s =>
      if negb (PyStr.contains_char ":" s) then false
      else
        match DeliveryCalculator.parse_hh_mm s with
        | Ok (hours, minutes) =>
            (0 <=? hours) && (hours <? 24) && (0 <=? minutes) && (minutes <? 60)
        | Raise _ => false
        end
  | _ => false
  end.

Definition valid_timezone (w : world) (timezone : pyval) : bool :=
  match timezone with
  | PStr z => known_zone w z
  | _ => false
  end.

Definition valid_days (days : pyval) : bool :=
  PyVal.isinstance_int days && negb (PyVal.int_value days <=? 0).

Definition valid_regions (regions : pyval) : bool :=
  match regions with
  | PDict r => forallb (fun kv => valid_days (snd kv)) r
  | _ => false
  end.

Definition _validate_config (w : world) (config : dict) : bool :=
  if negb (forallb (PyVal.dict_has config) ["couriers"; "cutoff_time"; "timezone"])
  then false
  else
    match PyVal.dict_find config "couriers",
          PyVal.dict_find config "cutoff_time",
          PyVal.dict_find config "timezone" with
    | Some (PDict couriers), Some cutoff_time, Some timezone =>
        if (Z.of_nat (length couriers) =? 0) then false
        else if negb (valid_cutoff cutoff_time) then false
        else if negb (valid_timezone w timezone) then false
        else forallb (fun kv => valid_regions (snd kv)) couriers
    | _, _, _ => false
    end.

(** The block under the lock at the head of [get_config]: either the
    call returns at once, or it claims the fetch. *)
Definition get_config_enter (force_refresh : bool) (current_time : Z)
    (st : cache_state) : (option dict) + cache_state :=
  if negb force_refresh
     && match _cache st, _cache_time st with
        | Some _, Some t => current_time - t <? _cache_ttl st
        | _, _ => false
        end
  then inl (_cache st)
  else if _fetch_in_progress st then inl (_cache st)
  else inr (set_in_progress st true).

(** [if cls._cache is not None: return cls._cache] else raise [e]. *)
Definition stale_or_raise (st : cache_state) (e : exn) : result (option dict) :=
  match _cache st with
  | Some c => Ok (Some c)
  | None => Raise e
  end.

(** The body of the [try]: fetch number [n], parse, validate, install. *)
Definition refresh_body (w : world) (current_time : Z) (n : nat)
    (st : cache_state)
    : result (option dict) * cache_state :=
  match get_sheet_data w n with
  | Raise e => (Raise e, st)
  | Ok sheet_data =>
      match sheet_data with
      | [] =>
          let st := set_in_progress st false in
          (stale_or_raise st ValueError, st)
      | _ =>
          match SheetCredential.parse_to_config w sheet_data with
          | Raise e => (Raise e, st)
          | Ok config =>
              if negb (_validate_config w config) then
                let st := set_in_progress st false in
                (stale_or_raise st ValueError, st)
              else
                (Ok (Some config),
                 mkcache (Some config) (Some current_time) (_cache_ttl st) false)
          end
      end
  end.

(** The [try] with its handler. *)
Definition get_config_refresh (w : world) (current_time : Z) (n : nat)
    (st : cache_state)
    : result (option dict) * cache_state :=
  match refresh_body w current_time n st with
  | (Raise e, st1) =>
      let st2 := set_in_progress st1 false in
      (stale_or_raise st2 e, st2)
  | r => r
  end.

(** [get_config] of one caller running alone; the second component of
    the state counts the fetches issued so far. *)
Definition get_config (w : world) (force_refresh : bool) (current_time : Z)
    : State (cache_state * nat) (result (option dict)) := fun '(st, n) =>
  match get_config_enter force_refresh current_time st with
  | inl r => (Ok r, (st, n))
  | inr st1 =>
      let '(r, st2) := get_config_refresh w current_time n st1 in
      (r, (st2, S n))
  end.

Definition clear_cache (st : cache_state) : cache_state :=
  mkcache None None (_cache_ttl st) (_fetch_in_progress st).

Definition set_cache_ttl (ttl_seconds : Z) (st : cache_state) : cache_state :=
  if ttl_seconds <? 0 then st
  else mkcache (_cache st) (_cache_time st) ttl_seconds (_fetch_in_progress st).

(** The two dictionaries [get_cache_info] returns. *)
Inductive cache_info : Type :=
  | NotCached (ttl : Z)
  | Cached (cache_age_seconds : option Z) (ttl_seconds : Z) (is_stale : bool)
           (couriers_count : Z).

(** [len(v)] *)
Definition py_len (v : pyval) : result Z :=
  match v with
  | PDict d => Ok (Z.of_nat (length d))
  | PList l => Ok (Z.of_nat (length l))
  | PStr s => Ok (PyStr.len s)
  | PNone | PBool _ | PInt _ | PFloat _ => Raise TypeError
  end.

(** [get_cache_info]: a time stamp of zero and an age of zero are falsy
    in the two conditional expressions. *)
Definition get_cache_info (current_time : Z) (st : cache_state)
    : result cache_info :=
  match _cache st with
  | None => Ok (NotCached (_cache_ttl st))
  | Some cache =>
      let cache_age :=
        match _cache_time st with
        | Some t => if t =? 0 then None else Some (current_time - t)
        | None => None
        end in
      let is_stale :=
        match cache_age with
        | Some age => if age =? 0 then false else _cache_ttl st <? age
        | None => false
        end in
      count <-! py_len (default (PDict []) (PyVal.dict_find cache "couriers")) ;;
      Ok (Cached cache_age (_cache_ttl st) is_stale count)
  end.

End ConfigCache.

(** ** validators.py *)

Module InputValidator.

Record allowed : Type := mkallowed {
  ALLOWED_COURIERS : list string;
  ALLOWED_REGIONS : list string
}.

Definition initial : allowed :=
  mkallowed ["J&T"; "LBC"; "JRS"; "NINJAVAN"; "LALAMOVE"; "GRAB"; "ENTREGO"]
            ["ncr"; "luzon"; "visayas"; "mindanao"].

Definition MAX_COURIER_LENGTH : Z := 50.
Definition MAX_REGION_LENGTH : Z := 50.

Definition str_in (x : string) (l : list string) : bool :=
  existsb (String.eqb x) l.

Definition validate_courier (courier_name : string)
    : bool * option string * option string :=
  if String.eqb courier_name "" then
    (false, None, Some "Courier name is required")
  else
    let normalized := PyStr.upper (PyStr.strip courier_name) in
    if String.eqb normalized "" then
      (false, None, Some "Courier name cannot be empty")
    else if MAX_COURIER_LENGTH <? PyStr.len normalized then
      (false, None, Some "Courier name too long (max 50 characters)")
    else if negb (PyStr.isalnum
                    (PyStr.remove_char " "
                       (PyStr.remove_char "-"
                          (PyStr.remove_char "&" normalized)))) then
      (false, None, Some "Courier name contains invalid characters")
    else (true, Some normalized, None).

Definition validate_region (a : allowed) (region : string)
    : bool * option string * option string :=
  if String.eqb region "" then (false, None, Some "Region is required")
  else
    let normalized := PyStr.lower (PyStr.strip region) in
    if String.eqb normalized "" then
      (false, None, Some "Region cannot be empty")
    else if MAX_REGION_LENGTH <? PyStr.len normalized then
      (false, None, Some "Region name too long (max 50 characters)")
    else if negb (str_in normalized (ALLOWED_REGIONS a)) then
      (false, None,
       Some (String.append "Invalid region '"
               (String.append normalized
                  (String.append "'. Allowed regions: "
                     (PyStr.join ", " (ALLOWED_REGIONS a))))))
    else (true, Some normalized, None).

Definition add_allowed_courier (courier_name : string) (a : allowed) : allowed :=
  let normalized := PyStr.upper (PyStr.strip courier_name) in
  if negb (String.eqb normalized "") && negb (str_in normalized (ALLOWED_COURIERS a))
  then mkallowed (ALLOWED_COURIERS a ++ [normalized]) (ALLOWED_REGIONS a)
  else a.

Definition add_allowed_region (region_name : string) (a : allowed) : allowed :=
  let normalized := PyStr.lower (PyStr.strip region_name) in
  if negb (String.eqb normalized "") && negb (str_in normalized (ALLOWED_REGIONS a))
  then mkallowed (ALLOWED_COURIERS a) (ALLOWED_REGIONS a ++ [normalized])
  else a.

End InputValidator.

(** ** models.py *)

Inductive ErrorCode : Type :=
  | INVALID_INPUT
  | INVALID_COURIER
  | INVALID_REGION
  | CONFIG_ERROR
  | INTERNAL_ERROR
  | SERVICE_UNAVAILABLE.

(** The dates and the order time are kept as values; [to_dict] renders
    them with [strftime]. *)
Record DeliveryEstimate : Type := mkestimate {
  courier : string;
  region : string;
  order_time : datetime;
  cutoff_time : pyval;
  before_cutoff : bool;
  processing_note : string;
  start_date : date;
  base_delivery_days : Z;
  estimated_delivery_date : date;
  total_calendar_days : Z;
  confidence_level : string
}.

(** ** main.py *)

Module Main.

(** What [delivery_estimate] returns: the error dictionary, with its
    [available_couriers] entry when present, or the estimate. *)
Inductive response : Type :=
  | ErrorResponse (error : string) (error_code : ErrorCode)
                  (available_couriers : option (list string))
  | EstimateResponse (e : DeliveryEstimate).

Record service : Type := mkservice {
  config_cache : ConfigCache.cache_state;
  fetches : nat;
  holiday_caches : HolidayCalculator.caches;
  validator : InputValidator.allowed
}.

Definition initial : service :=
  mkservice ConfigCache.initial 0 HolidayCalculator.initial InputValidator.initial.

Definition quote_msg (c r : string) : string :=
  String.append "Courier '"
    (String.append c
       (String.append "' does not service region '" (String.append r "'"))).

(** Steps 3 to 8, inside the outer [try]: the configuration is loaded
    and the inputs are normalized. *)
Definition estimate_with_config (w : world) (config : dict)
    (courier_normalized region_normalized : string)
    : State HolidayCalculator.caches (result response) := fun hc =>
  match
    (timezone <-! PyVal.dict_get config "timezone" ;;
     match DeliveryCalculator.get_current_datetime w timezone with
     | None =>
         Ok (inl (ErrorResponse "Internal error processing request"
                    INTERNAL_ERROR None))
     | Some current_time =>
         cutoff <-! PyVal.dict_get config "cutoff_time" ;;
         let is_before_cutoff :=
           DeliveryCalculator.check_cutoff_time current_time cutoff in
         match DeliveryCalculator.get_courier_base_days
                 config courier_normalized region_normalized with
         | None =>
             couriers <-! PyVal.dict_get config "couriers" ;;
             match couriers with
             | PDict d =>
                 Ok (inl (ErrorResponse
                            (quote_msg courier_normalized region_normalized)
                            INVALID_COURIER (Some (PyVal.dict_keys d))))
             | _ => Raise AttributeError
             end
         | Some base_days =>
             start <-! (if is_before_cutoff then Ok (dt_date current_time)
                        else add_days (dt_date current_time) 1) ;;
             Ok (inr (current_time, cutoff, is_before_cutoff, base_days, start))
         end
     end)
  with
  | Raise e => (Raise e, hc)
  | Ok (inl resp) => (Ok resp, hc)
  | Ok (inr (current_time, cutoff, is_before_cutoff, base_days, start)) =>
      let processing_note :=
        if is_before_cutoff
        then "Order placed before cutoff - same day processing"
        else "Order placed after cutoff - next day processing" in
      let '(estimated, hc1) :=
        DeliveryCalculator.calculate_delivery_date
          start base_days courier_normalized None hc in
      match estimated with
      | None =>
          (Ok (ErrorResponse "Unable to calculate delivery date"
                 INTERNAL_ERROR None), hc1)
      | Some estimated_delivery =>
          (Ok (EstimateResponse
                 (mkestimate courier_normalized region_normalized
                    current_time cutoff is_before_cutoff processing_note
                    start base_days estimated_delivery
                    (days_between estimated_delivery start) "high")), hc1)
      end
  end.

(** [delivery_estimate(courier_name, region)]; [clock] is the reading
    of [time.time()] that [get_config] takes. *)
Definition delivery_estimate (w : world) (clock : Z)
    (courier_name region : string)
    : State service response := fun sv =>
  match InputValidator.validate_courier courier_name with
  | (true, Some courier_normalized, _) =>
      match InputValidator.validate_region (validator sv) region with
      | (true, Some region_normalized, _) =>
          let '(cfg, (cs, n)) :=
            ConfigCache.get_config w false clock
              (config_cache sv, fetches sv) in
          let sv1 := mkservice cs n (holiday_caches sv) (validator sv) in
          match cfg with
          | Ok (Some ((_ :: _) as config)) =>
              let '(r, hc) :=
                estimate_with_config w config courier_normalized
                  region_normalized (holiday_caches sv) in
              let sv2 := mkservice cs n hc (validator sv) in
              match r with
              | Ok resp => (resp, sv2)
              | Raise _ =>
                  (ErrorResponse "An unexpected error occurred"
                     INTERNAL_ERROR None, sv2)
              end
          | _ =>
              (ErrorResponse
                 "Service temporarily unavailable. Please try again later."
                 CONFIG_ERROR None, sv1)
          end
      | (_, _, region_error) =>
          (ErrorResponse (default "" region_error) INVALID_REGION None, sv)
      end
  | (_, _, courier_error) =>
      (ErrorResponse (default "" courier_error) INVALID_COURIER None, sv)
  end.




(** [refresh_config]: the couriers of the success answer, or the failure
    its handler answers. *)
Inductive refresh_response : Type :=
  | RefreshSuccess (couriers : list string)
  | RefreshError (e : exn).

Definition refresh_config (w : world) (clock : Z) : State service refresh_response :=
  fun sv =>
  let '(cfg, (cs, n)) :=
    ConfigCache.get_config w true clock (config_cache sv, fetches sv) in
  let sv1 := mkservice cs n (holiday_caches sv) (validator sv) in
  match cfg with
  | Raise e => (RefreshError e, sv1)
  | Ok (Some ((_ :: _) as config)) =>
      match PyVal.dict_get config "couriers" with
      | Ok (PDict d) => (RefreshSuccess (PyVal.dict_keys d), sv1)
      | Ok _ => (RefreshError AttributeError, sv1)
      | Raise e => (RefreshError e, sv1)
      end
  | Ok _ => (RefreshSuccess [], sv1)
  end.





End Main.

(** ** Notions used to state the properties *)

Module Spec.
Import HolidayCalculator DeliveryCalculator.

(** What the holiday functions yield for a year that is not yet in the
    dictionary. *)
Definition ph_holidays (y : Z) : list date :=
  match compute_ph_holidays y with Ok l => l | Raise _ => [] end.

Definition major_ph_holidays (y : Z) : list date :=
  match compute_major_ph_holidays y with Ok l => l | Raise _ => [] end.

(** The dictionaries hold, for a year, what the computation of that year
    gave. This is so at start ([initial]) and every operation of the
    class keeps it. *)
Definition cache_ok (st : caches) : Prop :=
  (forall y l, _holiday_cache st !! y = Some l -> compute_ph_holidays y = Ok l)
  /\ (forall y l, _major_holiday_cache st !! y = Some l ->
                  compute_major_ph_holidays y = Ok l).

Definition holiday (d : date) (major_only : bool) : bool :=
  date_in d (if major_only then major_ph_holidays (year d)
             else ph_holidays (year d)).

(** The skip policy: major holidays only for "J&T", Sundays and all
    holidays for every other courier. *)
Definition skips (courier_name : string) (d : date) : bool :=
  if String.eqb courier_name "J&T" then holiday d true
  else is_sunday d || holiday d false.

(** The date reached by [k] calendar-day advances. *)
Fixpoint advance (k : nat) (d : date) : result date :=
  match k with
  | O => Ok d
  | S k' => d' <-! add_days d 1 ;; advance k' d'
  end.

(** The number of days that are not skipped among the [k] days that
    follow [d]. *)
Fixpoint counted (courier_name : string) (k : nat) (d : date) : result Z :=
  match k with
  | O => Ok 0
  | S k' =>
      d' <-! add_days d 1 ;;
      c <-! counted courier_name k' d' ;;
      Ok ((if skips courier_name d' then 0 else 1) + c)
  end.

(** Advance number [k] from [start] reaches [d], and with it the counter
    reaches [base_days]: [d] is not skipped and is the [base_days]-th
    such day after [start]. *)
Definition reaches (courier_name : string) (start : date) (base_days : Z)
    (k : nat) (d : date) : Prop :=
  advance k start = Ok d
  /\ counted courier_name k start = Ok base_days
  /\ skips courier_name d = false.

(** The dates [get_ph_holidays] and [get_major_ph_holidays] collect
    before [sorted(list(set(...)))]. *)
Definition fixed_dates (y : Z) : list date :=
  [mkdate y 1 1; mkdate y 4 9; mkdate y 5 1; mkdate y 6 12; mkdate y 8 21;
   mkdate y 8 25; mkdate y 11 1; mkdate y 11 30; mkdate y 12 25;
   mkdate y 12 30; mkdate y 12 31].

Definition major_dates (y : Z) : list date :=
  [mkdate y 1 1; mkdate y 12 25]
  ++ match _get_holy_week_dates y with
     | hw0 :: hw1 :: _ => [hw0; hw1]
     | _ => []
     end.

(** The integers [lo], [lo + 1], ..., [n] of them, for the properties
    checked value by value. *)
Definition zrange (lo : Z) (n : nat) : list Z :=
  map (fun i => lo + Z.of_nat i) (seq 0 n).

(** Easter of year [y] is a Sunday, and the Holy Week dates are the three
    days before it. *)
Definition easter_ok (y : Z) : bool :=
  match _calculate_easter y with
  | Ok e =>
      match sub_days e 3, sub_days e 2, sub_days e 1 with
      | Ok mt, Ok gf, Ok bs =>
          is_sunday e
          && bool_decide (_get_holy_week_dates y = [mt; gf; bs])
          && (days_between e mt =? 3)
          && (days_between e gf =? 2)
          && (days_between e bs =? 1)
          && (weekday mt =? 3) && (weekday gf =? 4) && (weekday bs =? 5)
      | _, _, _ => false
      end
  | Raise _ => false
  end.

(** The loop of [calculate_delivery_date] with the skip policy in place
    of the calls that go through the dictionaries. *)
Fixpoint pure_loop (fuel : nat) (courier_name : string)
    (base_days max_iterations : Z) (s : loop_state)
    : option (result loop_state) :=
  if (days_added s <? base_days) && (iterations s <? max_iterations) then
    match fuel with
    | O => None
    | S fuel' =>
        match add_days (current_date s) 1 with
        | Raise e => Some (Raise e)
        | Ok d =>
            let its := iterations s + 1 in
            let added :=
              if negb (skips courier_name d) then days_added s + 1
              else days_added s in
            pure_loop fuel' courier_name base_days max_iterations
                      (mkloop added d its)
        end
    end
  else Some (Ok s).

(** The bound in force: the default when none is given. *)
Definition bound (max_iterations : option Z) : Z :=
  match max_iterations with
  | None => MAX_CALCULATION_ITERATIONS
  | Some m => m
  end.

(** [calculate_delivery_date] over [pure_loop]. *)
Definition pure_calculate (start_date : date) (base_days : Z)
    (courier_name : string) (max_iterations : option Z) : option date :=
  let m := bound max_iterations in
  if base_days <=? 0 then None
  else
    match pure_loop (Z.to_nat m) courier_name base_days m
                    (mkloop 0 start_date 0) with
    | Some (Ok s) => if m <=? iterations s then None else Some (current_date s)
    | Some (Raise _) => None
    | None => None
    end.

(** The operations that go through the holiday dictionaries, and the
    states they lead to from the start of the process. *)
Inductive holiday_op : Type :=
  | OpHolidays (y : Z)
  | OpMajorHolidays (y : Z)
  | OpIsHoliday (d : date) (major_only : bool)
  | OpNextWorkingDay (d : date) (major_only : bool)
  | OpClearCache
  | OpShouldSkip (courier_name : string) (d : date)
  | OpCalculate (start_date : date) (base_days : Z) (courier_name : string)
                (max_iterations : option Z).

Definition run_op (o : holiday_op) (st : caches) : caches :=
  match o with
  | OpHolidays y => snd (get_ph_holidays y st)
  | OpMajorHolidays y => snd (get_major_ph_holidays y st)
  | OpIsHoliday d m => snd (is_holiday d m st)
  | OpNextWorkingDay d m => snd (get_next_working_day d m st)
  | OpClearCache => snd (clear_cache st)
  | OpShouldSkip c d => snd (should_skip_date c d st)
  | OpCalculate s b c m => snd (calculate_delivery_date s b c m st)
  end.

Definition run_ops (ops : list holiday_op) (st : caches) : caches :=
  fold_left (fun s o => run_op o s) ops st.

(** The confidence label decided on the exact quotient
    [total_calendar_days / base_days] of a positive [base_days]. *)
Definition exact_confidence (base_days total_calendar_days : Z) : string :=
  if 2 * total_calendar_days <=? 3 * base_days then "high"
  else if total_calendar_days <=? 2 * base_days then "medium"
  else "low".

Definition confidence_agrees (base_days total_calendar_days : Z) : bool :=
  String.eqb (get_delivery_confidence base_days total_calendar_days "")
             (exact_confidence base_days total_calendar_days).

(** What fetch number [n] leads to: the configuration, when the fetch,
    the parse and the validation all succeed, or the exception the
    refresh ends with. *)
Definition refresh_outcome (w : world) (n : nat) : result dict :=
  match get_sheet_data w n with
  | Raise e => Raise e
  | Ok [] => Raise ValueError
  | Ok sheet_data =>
      match SheetCredential.parse_to_config w sheet_data with
      | Raise e => Raise e
      | Ok config =>
          if ConfigCache._validate_config w config then Ok config
          else Raise ValueError
      end
  end.

(** A run of [get_config()] calls by one caller, at the given clock
    readings. *)
Fixpoint get_config_calls (w : world) (nows : list Z)
    (s : ConfigCache.cache_state * nat)
    : list (result (option dict)) * (ConfigCache.cache_state * nat) :=
  match nows with
  | [] => ([], s)
  | now :: rest =>
      let '(r, s1) :=
        ConfigCache.get_config w false now s in
      let '(rs, s2) := get_config_calls w rest s1 in
      (r :: rs, s2)
  end.

(** The courier's entry does not give region [r] a positive number of
    days: the region is absent, or what it maps to is not an [int]
    instance or is not positive, or the entry is not a dictionary. *)
Definition not_serviced (courier_data : pyval) (r : string) : Prop :=
  match courier_data with
  | PDict regions =>
      match PyVal.dict_find regions r with
      | None => True
      | Some v => PyVal.isinstance_int v = false \/ PyVal.int_value v <= 0
      end
  | _ => True
  end.

(** The test at the head of [get_config]: no refresh is forced and a
    snapshot is there whose age is below the ttl. *)
Definition fresh (force_refresh : bool) (now : Z)
    (st : ConfigCache.cache_state) : bool :=
  negb force_refresh
  && match ConfigCache._cache st, ConfigCache._cache_time st with
     | Some _, Some t => now - t <? ConfigCache._cache_ttl st
     | _, _ => false
     end.

(** What the cache is like between the calls of a process: no fetch is
    in flight, the ttl is not negative, a snapshot and its time stamp
    come together, and a snapshot is a configuration that
    [_validate_config] accepted. *)
Definition cache_valid (w : world) (st : ConfigCache.cache_state) : Prop :=
  ConfigCache._fetch_in_progress st = false
  /\ 0 <= ConfigCache._cache_ttl st
  /\ match ConfigCache._cache st with
     | Some c =>
         ConfigCache._validate_config w c = true
         /\ ConfigCache._cache_time st <> None
     | None => ConfigCache._cache_time st = None
     end.

(** The operations on the configuration cache, and the states they lead
    to. *)
Inductive config_op : Type :=
  | OpGetConfig (force_refresh : bool) (now : Z)
  | OpClearConfig
  | OpSetTtl (ttl_seconds : Z).

Definition run_config_op (w : world) (o : config_op)
    (s : ConfigCache.cache_state * nat) : ConfigCache.cache_state * nat :=
  match o with
  | OpGetConfig f now => snd (ConfigCache.get_config w f now s)
  | OpClearConfig => (ConfigCache.clear_cache (fst s), snd s)
  | OpSetTtl ttl => (ConfigCache.set_cache_ttl ttl (fst s), snd s)
  end.

Definition run_config_ops (w : world) (ops : list config_op)
    (s : ConfigCache.cache_state * nat) : ConfigCache.cache_state * nat :=
  fold_left (fun s o => run_config_op w o s) ops s.

(** The keys [parse_to_config] starts from. *)
Definition config_keys : list string :=
  ["store_name"; "timezone"; "cutoff_time"; "working_days"; "couriers"].

(** The key [parse_to_config] reads off a row: the first cell, stripped,
    of a row of two cells or more. *)
Definition row_key (row : list string) : option string :=
  match row with
  | r0 :: _ :: _ => Some (PyStr.strip r0)
  | _ => None
  end.

(** A row for the courier table whose text [json.loads] rejects. *)
Definition bad_couriers_row (w : world) (row : list string) : Prop :=
  match row with
  | r0 :: r1 :: _ =>
      PyStr.strip r0 = "couriers"
      /\ exists e, json_loads w (PyStr.strip r1) = Raise e
  | _ => False
  end.

(** The characters of a courier name that [validate_courier] accepts:
    digits, capital letters, and the three that are taken out before the
    [isalnum] test. *)
Definition courier_char (c : ascii) : bool :=
  PyStr.isdigit c || PyStr.isupper c
  || Ascii.eqb c "&" || Ascii.eqb c "-" || Ascii.eqb c " ".

(** [p] holds of the [n] integers from [lo] on; the counter is binary,
    for the checks that run over long ranges. *)
Fixpoint all_from (p : Z -> bool) (lo : Z) (n : nat) : bool :=
  match n with
  | O => true
  | S n' => p lo && all_from p (lo + 1) n'
  end.

(** [_ord2ymd] after its first division: [n400] whole 400-year cycles
    and [n] days into the next one. *)
Definition ord2ymd_tail (n400 n : Z) : date :=
  let y := n400 * 400 + 1 in
  let n100 := n / _DI100Y in
  let n := n mod _DI100Y in
  let n4 := n / _DI4Y in
  let n := n mod _DI4Y in
  let n1 := n / 365 in
  let n := n mod 365 in
  let y := y + n100 * 100 + n4 * 4 + n1 in
  if (n1 =? 4) || (n100 =? 4) then mkdate (y - 1) 12 31
  else
    let leapyear := (n1 =? 3) && (negb (n4 =? 24) || (n100 =? 3)) in
    let m := Z.shiftr (n + 50) 5 in
    let preceding :=
      table _DAYS_BEFORE_MONTH m + (if (2 <? m) && leapyear then 1 else 0) in
    if n <? preceding then
      let m := m - 1 in
      let preceding :=
        preceding
        - (table _DAYS_IN_MONTH m + (if (m =? 2) && leapyear then 1 else 0)) in
      mkdate y m (n - preceding + 1)
    else mkdate y m (n - preceding + 1).

(** The month and the day that [_ord2ymd] reads off day [n] (from 0) of
    a year, leap or not. *)
Definition month_day (leapyear : bool) (n : Z) : Z * Z :=
  let m := Z.shiftr (n + 50) 5 in
  let preceding :=
    table _DAYS_BEFORE_MONTH m + (if (2 <? m) && leapyear then 1 else 0) in
  if n <? preceding then
    let m := m - 1 in
    let preceding :=
      preceding
      - (table _DAYS_IN_MONTH m + (if (m =? 2) && leapyear then 1 else 0)) in
    (m, n - preceding + 1)
  else (m, n - preceding + 1).

(** The days before that month and the day make [n + 1]. *)
Definition month_day_ok (leapyear : bool) (n : Z) : bool :=
  let md := month_day leapyear n in
  table _DAYS_BEFORE_MONTH (fst md)
  + (if (2 <? fst md) && leapyear then 1 else 0) + snd md
  =? n + 1.

(** The holiday lists of year [y]: 14 dates, or 13 when April 9 is one
    of the Holy Week dates, and 4 major ones, all of year [y]. *)
Definition holiday_lists_ok (y : Z) : bool :=
  let l := ph_holidays y in
  let m := major_ph_holidays y in
  forallb (fun d => year d =? y) l
  && forallb (fun d => year d =? y) m
  && (Z.of_nat (length l)
      =? if date_in (mkdate y 4 9) (_get_holy_week_dates y) then 13 else 14)
  && (Z.of_nat (length m) =? 4).

(** A day [get_next_working_day] passes over. *)
Definition non_working (d : date) (major_holidays_only : bool) : bool :=
  is_sunday d || holiday d major_holidays_only.

End Spec.

(** ** A sample deployment, for the concrete cases *)

Module Sample.

Definition dq : string := String (ascii_of_nat 34) EmptyString.

(** The text of the [couriers] cell of the sheet. *)
Definition couriers_json : string :=
  String.concat ""
    ["{"; dq; "LBC"; dq; ": {"; dq; "ncr"; dq; ": 2, "; dq; "luzon"; dq; ": 3}, ";
     dq; "J&T"; dq; ": {"; dq; "ncr"; dq; ": 1}}"].

Definition couriers : pyval :=
  PDict [("LBC", PDict [("ncr", PInt 2); ("luzon", PInt 3)]);
         ("J&T", PDict [("ncr", PInt 1)])].

(** [json.loads] on the one text this deployment decodes. *)
Definition json_loads (s : string) : result pyval :=
  if String.eqb s couriers_json then Ok couriers else Raise ValueError.

Definition known_zone (z : string) : bool :=
  String.eqb z "Asia/Manila" || String.eqb z "UTC".

Definition rows : list (list string) :=
  [["timezone"; "Asia/Manila"]; ["cutoff_time"; "14:00"];
   ["couriers"; couriers_json]].

(** The sheet answers the first fetch and is unreachable afterwards. *)
Definition get_sheet_data (n : nat) : result (list (list string)) :=
  match n with
  | O => Ok rows
  | S _ => Raise RemoteError
  end.

Definition config : dict :=
  [("store_name", PStr ""); ("timezone", PStr "Asia/Manila");
   ("cutoff_time", PStr "14:00"); ("working_days", PList []);
   ("couriers", couriers)].

(** 2025-12-24, 09:00 in every zone. *)
Definition now_in (z : string) : datetime :=
  mkdatetime (mkdate 2025 12 24) 9 0 0 0 z.

Definition deployment : world :=
  mkworld known_zone json_loads get_sheet_data now_in.

(** The cache after the first call at clock reading 1000. *)
Definition loaded : ConfigCache.cache_state :=
  ConfigCache.mkcache (Some config) (Some 1000) 600 false.

End Sample.

(** ** Proof steps *)

(** The next test of the key in the [if] chain of [parse_row]. *)
Ltac case_key :=
  match goal with
  | |- context [if String.eqb ?a ?k then _ else _] =>
      destruct (String.eqb a k) eqn:?
  end.

(** * Properties *)

Import HolidayCalculator DeliveryCalculator.

(** ** The order on dates *)

Section DateOrder.

Lemma date_eqb_eq (a b : date) : date_eqb a b = true <-> a = b.
Proof.
  destruct a as [y1 m1 d1], b as [y2 m2 d2]; unfold date_eqb; simpl.
  rewrite !andb_true_iff, !Z.eqb_eq. split.
  - intros [[-> ->] ->]. reflexivity.
  - intros H. injection H as -> -> ->. auto.
Qed.

Lemma date_ltb_spec (a b : date) :
  date_ltb a b = true <->
  year a < year b
  \/ (year a = year b
      /\ (month a < month b \/ (month a = month b /\ day a < day b))).
Proof.
  unfold date_ltb.
  rewrite !orb_true_iff, !andb_true_iff, !orb_true_iff, !andb_true_iff,
          !Z.ltb_lt, !Z.eqb_eq.
  tauto.
Qed.

Lemma date_le_spec (a b : date) :
  date_le a b <->
  year a < year b
  \/ (year a = year b
      /\ (month a < month b \/ (month a = month b /\ day a <= day b))).
Proof.
  unfold date_le. rewrite <- not_true_iff_false, date_ltb_spec. lia.
Qed.

Global Instance date_le_total : Total date_le.
Proof. intros a b. rewrite !date_le_spec. lia. Qed.

Global Instance date_le_trans : Transitive date_le.
Proof. intros a b c. rewrite !date_le_spec. lia. Qed.

Global Instance date_lt_trans : Transitive date_lt.
Proof. intros a b c. unfold date_lt. rewrite !date_ltb_spec. lia. Qed.

Lemma date_lt_irrefl (a : date) : ~ date_lt a a.
Proof. unfold date_lt. rewrite date_ltb_spec. lia. Qed.

Lemma date_le_neq_lt (a b : date) : date_le a b -> a <> b -> date_lt a b.
Proof.
  unfold date_lt. rewrite date_le_spec, date_ltb_spec. intros H Hne.
  destruct a as [y1 m1 d1], b as [y2 m2 d2]; simpl in *.
  assert (~ (y1 = y2 /\ m1 = m2 /\ d1 = d2)) by (intros (-> & -> & ->); auto).
  lia.
Qed.

Lemma date_in_In (x : date) (l : list date) : date_in x l = true <-> In x l.
Proof.
  unfold date_in. rewrite existsb_exists. split.
  - intros (y & Hy & E). apply date_eqb_eq in E. subst. exact Hy.
  - intros H. exists x. split; [exact H | apply date_eqb_eq; reflexivity].
Qed.

End DateOrder.

(** ** [sorted(list(set(l)))] *)

Section SortedSet.

Lemma StronglySorted_le_NoDup_lt (l : list date) :
  StronglySorted date_le l -> NoDup l -> StronglySorted date_lt l.
Proof.
  induction 1 as [|x l Hs IH Hall]; intros Hnd.
  - constructor.
  - apply NoDup_cons in Hnd as [Hx Hnd]. constructor; [auto|].
    rewrite List.Forall_forall in *. intros y Hy.
    apply date_le_neq_lt; [auto|]. intros ->. apply Hx.
    apply list_elem_of_In. exact Hy.
Qed.

Lemma py_sorted_set_perm (l : list date) :
  Permutation (py_sorted (py_set l)) (remove_dups l).
Proof. apply merge_sort_Permutation. Qed.

Lemma py_sorted_set_In (l : list date) (x : date) :
  In x (py_sorted (py_set l)) <-> In x l.
Proof.
  rewrite <- !list_elem_of_In, (py_sorted_set_perm l).
  apply elem_of_remove_dups.
Qed.

Lemma py_sorted_set_NoDup (l : list date) : NoDup (py_sorted (py_set l)).
Proof.
  rewrite (py_sorted_set_perm l). apply NoDup_remove_dups.
Qed.

Lemma py_sorted_set_sorted (l : list date) :
  StronglySorted date_lt (py_sorted (py_set l)).
Proof.
  apply StronglySorted_le_NoDup_lt.
  - apply StronglySorted_merge_sort; apply _.
  - apply py_sorted_set_NoDup.
Qed.

End SortedSet.

(** ** The holiday dictionaries *)

Section HolidayCaches.
Import Spec.

Lemma cache_ok_initial : cache_ok HolidayCalculator.initial.
Proof. split; intros y l H; simpl in H; rewrite lookup_empty in H; discriminate. Qed.

Lemma get_ph_holidays_ok (y : Z) (st : caches) :
  cache_ok st ->
  fst (get_ph_holidays y st) = ph_holidays y
  /\ cache_ok (snd (get_ph_holidays y st)).
Proof.
  intros [H1 H2]. unfold get_ph_holidays, ph_holidays.
  destruct (_holiday_cache st !! y) as [l|] eqn:E.
  - rewrite (H1 _ _ E). simpl. split; [reflexivity | split; assumption].
  - destruct (compute_ph_holidays y) as [l|e] eqn:C; simpl.
    + split; [reflexivity|]. split; simpl; [|assumption].
      intros y' l'. rewrite lookup_insert. case_decide as D.
      * subst y'. intros [= <-]. exact C.
      * apply H1.
    + split; [reflexivity | split; assumption].
Qed.

Lemma get_major_ph_holidays_ok (y : Z) (st : caches) :
  cache_ok st ->
  fst (get_major_ph_holidays y st) = major_ph_holidays y
  /\ cache_ok (snd (get_major_ph_holidays y st)).
Proof.
  intros [H1 H2]. unfold get_major_ph_holidays, major_ph_holidays.
  destruct (_major_holiday_cache st !! y) as [l|] eqn:E.
  - rewrite (H2 _ _ E). simpl. split; [reflexivity | split; assumption].
  - destruct (compute_major_ph_holidays y) as [l|e] eqn:C; simpl.
    + split; [reflexivity|]. split; simpl; [assumption|].
      intros y' l'. rewrite lookup_insert. case_decide as D.
      * subst y'. intros [= <-]. exact C.
      * apply H2.
    + split; [reflexivity | split; assumption].
Qed.

Lemma is_holiday_ok (d : date) (major_only : bool) (st : caches) :
  cache_ok st ->
  fst (is_holiday d major_only st) = holiday d major_only
  /\ cache_ok (snd (is_holiday d major_only st)).
Proof.
  intros H. unfold is_holiday, holiday, bind, ret.
  destruct major_only.
  - destruct (get_major_ph_holidays_ok (year d) st H) as [E K].
    destruct (get_major_ph_holidays (year d) st) as [l st1]; simpl in *.
    subst l. auto.
  - destruct (get_ph_holidays_ok (year d) st H) as [E K].
    destruct (get_ph_holidays (year d) st) as [l st1]; simpl in *.
    subst l. auto.
Qed.

Lemma clear_cache_ok (st : caches) : cache_ok (snd (clear_cache st)).
Proof. apply cache_ok_initial. Qed.

Lemma should_skip_date_ok (courier_name : string) (d : date) (st : caches) :
  cache_ok st ->
  fst (should_skip_date courier_name d st) = skips courier_name d
  /\ cache_ok (snd (should_skip_date courier_name d st)).
Proof.
  intros H. unfold should_skip_date, skips, bind, ret.
  destruct (String.eqb courier_name "LBC") eqn:EL.
  - apply String.eqb_eq in EL. subst courier_name. simpl.
    destruct (is_holiday_ok d false st H) as [E K].
    destruct (is_holiday d false st) as [b st1]; simpl in *. subst b. auto.
  - destruct (String.eqb courier_name "J&T") eqn:EJ.
    + destruct (is_holiday_ok d true st H) as [E K].
      destruct (is_holiday d true st) as [b st1]; simpl in *. subst b. auto.
    + destruct (is_holiday_ok d false st H) as [E K].
      destruct (is_holiday d false st) as [b st1]; simpl in *. subst b. auto.
Qed.

Lemma new_date_inv (y m d : Z) (x : date) :
  new_date y m d = Ok x -> 1 <= y <= 9999 /\ x = mkdate y m d.
Proof.
  unfold new_date, MINYEAR, MAXYEAR.
  destruct ((1 <=? y) && (y <=? 9999)) eqn:B; [|discriminate].
  destruct ((1 <=? m) && (m <=? 12)); [|discriminate].
  destruct ((1 <=? d) && (d <=? _days_in_month y m)); [|discriminate].
  simpl. intros [= <-]. split; [lia | reflexivity].
Qed.

Lemma new_date_fixed (y m d : Z) :
  1 <= y <= 9999 -> m <> 2 -> 1 <= m <= 12 ->
  1 <= d <= table _DAYS_IN_MONTH m ->
  new_date y m d = Ok (mkdate y m d).
Proof.
  intros Hy Hm Hm' Hd. unfold new_date, MINYEAR, MAXYEAR, _days_in_month.
  replace (m =? 2) with false by (symmetry; apply Z.eqb_neq; lia).
  replace ((1 <=? y) && (y <=? 9999)) with true
    by (symmetry; apply andb_true_iff; lia).
  replace ((1 <=? m) && (m <=? 12)) with true
    by (symmetry; apply andb_true_iff; lia).
  simpl.
  replace ((1 <=? d) && (d <=? table _DAYS_IN_MONTH m)) with true
    by (symmetry; apply andb_true_iff; lia).
  reflexivity.
Qed.

Lemma compute_ph_holidays_valid (y : Z) :
  1 <= y <= 9999 ->
  compute_ph_holidays y
  = Ok (py_sorted (py_set (fixed_dates y ++ _get_holy_week_dates y))).
Proof.
  intros Hy. unfold compute_ph_holidays, rbind.
  rewrite !new_date_fixed by (try (intros; assumption); vm_compute; intuition congruence).
  reflexivity.
Qed.

Lemma compute_major_ph_holidays_valid (y : Z) :
  1 <= y <= 9999 ->
  compute_major_ph_holidays y = Ok (py_sorted (py_set (major_dates y))).
Proof.
  intros Hy. unfold compute_major_ph_holidays, major_dates, rbind.
  rewrite !new_date_fixed by (try (intros; assumption); vm_compute; intuition congruence).
  destruct (_get_holy_week_dates y) as [|a [|b r]]; reflexivity.
Qed.

Lemma compute_ph_holidays_invalid (y : Z) :
  ~ 1 <= y <= 9999 -> major_ph_holidays y = [] /\ ph_holidays y = [].
Proof.
  intros Hy. unfold major_ph_holidays, ph_holidays,
    compute_major_ph_holidays, compute_ph_holidays, rbind.
  destruct (new_date y 1 1) as [x|] eqn:E; [|split; reflexivity].
  apply new_date_inv in E. tauto.
Qed.

Lemma major_subset_all (y : Z) (x : date) :
  In x (major_ph_holidays y) -> In x (ph_holidays y).
Proof.
  destruct (decide (1 <= y <= 9999)) as [Hy|Hy].
  - unfold major_ph_holidays, ph_holidays.
    rewrite compute_major_ph_holidays_valid, compute_ph_holidays_valid by exact Hy.
    rewrite !py_sorted_set_In. unfold major_dates, fixed_dates.
    rewrite !in_app_iff.
    destruct (_get_holy_week_dates y) as [|a [|b r]]; simpl; tauto.
  - destruct (compute_ph_holidays_invalid y Hy) as [-> ->]. auto.
Qed.

Lemma ph_holidays_sorted (y : Z) : StronglySorted date_lt (ph_holidays y).
Proof.
  destruct (decide (1 <= y <= 9999)) as [Hy|Hy].
  - unfold ph_holidays. rewrite compute_ph_holidays_valid by exact Hy.
    apply py_sorted_set_sorted.
  - destruct (compute_ph_holidays_invalid y Hy) as [_ ->]. constructor.
Qed.

Lemma StronglySorted_lt_NoDup (l : list date) :
  StronglySorted date_lt l -> NoDup l.
Proof.
  induction 1 as [|x l Hs IH Hall]; [constructor|].
  apply NoDup_cons. split; [|exact IH].
  intros Hx. rewrite List.Forall_forall in Hall.
  apply (date_lt_irrefl x). apply Hall. apply list_elem_of_In. exact Hx.
Qed.

End HolidayCaches.

(** ** Easter *)

Lemma easter_ok_years : forallb Spec.easter_ok (Spec.zrange 1900 201) = true.
Proof. vm_compute. reflexivity. Qed.

Lemma in_zrange (lo : Z) (n : nat) (y : Z) :
  lo <= y < lo + Z.of_nat n -> In y (Spec.zrange lo n).
Proof.
  intros H. unfold Spec.zrange. apply in_map_iff.
  exists (Z.to_nat (y - lo)). split; [lia|]. apply in_seq. lia.
Qed.

(** C5. For every year from 1900 to 2100, [_calculate_easter] returns a
    Sunday, and [_get_holy_week_dates] returns exactly the dates three, two
    and one day before it, in this order (a Thursday, a Friday and a
    Saturday). *)
Theorem C5_easter_sunday_holy_week (Y : Z) :
  1900 <= Y <= 2100 ->
  exists e mt gf bs,
    _calculate_easter Y = Ok e
    /\ is_sunday e = true
    /\ sub_days e 3 = Ok mt /\ sub_days e 2 = Ok gf /\ sub_days e 1 = Ok bs
    /\ _get_holy_week_dates Y = [mt; gf; bs]
    /\ days_between e mt = 3 /\ days_between e gf = 2 /\ days_between e bs = 1
    /\ weekday mt = 3 /\ weekday gf = 4 /\ weekday bs = 5.
Proof.
  intros HY.
  pose proof (proj1 (forallb_forall _ _) easter_ok_years Y) as H.
  specialize (H (in_zrange 1900 201 Y ltac:(lia))).
  unfold Spec.easter_ok in H.
  destruct (_calculate_easter Y) as [e|] eqn:He; [|discriminate].
  destruct (sub_days e 3) as [mt|] eqn:E3; [|discriminate].
  destruct (sub_days e 2) as [gf|] eqn:E2; [|discriminate].
  destruct (sub_days e 1) as [bs|] eqn:E1; [|discriminate].
  rewrite !andb_true_iff in H.
  destruct H as (((((((Hs & Hw) & H3) & H2) & H1) & W3) & W4) & W5).
  apply bool_decide_eq_true in Hw.
  apply Z.eqb_eq in H3, H2, H1, W3, W4, W5.
  exists e, mt, gf, bs. repeat split; auto.
Qed.

Lemma C5_witness :
  exists e mt gf bs,
    _calculate_easter 2025 = Ok e
    /\ is_sunday e = true
    /\ sub_days e 3 = Ok mt /\ sub_days e 2 = Ok gf /\ sub_days e 1 = Ok bs
    /\ _get_holy_week_dates 2025 = [mt; gf; bs]
    /\ days_between e mt = 3 /\ days_between e gf = 2 /\ days_between e bs = 1
    /\ weekday mt = 3 /\ weekday gf = 4 /\ weekday bs = 5.
Proof. apply (C5_easter_sunday_holy_week 2025). lia. Defined.

(** ** The loop of [calculate_delivery_date] *)

Section DeliveryLoop.
Import Spec.

Variables (courier_name : string) (base_days max_iterations : Z).

Lemma while_loop_pure (fuel : nat) (s : loop_state) (st : caches) :
  cache_ok st ->
  fst (while_loop fuel courier_name base_days max_iterations s st)
  = pure_loop fuel courier_name base_days max_iterations s
  /\ cache_ok (snd (while_loop fuel courier_name base_days max_iterations s st)).
Proof.
  revert s st. induction fuel as [|n IH]; intros s st H; simpl.
  - destruct ((days_added s <? base_days) && (iterations s <? max_iterations));
      simpl; auto.
  - destruct ((days_added s <? base_days) && (iterations s <? max_iterations));
      simpl; auto.
    destruct (add_days (current_date s) 1) as [d|e]; simpl; auto.
    destruct (should_skip_date_ok courier_name d st H) as [E K].
    destruct (should_skip_date courier_name d st) as [skip st1]; simpl in *.
    subst skip. apply IH, K.
Qed.

Lemma pure_loop_unfold (fuel : nat) (s : loop_state) :
  pure_loop fuel courier_name base_days max_iterations s
  = if (days_added s <? base_days) && (iterations s <? max_iterations) then
      match fuel with
      | O => None
      | S fuel' =>
          match add_days (current_date s) 1 with
          | Raise e => Some (Raise e)
          | Ok d =>
              pure_loop fuel' courier_name base_days max_iterations
                (mkloop (if negb (skips courier_name d) then days_added s + 1
                         else days_added s) d (iterations s + 1))
          end
      end
    else Some (Ok s).
Proof. destruct fuel; reflexivity. Qed.

(** Enough fuel: the loop stops by itself. *)
Lemma pure_loop_fuel (fuel : nat) (s : loop_state) :
  max_iterations - iterations s <= Z.of_nat fuel ->
  pure_loop fuel courier_name base_days max_iterations s <> None.
Proof.
  revert s. induction fuel as [|n IH]; intros s Hf; rewrite pure_loop_unfold.
  - destruct (days_added s <? base_days); simpl; [|discriminate].
    destruct (iterations s <? max_iterations) eqn:G; [|discriminate].
    apply Z.ltb_lt in G. lia.
  - destruct ((days_added s <? base_days) && (iterations s <? max_iterations));
      [|discriminate].
    destruct (add_days (current_date s) 1); [|discriminate].
    apply IH. simpl. lia.
Qed.

Lemma counted_nonneg (k : nat) (d : date) (n : Z) :
  counted courier_name k d = Ok n -> 0 <= n.
Proof.
  revert d n. induction k as [|k IH]; intros d n; simpl.
  - intros [= <-]. lia.
  - unfold rbind. destruct (add_days d 1) as [d1|]; [|discriminate].
    destruct (counted courier_name k d1) as [c|] eqn:C; [|discriminate].
    intros [= <-]. specialize (IH _ _ C).
    destruct (skips courier_name d1); lia.
Qed.

Lemma counted_last (k : nat) (d0 d : date) (n : Z) :
  advance (S k) d0 = Ok d -> skips courier_name d = false ->
  counted courier_name (S k) d0 = Ok n -> 1 <= n.
Proof.
  revert d0 n. induction k as [|k IH]; intros d0 n.
  - simpl. unfold rbind. destruct (add_days d0 1) as [d1|]; [|discriminate].
    intros [= ->] Hs [= <-]. rewrite Hs. lia.
  - intros Ha Hs Hc. change (advance (S (S k)) d0)
      with (d' <-! add_days d0 1 ;; advance (S k) d') in Ha.
    change (counted courier_name (S (S k)) d0)
      with (d' <-! add_days d0 1 ;;
            c <-! counted courier_name (S k) d' ;;
            Ok ((if skips courier_name d' then 0 else 1) + c)) in Hc.
    unfold rbind in Ha, Hc.
    destruct (add_days d0 1) as [d1|]; [|discriminate].
    destruct (counted courier_name (S k) d1) as [c|] eqn:C; [|discriminate].
    injection Hc as <-. specialize (IH _ _ Ha Hs C).
    destruct (skips courier_name d1); lia.
Qed.

(** If advance number [k] is the one on which the counter reaches
    [base_days], the loop stops there. *)
Lemma pure_loop_reaches (k fuel : nat) (s : loop_state) (d : date) :
  (k <= fuel)%nat ->
  days_added s < base_days ->
  iterations s + Z.of_nat k <= max_iterations ->
  advance k (current_date s) = Ok d ->
  counted courier_name k (current_date s) = Ok (base_days - days_added s) ->
  skips courier_name d = false ->
  pure_loop fuel courier_name base_days max_iterations s
  = Some (Ok (mkloop base_days d (iterations s + Z.of_nat k))).
Proof.
  revert fuel s. induction k as [|k IH]; intros fuel s Hf Ha Hi Hadv Hc Hs.
  - simpl in Hc. injection Hc as Hc. lia.
  - destruct fuel as [|fuel]; [lia|].
    rewrite pure_loop_unfold.
    replace (days_added s <? base_days) with true by (symmetry; apply Z.ltb_lt; lia).
    replace (iterations s <? max_iterations) with true
      by (symmetry; apply Z.ltb_lt; lia).
    simpl andb. cbv iota.
    pose proof Hadv as Hadv'. pose proof Hc as Hc'.
    simpl in Hadv, Hc. unfold rbind in Hadv, Hc.
    destruct (add_days (current_date s) 1) as [d1|] eqn:A; [|discriminate].
    destruct (counted courier_name k d1) as [c|] eqn:C; [|discriminate].
    injection Hc as Hc.
    destruct k as [|k].
    + simpl in Hadv, C. injection Hadv as ->. injection C as <-.
      rewrite Hs in *. simpl negb. cbv iota.
      rewrite pure_loop_unfold. cbn [days_added iterations current_date].
      replace (days_added s + 1 <? base_days) with false
        by (symmetry; apply Z.ltb_ge; lia).
      simpl. do 3 f_equal; lia.
    + pose proof (counted_last _ _ _ _ Hadv Hs C) as Hl.
      pose proof (IH fuel
                    (mkloop (if negb (skips courier_name d1)
                             then days_added s + 1 else days_added s)
                            d1 (iterations s + 1))) as E.
      cbn [days_added iterations current_date] in E.
      rewrite E.
      * do 3 f_equal. lia.
      * lia.
      * destruct (skips courier_name d1); simpl; lia.
      * lia.
      * exact Hadv.
      * rewrite C. f_equal. destruct (skips courier_name d1); simpl; lia.
      * exact Hs.
Qed.

(** The loop never leaves before the counter or the bound is reached. *)
Lemma pure_loop_exit (fuel : nat) (s s' : loop_state) :
  pure_loop fuel courier_name base_days max_iterations s = Some (Ok s') ->
  base_days <= days_added s' \/ max_iterations <= iterations s'.
Proof.
  revert s. induction fuel as [|n IH]; intros s; rewrite pure_loop_unfold.
  - destruct (days_added s <? base_days) eqn:G1; simpl.
    + destruct (iterations s <? max_iterations) eqn:G2; [discriminate|].
      intros [= <-]. apply Z.ltb_ge in G2. auto.
    + intros [= <-]. apply Z.ltb_ge in G1. auto.
  - destruct (days_added s <? base_days) eqn:G1; simpl.
    + destruct (iterations s <? max_iterations) eqn:G2.
      * destruct (add_days (current_date s) 1); [apply IH | discriminate].
      * intros [= <-]. apply Z.ltb_ge in G2. auto.
    + intros [= <-]. apply Z.ltb_ge in G1. auto.
Qed.

(** If the loop ends with the counter at [base_days], the date it ends
    on is the one of the advance that reached it. *)
Lemma pure_loop_reached (fuel : nat) (s s' : loop_state) :
  pure_loop fuel courier_name base_days max_iterations s = Some (Ok s') ->
  days_added s < base_days ->
  base_days <= days_added s' ->
  exists k : nat,
    iterations s' = iterations s + Z.of_nat k
    /\ advance k (current_date s) = Ok (current_date s')
    /\ counted courier_name k (current_date s) = Ok (base_days - days_added s)
    /\ skips courier_name (current_date s') = false.
Proof.
  revert s. induction fuel as [|n IH]; intros s; rewrite pure_loop_unfold;
    intros H Ha Hb.
  - destruct ((days_added s <? base_days) && (iterations s <? max_iterations));
      [discriminate|]. injection H as <-. lia.
  - destruct ((days_added s <? base_days) && (iterations s <? max_iterations)).
    2:{ injection H as <-. lia. }
    destruct (add_days (current_date s) 1) as [d1|] eqn:A; [|discriminate].
    destruct (skips courier_name d1) eqn:Sk; simpl in H.
    + destruct (IH _ H) as (k & Hi & Hadv & Hc & Hs); simpl in *; try lia.
      exists (S k). simpl. unfold rbind. rewrite A, Hadv, Hc, Sk.
      repeat split; try assumption; try lia; try (f_equal; lia).
    + destruct (Z_lt_ge_dec (days_added s + 1) base_days) as [L|L].
      * destruct (IH _ H) as (k & Hi & Hadv & Hc & Hs); simpl in *; try lia.
        exists (S k). simpl. unfold rbind. rewrite A, Hadv, Hc, Sk.
        repeat split; try assumption; try lia; try (f_equal; lia).
      * rewrite pure_loop_unfold in H.
        cbn [days_added iterations current_date] in H.
        replace (days_added s + 1 <? base_days) with false in H
          by (symmetry; apply Z.ltb_ge; lia).
        simpl in H. injection H as <-. simpl.
        exists 1%nat. simpl. unfold rbind. rewrite A, Sk.
        repeat split; try reflexivity; try lia; try (f_equal; lia).
Qed.

End DeliveryLoop.

Section DeliveryDate.
Import Spec.

Lemma calculate_pure (start : date) (base_days : Z) (courier_name : string)
    (max_iterations : option Z) (st : caches) :
  cache_ok st ->
  fst (calculate_delivery_date start base_days courier_name max_iterations st)
  = pure_calculate start base_days courier_name max_iterations
  /\ cache_ok
       (snd (calculate_delivery_date start base_days courier_name
               max_iterations st)).
Proof.
  intros H. unfold calculate_delivery_date, pure_calculate, run_loop, bind, ret.
  fold (bound max_iterations).
  destruct (base_days <=? 0); simpl; [auto|].
  destruct (while_loop_pure courier_name base_days (bound max_iterations)
              (Z.to_nat (bound max_iterations)) (mkloop 0 start 0) st H)
    as [E K].
  destruct (while_loop _ _ _ _ _ st) as [r st1]; simpl in *. rewrite <- E.
  destruct r as [[s|e]|]; simpl; auto.
  destruct (bound max_iterations <=? iterations s); simpl; auto.
Qed.

(** The fuel given by [run_loop] is enough. *)
Lemma run_loop_total (start : date) (base_days : Z) (courier_name : string)
    (max_iterations : Z) (st : caches) :
  cache_ok st ->
  fst (run_loop start base_days courier_name max_iterations st) <> None.
Proof.
  intros H. unfold run_loop.
  rewrite (proj1 (while_loop_pure _ _ _ _ _ _ H)).
  apply pure_loop_fuel. simpl. lia.
Qed.

Lemma pure_calculate_nonpositive (start : date) (base_days : Z)
    (courier_name : string) (max_iterations : option Z) :
  base_days <= 0 ->
  pure_calculate start base_days courier_name max_iterations = None.
Proof.
  intros H. unfold pure_calculate.
  replace (base_days <=? 0) with true by (symmetry; apply Z.leb_le; lia).
  reflexivity.
Qed.

Lemma pure_calculate_reaches (start d : date) (base_days : Z)
    (courier_name : string) (max_iterations : option Z) (k : nat) :
  0 < base_days ->
  reaches courier_name start base_days k d ->
  Z.of_nat k < bound max_iterations ->
  pure_calculate start base_days courier_name max_iterations = Some d.
Proof.
  intros Hb (Hadv & Hc & Hs) Hk. unfold pure_calculate.
  replace (base_days <=? 0) with false by (symmetry; apply Z.leb_gt; lia).
  rewrite (pure_loop_reaches courier_name base_days (bound max_iterations)
             k (Z.to_nat (bound max_iterations)) (mkloop 0 start 0) d);
    simpl; try assumption; try lia.
  - replace (bound max_iterations <=? 0 + Z.of_nat k) with false
      by (symmetry; apply Z.leb_gt; lia).
    reflexivity.
  - rewrite Hc. f_equal. lia.
Qed.

Lemma pure_calculate_some (start d : date) (base_days : Z)
    (courier_name : string) (max_iterations : option Z) :
  pure_calculate start base_days courier_name max_iterations = Some d ->
  0 < base_days
  /\ exists k : nat,
       Z.of_nat k <= bound max_iterations
       /\ reaches courier_name start base_days k d.
Proof.
  unfold pure_calculate.
  destruct (base_days <=? 0) eqn:B; [discriminate|]. apply Z.leb_gt in B.
  destruct (pure_loop _ _ _ _ _) as [[s|e]|] eqn:L; try discriminate.
  destruct (bound max_iterations <=? iterations s) eqn:I; [discriminate|].
  apply Z.leb_gt in I. intros [= <-]. split; [exact B|].
  destruct (pure_loop_exit _ _ _ _ _ _ L) as [Hd|Hi]; [|lia].
  destruct (pure_loop_reached _ _ _ _ _ _ L) as (k & Hk & Hadv & Hc & Hs);
    simpl in *; try lia.
  exists k. split; [lia|]. unfold reaches. rewrite Hadv, Hc, Hs.
  repeat split. f_equal. lia.
Qed.

End DeliveryDate.

(** C1, as the code has it. In every state of the holiday dictionaries
    that the class leads to: the call fails for every [base_days <= 0]; it
    succeeds, with the date of that advance, whenever the advance on which
    the counter reaches [base_days] is numbered below the bound; and it
    succeeds only if some advance within the bound reaches [base_days], so
    it fails when the advances are exhausted first and when an advance
    would pass the last date of the calendar first. (The advance numbered
    exactly [max_iterations] is covered by neither half.) The loop always
    comes to an end within the bound. *)
Theorem C1_calculate_delivery_date_outcomes (start : date) (base_days : Z)
    (courier_name : string) (max_iterations : option Z) (st : caches) :
  Spec.cache_ok st ->
  (base_days <= 0 ->
   fst (calculate_delivery_date start base_days courier_name max_iterations st)
   = None)
  /\ (forall (k : nat) (d : date),
        0 < base_days ->
        Spec.reaches courier_name start base_days k d ->
        Z.of_nat k < Spec.bound max_iterations ->
        fst (calculate_delivery_date start base_days courier_name
               max_iterations st) = Some d)
  /\ (forall d : date,
        fst (calculate_delivery_date start base_days courier_name
               max_iterations st) = Some d ->
        0 < base_days
        /\ exists k : nat,
             Z.of_nat k <= Spec.bound max_iterations
             /\ Spec.reaches courier_name start base_days k d)
  /\ fst (run_loop start base_days courier_name (Spec.bound max_iterations) st)
     <> None.
Proof.
  intros H.
  rewrite (proj1 (calculate_pure start base_days courier_name max_iterations st H)).
  split; [apply pure_calculate_nonpositive|].
  split; [intros k d; apply pure_calculate_reaches|].
  split; [intros d; apply pure_calculate_some|].
  apply run_loop_total, H.
Qed.

Lemma C1_witness :
  Spec.cache_ok HolidayCalculator.initial
  /\ fst (calculate_delivery_date (mkdate 2025 12 24) 3 "LBC" (Some 6)
            HolidayCalculator.initial) = Some (mkdate 2025 12 29).
Proof.
  split; [exact cache_ok_initial|].
  refine (proj1 (proj2 (C1_calculate_delivery_date_outcomes
                          (mkdate 2025 12 24) 3 "LBC" (Some 6)
                          HolidayCalculator.initial cache_ok_initial))
                5%nat (mkdate 2025 12 29) _ _ _).
  - lia.
  - vm_compute. repeat split; reflexivity.
  - vm_compute. reflexivity.
Defined.

(** C1 as stated fails twice. With the bound at 5, the counter reaches 3 on
    advance number 5, within the bound, and the call fails all the same.
    And from the last date of the calendar the call fails on its first
    advance, with a positive [base_days] and none of the 100 advances
    used. *)
Lemma C1_counterexample :
  (Spec.reaches "LBC" (mkdate 2025 12 24) 3 5 (mkdate 2025 12 29)
   /\ Z.of_nat 5 <= Spec.bound (Some 5)
   /\ fst (calculate_delivery_date (mkdate 2025 12 24) 3 "LBC" (Some 5)
             HolidayCalculator.initial) = None)
  /\ (0 < 1
      /\ fst (run_loop (mkdate 9999 12 31) 1 "LBC" 100 HolidayCalculator.initial)
         = Some (Raise OverflowError)
      /\ fst (calculate_delivery_date (mkdate 9999 12 31) 1 "LBC" None
                HolidayCalculator.initial) = None).
Proof. vm_compute. intuition (congruence || reflexivity). Qed.

(** ** The states of the holiday dictionaries *)

Section HolidayOps.
Import Spec.

Lemma next_working_day_scan_ok (n : nat) (d : date) (m : bool) (st : caches) :
  cache_ok st -> cache_ok (snd (next_working_day_scan n d m st)).
Proof.
  revert d st. induction n as [|n IH]; intros d st H; simpl; [exact H|].
  destruct (is_sunday d).
  - destruct (add_days d 1); [apply IH; exact H | exact H].
  - destruct (is_holiday_ok d m st H) as [_ K].
    destruct (is_holiday d m st) as [hol st1]; simpl in *.
    destruct (negb hol); [exact K|].
    destruct (add_days d 1); [apply IH; exact K | exact K].
Qed.

Lemma run_op_ok (o : holiday_op) (st : caches) :
  cache_ok st -> cache_ok (run_op o st).
Proof.
  intros H. destruct o; simpl.
  - apply get_ph_holidays_ok, H.
  - apply get_major_ph_holidays_ok, H.
  - apply is_holiday_ok, H.
  - unfold get_next_working_day. destruct (add_days d 1); [|exact H].
    apply next_working_day_scan_ok, H.
  - apply cache_ok_initial.
  - apply should_skip_date_ok, H.
  - apply calculate_pure, H.
Qed.

Lemma run_ops_ok (ops : list holiday_op) (st : caches) :
  cache_ok st -> cache_ok (run_ops ops st).
Proof.
  revert st. induction ops as [|o ops IH]; intros st H; simpl; [exact H|].
  apply IH, run_op_ok, H.
Qed.

(** Every state the process reaches keeps the dictionaries right. *)
Lemma reachable_cache_ok (ops : list holiday_op) :
  cache_ok (run_ops ops HolidayCalculator.initial).
Proof. apply run_ops_ok, cache_ok_initial. Qed.

End HolidayOps.

Lemma get_ph_holidays_twice (Y : Z) (st : caches) :
  get_ph_holidays Y (snd (get_ph_holidays Y st))
  = (fst (get_ph_holidays Y st), snd (get_ph_holidays Y st)).
Proof.
  unfold get_ph_holidays.
  destruct (_holiday_cache st !! Y) as [l|] eqn:C; simpl.
  - rewrite C. reflexivity.
  - destruct (compute_ph_holidays Y) as [l|e] eqn:CP; simpl.
    + rewrite lookup_insert_eq. reflexivity.
    + rewrite C. reflexivity.
Qed.

(** C7. For every year, in every state of the dictionaries that the
    operations of the class lead to, [get_ph_holidays] returns a list that
    is strictly ascending (so sorted, without duplicate dates), that
    contains every date [get_major_ph_holidays] returns, and that is
    returned again, identical, by a second call and by any later call,
    whatever operations of the class ran in between; the entry stored for
    the year is the same before and after the second call. *)
Theorem C7_holidays_sorted_subset_idempotent (Y : Z) (st : caches) :
  Spec.cache_ok st ->
  StronglySorted date_lt (fst (get_ph_holidays Y st))
  /\ NoDup (fst (get_ph_holidays Y st))
  /\ (forall st' x, Spec.cache_ok st' ->
        In x (fst (get_major_ph_holidays Y st')) ->
        In x (fst (get_ph_holidays Y st)))
  /\ get_ph_holidays Y (snd (get_ph_holidays Y st))
     = (fst (get_ph_holidays Y st), snd (get_ph_holidays Y st))
  /\ (forall ops,
        fst (get_ph_holidays Y (Spec.run_ops ops (snd (get_ph_holidays Y st))))
        = fst (get_ph_holidays Y st)).
Proof.
  intros H.
  destruct (get_ph_holidays_ok Y st H) as [E K]. rewrite E.
  split; [apply ph_holidays_sorted|].
  split; [apply StronglySorted_lt_NoDup, ph_holidays_sorted|].
  split.
  { intros st' x H' Hx.
    destruct (get_major_ph_holidays_ok Y st' H') as [E' _]. rewrite E' in Hx.
    apply major_subset_all, Hx. }
  split; [rewrite <- E; apply get_ph_holidays_twice|].
  intros ops.
  apply (get_ph_holidays_ok Y (Spec.run_ops ops _)), run_ops_ok, K.
Qed.

(** The start of the process is such a state. *)
Lemma C7_witness :
  Spec.cache_ok HolidayCalculator.initial
  /\ NoDup (fst (get_ph_holidays 2025 HolidayCalculator.initial)).
Proof.
  split; [exact cache_ok_initial|].
  exact (proj1 (proj2 (C7_holidays_sorted_subset_idempotent
                         2025 HolidayCalculator.initial cache_ok_initial))).
Defined.


(** ** The two scenarios around Christmas 2025 *)

(** C2. From 2025-12-24 with three business days and courier "LBC",
    whatever the dictionaries already hold: the call returns 2025-12-29 and
    the loop ends after 5 advances with the counter at 3; 2025-12-25 is
    skipped and is a holiday, 2025-12-26 and 2025-12-27 count, 2025-12-28
    is skipped and is a Sunday (not a holiday), 2025-12-29 counts; the
    result is 5 calendar days after the start. *)
Theorem C2_lbc_scenario (st : caches) :
  Spec.cache_ok st ->
  fst (calculate_delivery_date (mkdate 2025 12 24) 3 "LBC" None st)
  = Some (mkdate 2025 12 29)
  /\ fst (run_loop (mkdate 2025 12 24) 3 "LBC" MAX_CALCULATION_ITERATIONS st)
     = Some (Ok (mkloop 3 (mkdate 2025 12 29) 5))
  /\ fst (should_skip_date "LBC" (mkdate 2025 12 25) st) = true
  /\ fst (is_holiday (mkdate 2025 12 25) false st) = true
  /\ fst (should_skip_date "LBC" (mkdate 2025 12 26) st) = false
  /\ fst (should_skip_date "LBC" (mkdate 2025 12 27) st) = false
  /\ fst (should_skip_date "LBC" (mkdate 2025 12 28) st) = true
  /\ is_sunday (mkdate 2025 12 28) = true
  /\ fst (is_holiday (mkdate 2025 12 28) false st) = false
  /\ fst (should_skip_date "LBC" (mkdate 2025 12 29) st) = false
  /\ days_between (mkdate 2025 12 29) (mkdate 2025 12 24) = 5.
Proof.
  intros H. unfold run_loop.
  rewrite (proj1 (calculate_pure _ _ _ _ _ H)).
  rewrite (proj1 (while_loop_pure _ _ _ _ _ _ H)).
  rewrite !(proj1 (should_skip_date_ok _ _ _ H)).
  rewrite !(proj1 (is_holiday_ok _ _ _ H)).
  vm_compute. repeat split; reflexivity.
Qed.

Lemma C2_witness :
  Spec.cache_ok HolidayCalculator.initial
  /\ fst (calculate_delivery_date (mkdate 2025 12 24) 3 "LBC" None
            HolidayCalculator.initial) = Some (mkdate 2025 12 29).
Proof.
  split; [exact cache_ok_initial|].
  exact (proj1 (C2_lbc_scenario HolidayCalculator.initial cache_ok_initial)).
Defined.

(** C3. From 2025-12-24 with three business days and courier "J&T",
    whatever the dictionaries already hold: the call returns 2025-12-28 and
    the loop ends after 4 advances with the counter at 3; 2025-12-25 is
    skipped and is a major holiday, 2025-12-26, 2025-12-27 and 2025-12-28
    count, the last one although it is a Sunday; the result is 4 calendar
    days after the start. *)
Theorem C3_jt_scenario (st : caches) :
  Spec.cache_ok st ->
  fst (calculate_delivery_date (mkdate 2025 12 24) 3 "J&T" None st)
  = Some (mkdate 2025 12 28)
  /\ fst (run_loop (mkdate 2025 12 24) 3 "J&T" MAX_CALCULATION_ITERATIONS st)
     = Some (Ok (mkloop 3 (mkdate 2025 12 28) 4))
  /\ fst (should_skip_date "J&T" (mkdate 2025 12 25) st) = true
  /\ fst (is_holiday (mkdate 2025 12 25) true st) = true
  /\ fst (should_skip_date "J&T" (mkdate 2025 12 26) st) = false
  /\ fst (should_skip_date "J&T" (mkdate 2025 12 27) st) = false
  /\ fst (should_skip_date "J&T" (mkdate 2025 12 28) st) = false
  /\ is_sunday (mkdate 2025 12 28) = true
  /\ days_between (mkdate 2025 12 28) (mkdate 2025 12 24) = 4.
Proof.
  intros H. unfold run_loop.
  rewrite (proj1 (calculate_pure _ _ _ _ _ H)).
  rewrite (proj1 (while_loop_pure _ _ _ _ _ _ H)).
  rewrite !(proj1 (should_skip_date_ok _ _ _ H)).
  rewrite !(proj1 (is_holiday_ok _ _ _ H)).
  vm_compute. repeat split; reflexivity.
Qed.

Lemma C3_witness :
  Spec.cache_ok HolidayCalculator.initial
  /\ fst (calculate_delivery_date (mkdate 2025 12 24) 3 "J&T" None
            HolidayCalculator.initial) = Some (mkdate 2025 12 28).
Proof.
  split; [exact cache_ok_initial|].
  exact (proj1 (C3_jt_scenario HolidayCalculator.initial cache_ok_initial)).
Defined.

(** ** Confidence *)

Lemma confidence_agrees_range :
  forallb (fun b => forallb (Spec.confidence_agrees b) (Spec.zrange 0 301))
          (Spec.zrange 1 100) = true.
Proof. vm_compute. reflexivity. Qed.

(** C8, as the code has it. The ratio is the float quotient of the two
    integers, or 1 when [base_days] is not positive. The label is "high"
    when the ratio is at most 1.5, "medium" when it is above 1.5 and at most
    2.0, "low" when it is above 2.0; and it is "medium" when the quotient is
    too large for a float. For [base_days] from 1 to 100 and
    [total_calendar_days] from 0 to 300 the float comparisons decide as the
    exact quotient does. For [base_days = 3] the label is "high" at 4,
    "medium" at 5 and "low" at 7. *)
Theorem C8_delivery_confidence (base_days total : Z) (courier_name : string) :
  (base_days <= 0 ->
   get_delivery_confidence base_days total courier_name = "high")
  /\ (0 < base_days -> forall q,
        PyFloat.int_truediv total base_days = Ok q ->
        get_delivery_confidence base_days total courier_name
        = if PyFloat.leb q (PyFloat.literal 3 (-1)) then "high"
          else if PyFloat.leb q (PyFloat.literal 2 0) then "medium"
          else "low")
  /\ (0 < base_days -> forall e,
        PyFloat.int_truediv total base_days = Raise e ->
        get_delivery_confidence base_days total courier_name = "medium")
  /\ (1 <= base_days <= 100 -> 0 <= total <= 300 ->
      get_delivery_confidence base_days total courier_name
      = Spec.exact_confidence base_days total)
  /\ get_delivery_confidence 3 4 courier_name = "high"
  /\ get_delivery_confidence 3 5 courier_name = "medium"
  /\ get_delivery_confidence 3 7 courier_name = "low".
Proof.
  unfold get_delivery_confidence.
  split.
  { intros H. replace (0 <? base_days) with false
      by (symmetry; apply Z.ltb_ge; lia).
    reflexivity. }
  split.
  { intros H q E. replace (0 <? base_days) with true
      by (symmetry; apply Z.ltb_lt; lia).
    rewrite E. reflexivity. }
  split.
  { intros H e E. replace (0 <? base_days) with true
      by (symmetry; apply Z.ltb_lt; lia).
    rewrite E. reflexivity. }
  split.
  { intros Hb Ht.
    pose proof (proj1 (forallb_forall _ _) confidence_agrees_range base_days
                  (in_zrange 1 100 base_days ltac:(lia))) as A.
    pose proof (proj1 (forallb_forall _ _) A total
                  (in_zrange 0 301 total ltac:(lia))) as B.
    apply String.eqb_eq in B. exact B. }
  repeat split; vm_compute; reflexivity.
Qed.

Lemma C8_witness :
  (1 <= 3 <= 100) /\ (0 <= 5 <= 300)
  /\ get_delivery_confidence 3 5 "LBC" = Spec.exact_confidence 3 5.
Proof.
  split; [lia|]. split; [lia|].
  refine (proj1 (proj2 (proj2 (proj2 (C8_delivery_confidence 3 5 "LBC")))) _ _);
    lia.
Defined.

(** C8 as stated fails where the quotient is too large for a float: the
    ratio of 2^1024 to 1 is above 2.0, the division raises, and the label
    is "medium", not "low". *)
Lemma C8_counterexample :
  2 * 1 < 2 ^ 1024
  /\ PyFloat.int_truediv (2 ^ 1024) 1 = Raise OverflowError
  /\ get_delivery_confidence 1 (2 ^ 1024) "LBC" = "medium"
  /\ get_delivery_confidence 1 (2 ^ 1024) "LBC" <> "low".
Proof.
  split; [vm_compute; reflexivity|].
  split; [vm_compute; reflexivity|].
  split; [vm_compute; reflexivity|].
  vm_compute. discriminate.
Qed.

(** ** Cutoff *)

Section Cutoff.

Lemma split_no_sep (c : ascii) (s : string) :
  PyStr.contains_char c s = false -> PyStr.split c s = [s].
Proof.
  induction s as [|a r IH]; simpl; [reflexivity|].
  rewrite orb_false_iff. intros [Ha Hr]. rewrite Ha, (IH Hr). reflexivity.
Qed.

Lemma parse_hh_mm_no_colon (s : string) :
  PyStr.contains_char ":" s = false -> parse_hh_mm s = Raise ValueError.
Proof. intros H. unfold parse_hh_mm. rewrite (split_no_sep _ _ H). reflexivity. Qed.

Lemma datetime_ltb_same_day (ct : datetime) (h m s us : Z) :
  datetime_ltb ct (mkdatetime (dt_date ct) h m s us (tzname ct))
  = time_ltb (hour ct) (minute ct) (second ct) (microsecond ct) h m s us.
Proof.
  unfold datetime_ltb. simpl.
  replace (date_ltb (dt_date ct) (dt_date ct)) with false.
  - replace (date_eqb (dt_date ct) (dt_date ct)) with true; [reflexivity|].
    symmetry. apply date_eqb_eq. reflexivity.
  - symmetry. apply not_true_iff_false. apply date_lt_irrefl.
Qed.

Lemma replace_time_ok (ct : datetime) (h m : Z) :
  0 <= h < 24 -> 0 <= m < 60 ->
  replace_time ct h m 0 0 = Ok (mkdatetime (dt_date ct) h m 0 0 (tzname ct)).
Proof.
  intros Hh Hm. unfold replace_time.
  replace ((0 <=? h) && (h <=? 23)) with true
    by (symmetry; apply andb_true_iff; lia).
  replace ((0 <=? m) && (m <=? 59)) with true
    by (symmetry; apply andb_true_iff; lia).
  reflexivity.
Qed.

Lemma replace_time_bad (ct : datetime) (h m : Z) :
  ~ (0 <= h < 24 /\ 0 <= m < 60) ->
  replace_time ct h m 0 0 = Raise ValueError.
Proof.
  intros H. unfold replace_time.
  destruct ((0 <=? h) && (h <=? 23)) eqn:Bh; [|reflexivity].
  destruct ((0 <=? m) && (m <=? 59)) eqn:Bm; [|reflexivity].
  apply andb_true_iff in Bh, Bm. lia.
Qed.

Lemma valid_cutoff_spec (s : string) :
  ConfigCache.valid_cutoff (PStr s) = true <->
  exists h m, parse_hh_mm s = Ok (h, m) /\ 0 <= h < 24 /\ 0 <= m < 60.
Proof.
  unfold ConfigCache.valid_cutoff. split.
  - destruct (PyStr.contains_char ":" s); simpl; [|discriminate].
    destruct (parse_hh_mm s) as [[h m]|]; [|discriminate].
    rewrite !andb_true_iff. intros H. exists h, m.
    split; [reflexivity|]. lia.
  - intros (h & m & E & Hh & Hm).
    destruct (PyStr.contains_char ":" s) eqn:C; simpl.
    + rewrite E. rewrite !andb_true_iff. lia.
    + rewrite (parse_hh_mm_no_colon _ C) in E. discriminate.
Qed.

End Cutoff.

(** C9. [check_cutoff_time] never raises: it is a total function to
    [bool]. For a cutoff string that the configuration check accepts
    (two fields separated by a colon that [int] reads as an hour below 24
    and a minute below 60), the cutoff instant is the current day in the
    current zone at that hour and minute with seconds and microseconds at
    zero, and the result is true exactly when the current time is strictly
    before it. For every other string the result is false. At 09:00 against
    "14:00" the result is true, at 15:00 it is false, and against "25:99"
    it is false. *)
Theorem C9_check_cutoff_time (current_time : datetime) (s : string) :
  (ConfigCache.valid_cutoff (PStr s) = true ->
   exists h m,
     parse_hh_mm s = Ok (h, m) /\ 0 <= h < 24 /\ 0 <= m < 60
     /\ cutoff_dt current_time s
        = Ok (mkdatetime (dt_date current_time) h m 0 0 (tzname current_time))
     /\ check_cutoff_time current_time (PStr s)
        = datetime_ltb current_time
            (mkdatetime (dt_date current_time) h m 0 0 (tzname current_time))
     /\ check_cutoff_time current_time (PStr s)
        = time_ltb (hour current_time) (minute current_time)
                   (second current_time) (microsecond current_time) h m 0 0)
  /\ (ConfigCache.valid_cutoff (PStr s) = false ->
      check_cutoff_time current_time (PStr s) = false)
  /\ (forall d z,
        check_cutoff_time (mkdatetime d 9 0 0 0 z) (PStr "14:00") = true
        /\ check_cutoff_time (mkdatetime d 15 0 0 0 z) (PStr "14:00") = false
        /\ check_cutoff_time (mkdatetime d 9 0 0 0 z) (PStr "25:99") = false
        /\ check_cutoff_time (mkdatetime d 15 0 0 0 z) (PStr "25:99") = false).
Proof.
  split; [|split].
  - intros V. apply valid_cutoff_spec in V. destruct V as (h & m & E & Hh & Hm).
    exists h, m. split; [exact E|]. split; [exact Hh|]. split; [exact Hm|].
    assert (C : cutoff_dt current_time s
                = Ok (mkdatetime (dt_date current_time) h m 0 0
                        (tzname current_time))).
    { unfold cutoff_dt, rbind. rewrite E. simpl. apply replace_time_ok; assumption. }
    split; [exact C|].
    unfold check_cutoff_time. rewrite C.
    split; [reflexivity | apply datetime_ltb_same_day].
  - intros V. unfold check_cutoff_time, cutoff_dt, rbind.
    destruct (parse_hh_mm s) as [[h m]|e] eqn:E; [|reflexivity].
    simpl. rewrite replace_time_bad; [reflexivity|].
    intros [Hh Hm]. apply not_true_iff_false in V. apply V.
    apply valid_cutoff_spec. exists h, m. auto.
  - intros d z. unfold check_cutoff_time.
    change (cutoff_dt (mkdatetime d 9 0 0 0 z) "14:00")
      with (Ok (mkdatetime d 14 0 0 0 z)).
    change (cutoff_dt (mkdatetime d 15 0 0 0 z) "14:00")
      with (Ok (mkdatetime d 14 0 0 0 z)).
    change (cutoff_dt (mkdatetime d 9 0 0 0 z) "25:99")
      with (@Raise datetime ValueError).
    change (cutoff_dt (mkdatetime d 15 0 0 0 z) "25:99")
      with (@Raise datetime ValueError).
    pose proof (datetime_ltb_same_day (mkdatetime d 9 0 0 0 z) 14 0 0 0) as E1.
    pose proof (datetime_ltb_same_day (mkdatetime d 15 0 0 0 z) 14 0 0 0) as E2.
    cbn [dt_date tzname hour minute second microsecond] in E1, E2.
    cbv beta iota. rewrite E1, E2. repeat split; reflexivity.
Qed.

Lemma C9_witness :
  ConfigCache.valid_cutoff (PStr "14:00") = true
  /\ ConfigCache.valid_cutoff (PStr "25:99") = false
  /\ check_cutoff_time (mkdatetime (mkdate 2025 12 24) 9 0 0 0 "Asia/Manila")
       (PStr "25:99") = false
  /\ exists h m,
       parse_hh_mm "14:00" = Ok (h, m) /\ 0 <= h < 24 /\ 0 <= m < 60
       /\ cutoff_dt (mkdatetime (mkdate 2025 12 24) 9 0 0 0 "Asia/Manila") "14:00"
          = Ok (mkdatetime (mkdate 2025 12 24) h m 0 0 "Asia/Manila")
       /\ check_cutoff_time
            (mkdatetime (mkdate 2025 12 24) 9 0 0 0 "Asia/Manila") (PStr "14:00")
          = datetime_ltb (mkdatetime (mkdate 2025 12 24) 9 0 0 0 "Asia/Manila")
              (mkdatetime (mkdate 2025 12 24) h m 0 0 "Asia/Manila")
       /\ check_cutoff_time
            (mkdatetime (mkdate 2025 12 24) 9 0 0 0 "Asia/Manila") (PStr "14:00")
          = time_ltb 9 0 0 0 h m 0 0.
Proof.
  split; [reflexivity|]. split; [reflexivity|].
  split.
  - exact (proj1 (proj2 (C9_check_cutoff_time
             (mkdatetime (mkdate 2025 12 24) 9 0 0 0 "Asia/Manila") "25:99"))
             eq_refl).
  - exact (proj1 (C9_check_cutoff_time
             (mkdatetime (mkdate 2025 12 24) 9 0 0 0 "Asia/Manila") "14:00")
             eq_refl).
Defined.

(** ** The configuration cache *)

Section ConfigCacheProps.
Import ConfigCache.

Variable w : world.


(** The ways a refresh fails. *)
Lemma refresh_outcome_raise (n : nat) (e : exn) :
  Spec.refresh_outcome w n = Raise e <->
  get_sheet_data w n = Raise e
  \/ (get_sheet_data w n = Ok [] /\ e = ValueError)
  \/ (exists rows, rows <> [] /\ get_sheet_data w n = Ok rows
       /\ SheetCredential.parse_to_config w rows = Raise e)
  \/ (exists rows config, rows <> [] /\ get_sheet_data w n = Ok rows
       /\ SheetCredential.parse_to_config w rows = Ok config
       /\ _validate_config w config = false /\ e = ValueError).
Proof.
  unfold Spec.refresh_outcome.
  destruct (get_sheet_data w n) as [[|row rows]|e'] eqn:G.
  - split; [intros [= <-]; auto|].
    intros H. decompose [or and ex] H; clear H; subst; congruence.
  - assert (Hne : row :: rows <> []) by discriminate.
    destruct (SheetCredential.parse_to_config w (row :: rows)) as [c|e''] eqn:P.
    + destruct (_validate_config w c) eqn:V.
      * split; [discriminate|].
        intros H. decompose [or and ex] H; clear H; subst; congruence.
      * split.
        -- intros [= <-]. right. right. right.
           exists (row :: rows), c. auto.
        -- intros H. decompose [or and ex] H; clear H; subst; congruence.
    + split.
      * intros [= <-]. right. right. left. exists (row :: rows). auto.
      * intros H. decompose [or and ex] H; clear H; subst; congruence.
  - split; [intros [= <-]; auto|].
    intros H. decompose [or and ex] H; clear H; subst; congruence.
Qed.

Lemma get_config_refresh_success (now : Z) (n : nat) (st : cache_state)
    (config : dict) :
  Spec.refresh_outcome w n = Ok config ->
  get_config_refresh w now n st
  = (Ok (Some config), mkcache (Some config) (Some now) (_cache_ttl st) false).
Proof.
  unfold Spec.refresh_outcome, get_config_refresh, refresh_body.
  destruct (get_sheet_data w n) as [[|row rows]|e]; try discriminate.
  destruct (SheetCredential.parse_to_config w (row :: rows))
    as [c|e]; [|discriminate].
  destruct (_validate_config w c); [|discriminate].
  intros [= ->]. reflexivity.
Qed.

Lemma get_config_refresh_failure (now : Z) (n : nat) (st : cache_state)
    (e : exn) :
  Spec.refresh_outcome w n = Raise e ->
  get_config_refresh w now n st
  = (stale_or_raise st e, set_in_progress st false).
Proof.
  unfold Spec.refresh_outcome, get_config_refresh, refresh_body, stale_or_raise.
  destruct (get_sheet_data w n) as [[|row rows]|e']; simpl.
  - intros [= <-]. destruct (_cache st); reflexivity.
  - destruct (SheetCredential.parse_to_config w (row :: rows))
      as [c|e'']; simpl.
    + destruct (_validate_config w c); [discriminate|]. simpl.
      intros [= <-]. destruct (_cache st); reflexivity.
    + intros [= <-]. reflexivity.
  - intros [= <-]. reflexivity.
Qed.

Lemma get_config_fresh (now t : Z) (st : cache_state) (n : nat) (config : dict) :
  _cache st = Some config -> _cache_time st = Some t ->
  now - t < _cache_ttl st ->
  get_config w false now (st, n) = (Ok (Some config), (st, n)).
Proof.
  intros Hc Ht Hlt. unfold ConfigCache.get_config, get_config_enter.
  rewrite Hc, Ht. simpl.
  replace (now - t <? _cache_ttl st) with true by (symmetry; apply Z.ltb_lt; lia).
  reflexivity.
Qed.

Lemma get_config_calls_fresh (nows : list Z) (t : Z) (st : cache_state)
    (n : nat) (config : dict) :
  _cache st = Some config -> _cache_time st = Some t ->
  Forall (fun now => now - t < _cache_ttl st) nows ->
  Spec.get_config_calls w nows (st, n)
  = (map (fun _ => Ok (Some config)) nows, (st, n)).
Proof.
  intros Hc Ht. induction 1 as [|now nows Hnow _ IH];
    cbn [Spec.get_config_calls map]; [reflexivity|].
  rewrite (get_config_fresh now t st n config Hc Ht Hnow), IH. reflexivity.
Qed.

Lemma get_config_stale_fetches (now t : Z) (st : cache_state) (n : nat) :
  _cache_time st = Some t -> _fetch_in_progress st = false ->
  _cache_ttl st <= now - t ->
  snd (snd (get_config w false now (st, n))) = S n.
Proof.
  intros Ht Hf Hge. unfold ConfigCache.get_config, get_config_enter.
  rewrite Ht, Hf. simpl.
  replace (now - t <? _cache_ttl st) with false by (symmetry; apply Z.ltb_ge; lia).
  destruct (_cache st);
    destruct (get_config_refresh _ _ _ _) as [r st2]; reflexivity.
Qed.

(** C4. When a call of [get_config] fetches and the fetch, the parse and
    the validation succeed, the call returns the new snapshot and installs
    it with the clock reading [now0] the call took, the flag cleared, one
    fetch counted. From there every [get_config()] call at a clock reading
    [now] with [now - now0 < ttl] returns that snapshot and leaves the
    state and the fetch count as they are, and so does every run of such
    calls; a call with [ttl <= now - now0] issues exactly one fetch. *)
Theorem C4_fresh_snapshot_no_refetch (force_refresh : bool) (now0 : Z)
    (st st' : cache_state) (n : nat) (config : dict) :
  get_config_enter force_refresh now0 st = inr st' ->
  Spec.refresh_outcome w n = Ok config ->
  let st1 := mkcache (Some config) (Some now0) (_cache_ttl st) false in
  get_config w force_refresh now0 (st, n) = (Ok (Some config), (st1, S n))
  /\ (forall now, now - now0 < _cache_ttl st ->
        get_config w false now (st1, S n)
        = (Ok (Some config), (st1, S n)))
  /\ (forall nows, Forall (fun now => now - now0 < _cache_ttl st) nows ->
        Spec.get_config_calls w nows (st1, S n)
        = (map (fun _ => Ok (Some config)) nows, (st1, S n)))
  /\ (forall now, _cache_ttl st <= now - now0 ->
        snd (snd (get_config w false now (st1, S n))) = S (S n))
  /\ (forall nows now,
        Forall (fun now => now - now0 < _cache_ttl st) nows ->
        _cache_ttl st <= now - now0 ->
        snd (snd (Spec.get_config_calls w (nows ++ [now]) (st1, S n)))
        = S (S n)).
Proof.
  intros He Ho st1.
  assert (Hs : st' = set_in_progress st true).
  { unfold get_config_enter in He.
    destruct (negb force_refresh && _); [discriminate|].
    destruct (_fetch_in_progress st); [discriminate|].
    injection He as <-. reflexivity. }
  split.
  { unfold ConfigCache.get_config. rewrite He.
    rewrite (get_config_refresh_success now0 n st' config Ho).
    subst st'. reflexivity. }
  split.
  { intros now Hlt. apply (get_config_fresh now now0); auto. }
  split.
  { intros nows Hall. apply (get_config_calls_fresh nows now0); auto. }
  split.
  { intros now Hge. apply (get_config_stale_fetches now now0); auto. }
  intros nows now Hall Hge.
  assert (G : forall l s,
            Spec.get_config_calls w (l ++ [now]) s
            = let '(rs, s1) := Spec.get_config_calls w l s in
              let '(r, s2) := get_config w false now s1 in
              (rs ++ [r], s2)).
  { induction l as [|x l IH]; intros s; cbn [Spec.get_config_calls app].
    - destruct (get_config w false now s) as [r s2]. reflexivity.
    - destruct (get_config w false x s) as [r s1]. rewrite IH.
      destruct (Spec.get_config_calls w l s1) as [rs s2].
      destruct (get_config w false now s2) as [r' s3]. reflexivity. }
  rewrite G, (get_config_calls_fresh nows now0 st1 (S n) config); auto.
  pose proof (get_config_stale_fetches now now0 st1 (S n) eq_refl eq_refl Hge) as F.
  destruct (get_config w false now (st1, S n)) as [r s2]. exact F.
Qed.

(** C6. When a call of [get_config] fetches and the fetch, the parse or
    the validation fails: the flag is cleared, the snapshot, its time and
    the ttl are as before, one fetch is counted; the call returns the
    previous snapshot when there is one, and raises the exception of the
    failure when there is none. *)
Theorem C6_refresh_failure_stale_or_raise (force_refresh : bool) (now : Z)
    (st st' : cache_state) (n : nat) (e : exn) :
  get_config_enter force_refresh now st = inr st' ->
  Spec.refresh_outcome w n = Raise e ->
  get_config w force_refresh now (st, n)
  = (match _cache st with
     | Some previous => Ok (Some previous)
     | None => Raise e
     end,
     (mkcache (_cache st) (_cache_time st) (_cache_ttl st) false, S n)).
Proof.
  intros He Ho.
  assert (Hs : st' = set_in_progress st true).
  { unfold get_config_enter in He.
    destruct (negb force_refresh && _); [discriminate|].
    destruct (_fetch_in_progress st); [discriminate|].
    injection He as <-. reflexivity. }
  unfold ConfigCache.get_config. rewrite He.
  rewrite (get_config_refresh_failure now n st' e Ho). subst st'.
  reflexivity.
Qed.

End ConfigCacheProps.

Lemma C4_witness :
  ConfigCache.get_config_enter false 1000 ConfigCache.initial
  = inr (ConfigCache.set_in_progress ConfigCache.initial true)
  /\ Spec.refresh_outcome Sample.deployment 0 = Ok Sample.config
  /\ ConfigCache.get_config Sample.deployment false 1000 (ConfigCache.initial, 0%nat)
     = (Ok (Some Sample.config), (Sample.loaded, 1%nat)).
Proof.
  split; [reflexivity|]. split; [vm_compute; reflexivity|].
  exact (proj1 (C4_fresh_snapshot_no_refetch
                  Sample.deployment
                  false 1000 ConfigCache.initial
                  (ConfigCache.set_in_progress ConfigCache.initial true)
                  0 Sample.config eq_refl eq_refl)).
Defined.

Lemma C6_witness :
  ConfigCache.get_config_enter false 2000 Sample.loaded
  = inr (ConfigCache.set_in_progress Sample.loaded true)
  /\ Spec.refresh_outcome Sample.deployment 1 = Raise RemoteError
  /\ ConfigCache.get_config Sample.deployment false 2000 (Sample.loaded, 1%nat)
     = (Ok (Some Sample.config), (Sample.loaded, 2%nat)).
Proof.
  split; [reflexivity|]. split; [reflexivity|].
  exact (C6_refresh_failure_stale_or_raise
           Sample.deployment
           false 2000 Sample.loaded
           (ConfigCache.set_in_progress Sample.loaded true)
           1 RemoteError eq_refl eq_refl).
Defined.

(** With no previous snapshot the failure reaches the caller. *)
Example get_config_no_snapshot_raises :
  ConfigCache.get_config Sample.deployment false 2000 (ConfigCache.initial, 1%nat)
  = (Raise RemoteError, (ConfigCache.initial, 2%nat)).
Proof. reflexivity. Qed.

(** ** The request handler *)

Section Estimate.
Import Main.

Variable w : world.

Lemma get_courier_base_days_not_serviced (config couriers : dict)
    (courier_data : pyval) (c r : string) :
  PyVal.dict_find config "couriers" = Some (PDict couriers) ->
  PyVal.dict_find couriers c = Some courier_data ->
  Spec.not_serviced courier_data r ->
  get_courier_base_days config c r = None.
Proof.
  intros Hc Hd Hn. unfold get_courier_base_days, rbind, PyVal.dict_get.
  rewrite Hc. simpl. unfold PyVal.dict_has, PyVal.dict_get. rewrite Hd. simpl.
  destruct courier_data as [| | | | |l|regions]; simpl; try reflexivity.
  - destruct (PyStr.contains r s); reflexivity.
  - destruct (existsb (PyVal.is_str r) l); reflexivity.
  - unfold Spec.not_serviced in Hn. unfold PyVal.dict_has, PyVal.dict_get.
    destruct (PyVal.dict_find regions r) as [v|]; simpl; [|reflexivity].
    destruct (PyVal.isinstance_int v) eqn:I; simpl; [|reflexivity].
    destruct Hn as [Hn|Hn]; [discriminate|].
    replace (PyVal.int_value v <=? 0) with true
      by (symmetry; apply Z.leb_le; lia).
    reflexivity.
Qed.

Lemma delivery_estimate_loaded (clock : Z) (courier_name region c r : string)
    (sv : service) (config : dict) (cs : ConfigCache.cache_state) (n : nat) :
  InputValidator.validate_courier courier_name = (true, Some c, None) ->
  InputValidator.validate_region (validator sv) region = (true, Some r, None) ->
  ConfigCache.get_config w false clock (config_cache sv, fetches sv)
  = (Ok (Some config), (cs, n)) ->
  config <> [] ->
  fst (delivery_estimate w clock courier_name region sv)
  = match fst (estimate_with_config w config c r (holiday_caches sv)) with
    | Ok resp => resp
    | Raise _ =>
        ErrorResponse "An unexpected error occurred" INTERNAL_ERROR None
    end.
Proof.
  intros Hvc Hvr Hg Hne. unfold delivery_estimate. rewrite Hvc, Hvr, Hg.
  destruct config as [|kv rest]; [congruence|].
  destruct (estimate_with_config w (kv :: rest) c r
              (holiday_caches sv)) as [[resp|e] hc]; reflexivity.
Qed.

(** C10, as the code has it. Take a request whose courier and region
    pass the input validation and normalize to [c] and [r] (so [r] is one
    of the allowed regions), and for which [get_config] yields a
    configuration with its timezone and cutoff entries. If the courier
    table of that configuration has an entry for [c] that gives [r] no
    positive number of days (the region is absent, or maps to something
    that is not an [int] instance or is not positive), the answer is the
    error with code [INVALID_COURIER], never [INVALID_REGION], with the
    keys of the courier table as the available couriers: the same answer
    as for a courier the table does not have. *)
Theorem C10_region_not_serviced_invalid_courier (clock : Z)
    (courier_name region c r : string) (sv : service)
    (config couriers : dict) (cs : ConfigCache.cache_state) (n : nat)
    (timezone cutoff courier_data : pyval) :
  InputValidator.validate_courier courier_name = (true, Some c, None) ->
  InputValidator.validate_region (validator sv) region = (true, Some r, None) ->
  ConfigCache.get_config w false clock (config_cache sv, fetches sv)
  = (Ok (Some config), (cs, n)) ->
  PyVal.dict_find config "timezone" = Some timezone ->
  PyVal.dict_find config "cutoff_time" = Some cutoff ->
  PyVal.dict_find config "couriers" = Some (PDict couriers) ->
  PyVal.dict_find couriers c = Some courier_data ->
  Spec.not_serviced courier_data r ->
  fst (delivery_estimate w clock courier_name region sv)
  = ErrorResponse (quote_msg c r) INVALID_COURIER
      (Some (PyVal.dict_keys couriers))
  /\ (forall c', PyVal.dict_find couriers c' = None ->
        fst (estimate_with_config w config c' r (holiday_caches sv))
        = Ok (ErrorResponse (quote_msg c' r) INVALID_COURIER
                (Some (PyVal.dict_keys couriers)))).
Proof.
  intros Hvc Hvr Hg Htz Hcut Hcs Hc Hn.
  split.
  - rewrite (delivery_estimate_loaded clock courier_name region c r sv
               config cs n Hvc Hvr Hg)
      by (intros ->; discriminate).
    unfold estimate_with_config, rbind, PyVal.dict_get.
    rewrite Htz, Hcut, Hcs.
    rewrite (get_courier_base_days_not_serviced config couriers
               courier_data c r Hcs Hc Hn).
    destruct (get_current_datetime w timezone) as [ct|] eqn:T.
    + reflexivity.
    + unfold get_current_datetime in T.
      destruct timezone; try discriminate.
      destruct (known_zone w s); discriminate.
  - intros c' Hc'. unfold estimate_with_config, rbind, PyVal.dict_get.
    rewrite Htz, Hcut, Hcs.
    assert (B : get_courier_base_days config c' r = None).
    { unfold get_courier_base_days, rbind, PyVal.dict_get. rewrite Hcs. simpl.
      unfold PyVal.dict_has. rewrite Hc'. reflexivity. }
    rewrite B.
    destruct (get_current_datetime w timezone) as [ct|] eqn:T.
    + reflexivity.
    + unfold get_current_datetime in T.
      destruct timezone; try discriminate.
      destruct (known_zone w s); discriminate.
Qed.

End Estimate.

Lemma C10_witness :
  InputValidator.validate_courier " lbc " = (true, Some "LBC", None)
  /\ InputValidator.validate_region InputValidator.initial "Visayas"
     = (true, Some "visayas", None)
  /\ Spec.not_serviced (PDict [("ncr", PInt 2); ("luzon", PInt 3)]) "visayas"
  /\ fst (Main.delivery_estimate Sample.deployment 1000 " lbc " "Visayas"
            Main.initial)
     = Main.ErrorResponse "Courier 'LBC' does not service region 'visayas'"
         INVALID_COURIER (Some ["LBC"; "J&T"]).
Proof.
  split; [reflexivity|]. split; [reflexivity|]. split; [exact I|].
  exact (proj1 (C10_region_not_serviced_invalid_courier
                  Sample.deployment 1000 " lbc " "Visayas" "LBC" "visayas"
                  Main.initial Sample.config
                  [("LBC", PDict [("ncr", PInt 2); ("luzon", PInt 3)]);
                   ("J&T", PDict [("ncr", PInt 1)])]
                  Sample.loaded 1
                  (PStr "Asia/Manila") (PStr "14:00")
                  (PDict [("ncr", PInt 2); ("luzon", PInt 3)])
                  eq_refl eq_refl eq_refl eq_refl eq_refl eq_refl eq_refl I)).
Defined.

(** C10 as stated fails for a region outside the allowed list: in the
    sample deployment the courier table has "LBC", "mars" is absent under
    it, and the answer to the request carries [INVALID_REGION], without
    the available couriers. *)
Lemma C10_counterexample :
  PyVal.dict_find Sample.config "couriers" = Some Sample.couriers
  /\ PyVal.getitem_str Sample.couriers "LBC"
     = Ok (PDict [("ncr", PInt 2); ("luzon", PInt 3)])
  /\ PyVal.dict_find [("ncr", PInt 2); ("luzon", PInt 3)] "mars" = None
  /\ fst (Main.delivery_estimate Sample.deployment 1000 "LBC" "mars" Main.initial)
     = Main.ErrorResponse
         "Invalid region 'mars'. Allowed regions: ncr, luzon, visayas, mindanao"
         INVALID_REGION None.
Proof. repeat split; reflexivity. Qed.

(** The same request for a region of the allowed list that the courier
    does not serve, and for a region it serves. *)
Example estimate_region_not_serviced :
  fst (Main.delivery_estimate Sample.deployment 1000 "LBC" "mindanao" Main.initial)
  = Main.ErrorResponse "Courier 'LBC' does not service region 'mindanao'"
      INVALID_COURIER (Some ["LBC"; "J&T"]).
Proof. reflexivity. Qed.

Example estimate_served :
  fst (Main.delivery_estimate Sample.deployment 1000 "lbc" "Luzon" Main.initial)
  = Main.EstimateResponse
      (mkestimate "LBC" "luzon" (Sample.now_in "Asia/Manila") (PStr "14:00") true
         "Order placed before cutoff - same day processing"
         (mkdate 2025 12 24) 3 (mkdate 2025 12 29) 5 "high").
Proof. vm_compute. reflexivity. Qed.

(** ** Ordinals: day numbers and dates *)

Section Ordinals.

Lemma all_from_spec (p : Z -> bool) (n : nat) (lo z : Z) :
  Spec.all_from p lo n = true -> lo <= z < lo + Z.of_nat n -> p z = true.
Proof.
  revert lo. induction n as [|n IH]; intros lo H Hz; [lia|].
  simpl in H. apply andb_true_iff in H as [H0 H1].
  destruct (Z.eq_dec z lo) as [->|Hne]; [exact H0|].
  apply (IH (lo + 1)); [exact H1 | lia].
Qed.

Lemma all_from_range (p : Z -> bool) (len lo z : Z) :
  Spec.all_from p lo (Z.to_nat len) = true -> lo <= z < lo + len -> p z = true.
Proof.
  intros H Hz. apply (all_from_spec p (Z.to_nat len) lo z H).
  rewrite Z2Nat.id; lia.
Qed.

Lemma is_leap_cycle (y q : Z) : _is_leap (y + 400 * q) = _is_leap y.
Proof.
  unfold _is_leap.
  replace (y + 400 * q) with (y + (100 * q) * 4) at 1 by ring.
  replace (y + 400 * q) with (y + (4 * q) * 100) at 1 by ring.
  replace (y + 400 * q) with (y + q * 400) by ring.
  rewrite !Z_mod_plus_full. reflexivity.
Qed.

Lemma days_before_year_cycle (y q : Z) :
  _days_before_year (y + 400 * q) = _days_before_year y + 146097 * q.
Proof.
  unfold _days_before_year. cbv zeta.
  replace (y + 400 * q - 1) with (y - 1 + 400 * q) by ring.
  replace ((y - 1 + 400 * q) / 4) with ((y - 1) / 4 + 100 * q).
  2:{ replace (y - 1 + 400 * q) with (y - 1 + (100 * q) * 4) by ring.
      rewrite Z_div_plus_full by lia. reflexivity. }
  replace ((y - 1 + 400 * q) / 100) with ((y - 1) / 100 + 4 * q).
  2:{ replace (y - 1 + 400 * q) with (y - 1 + (4 * q) * 100) by ring.
      rewrite Z_div_plus_full by lia. reflexivity. }
  replace ((y - 1 + 400 * q) / 400) with ((y - 1) / 400 + q).
  2:{ replace (y - 1 + 400 * q) with (y - 1 + q * 400) by ring.
      rewrite Z_div_plus_full by lia. reflexivity. }
  ring.
Qed.

Lemma ymd2ord_cycle (y m d q : Z) :
  _ymd2ord (y + 400 * q) m d = _ymd2ord y m d + 146097 * q.
Proof.
  unfold _ymd2ord, _days_before_month.
  rewrite is_leap_cycle, days_before_year_cycle. ring.
Qed.

Lemma ord2ymd_unfold (n : Z) :
  _ord2ymd n
  = Spec.ord2ymd_tail ((n - 1) / _DI400Y) ((n - 1) mod _DI400Y).
Proof. reflexivity. Qed.

Lemma ord2ymd_tail_shift (q r : Z) :
  Spec.ord2ymd_tail q r
  = mkdate (year (Spec.ord2ymd_tail 0 r) + 400 * q)
           (month (Spec.ord2ymd_tail 0 r)) (day (Spec.ord2ymd_tail 0 r)).
Proof.
  unfold Spec.ord2ymd_tail. cbv zeta.
  destruct ((r mod _DI100Y mod _DI4Y / 365 =? 4) || (r / _DI100Y =? 4)).
  - cbn [year month day]. f_equal. lia.
  - destruct (_ <? _); cbn [year month day]; f_equal; lia.
Qed.

Lemma ord2ymd_cycle (q r : Z) :
  0 <= r < 146097 ->
  _ord2ymd (146097 * q + r + 1)
  = mkdate (year (_ord2ymd (r + 1)) + 400 * q)
           (month (_ord2ymd (r + 1))) (day (_ord2ymd (r + 1))).
Proof.
  intros Hr. rewrite !ord2ymd_unfold. unfold _DI400Y.
  replace (146097 * q + r + 1 - 1) with (r + q * 146097) by ring.
  replace (r + 1 - 1) with r by ring.
  rewrite Z_div_plus_full, Z_mod_plus_full by lia.
  rewrite (Z.div_small r 146097), (Z.mod_small r 146097) by lia.
  rewrite (ord2ymd_tail_shift (0 + q) r). f_equal; lia.
Qed.

Lemma month_day_ok_all (leapyear : bool) :
  Spec.all_from (Spec.month_day_ok leapyear) 0 (Z.to_nat 365) = true.
Proof. destruct leapyear; vm_compute; reflexivity. Qed.

Lemma ord2ymd_tail_month_day (q r : Z) :
  Spec.ord2ymd_tail q r
  = let n100 := r / _DI100Y in
    let n4 := r mod _DI100Y / _DI4Y in
    let n1 := r mod _DI100Y mod _DI4Y / 365 in
    let n := r mod _DI100Y mod _DI4Y mod 365 in
    let y := q * 400 + 1 + n100 * 100 + n4 * 4 + n1 in
    if (n1 =? 4) || (n100 =? 4) then mkdate (y - 1) 12 31
    else
      let leapyear := (n1 =? 3) && (negb (n4 =? 24) || (n100 =? 3)) in
      mkdate y (fst (Spec.month_day leapyear n)) (snd (Spec.month_day leapyear n)).
Proof.
  unfold Spec.ord2ymd_tail, Spec.month_day. cbv zeta.
  destruct ((_ =? 4) || (_ =? 4)); [reflexivity|].
  destruct (_ <? _); reflexivity.
Qed.

(** The first 400 years: day [r] (from 0) has ordinal [r + 1]. *)
Lemma tail_roundtrip (r : Z) :
  0 <= r < 146097 -> toordinal (Spec.ord2ymd_tail 0 r) = r + 1.
Proof.
  intros Hr. rewrite ord2ymd_tail_month_day. cbv zeta.
  unfold _DI100Y, _DI4Y.
  pose proof (Z.div_mod r 36524 ltac:(lia)) as D1.
  pose proof (Z.mod_pos_bound r 36524 ltac:(lia)) as B1.
  set (n100 := r / 36524) in *. set (r1 := r mod 36524) in *.
  pose proof (Z.div_mod r1 1461 ltac:(lia)) as D2.
  pose proof (Z.mod_pos_bound r1 1461 ltac:(lia)) as B2.
  set (n4 := r1 / 1461) in *. set (r2 := r1 mod 1461) in *.
  pose proof (Z.div_mod r2 365 ltac:(lia)) as D3.
  pose proof (Z.mod_pos_bound r2 365 ltac:(lia)) as B3.
  set (n1 := r2 / 365) in *. set (r3 := r2 mod 365) in *.
  clearbody n100 r1 n4 r2 n1 r3.
  assert (N100 : 0 <= n100 <= 4) by lia.
  assert (N4 : 0 <= n4 <= 24) by lia.
  assert (N1 : 0 <= n1 <= 4) by lia.
  unfold toordinal, _ymd2ord, _days_before_month, _days_before_year, _is_leap.
  cbv zeta.
  destruct (n1 =? 4) eqn:E1; [apply Z.eqb_eq in E1|apply Z.eqb_neq in E1].
  - (* the last day of a four-year cycle *)
    simpl orb. cbv iota. cbn [year month day].
    assert (n4 <= 23) by lia.
    replace ((0 * 400 + 1 + n100 * 100 + n4 * 4 + n1 - 1) mod 4) with 0
      by (subst n1; Z.div_mod_to_equations; lia).
    replace ((0 * 400 + 1 + n100 * 100 + n4 * 4 + n1 - 1) mod 100 =? 0)
      with false
      by (symmetry; apply Z.eqb_neq; subst n1; Z.div_mod_to_equations; lia).
    simpl. change (table _DAYS_BEFORE_MONTH 12) with 334.
    Z.div_mod_to_equations. lia.
  - destruct (n100 =? 4) eqn:E100;
      [apply Z.eqb_eq in E100|apply Z.eqb_neq in E100].
    + (* the last day of the 400 years *)
      simpl orb. cbv iota. cbn [year month day].
      assert (r1 = 0) by lia. assert (n4 = 0) by lia. assert (n1 = 0) by lia.
      assert (r3 = 0) by lia. subst. reflexivity.
    + simpl orb. cbv iota. cbn [year month day].
      set (leapyear := (n1 =? 3) && (negb (n4 =? 24) || (n100 =? 3))).
      pose proof (all_from_range (Spec.month_day_ok leapyear) 365 0 r3
                    (month_day_ok_all leapyear) ltac:(lia)) as M.
      unfold Spec.month_day_ok in M. cbv zeta in M. apply Z.eqb_eq in M.
      assert (L : (((0 * 400 + 1 + n100 * 100 + n4 * 4 + n1) mod 4 =? 0)
                   && (negb ((0 * 400 + 1 + n100 * 100 + n4 * 4 + n1) mod 100 =? 0)
                       || ((0 * 400 + 1 + n100 * 100 + n4 * 4 + n1) mod 400 =? 0)))
                  = leapyear).
      { unfold leapyear.
        destruct (n1 =? 3) eqn:A1;
          [apply Z.eqb_eq in A1|apply Z.eqb_neq in A1].
        - replace ((0 * 400 + 1 + n100 * 100 + n4 * 4 + n1) mod 4 =? 0)
            with true
            by (symmetry; apply Z.eqb_eq; Z.div_mod_to_equations; lia).
          simpl andb.
          destruct (n4 =? 24) eqn:A4;
            [apply Z.eqb_eq in A4|apply Z.eqb_neq in A4].
          + replace ((0 * 400 + 1 + n100 * 100 + n4 * 4 + n1) mod 100 =? 0)
              with true
              by (symmetry; apply Z.eqb_eq; Z.div_mod_to_equations; lia).
            simpl.
            destruct (n100 =? 3) eqn:A100;
              [apply Z.eqb_eq in A100|apply Z.eqb_neq in A100].
            * apply Z.eqb_eq. Z.div_mod_to_equations. lia.
            * apply Z.eqb_neq. Z.div_mod_to_equations. lia.
          + replace ((0 * 400 + 1 + n100 * 100 + n4 * 4 + n1) mod 100 =? 0)
              with false
              by (symmetry; apply Z.eqb_neq; Z.div_mod_to_equations; lia).
            reflexivity.
        - replace ((0 * 400 + 1 + n100 * 100 + n4 * 4 + n1) mod 4 =? 0)
            with false
            by (symmetry; apply Z.eqb_neq; Z.div_mod_to_equations; lia).
          reflexivity. }
      rewrite L.
      assert (Y : (0 * 400 + 1 + n100 * 100 + n4 * 4 + n1 - 1) * 365
                  + (0 * 400 + 1 + n100 * 100 + n4 * 4 + n1 - 1) / 4
                  - (0 * 400 + 1 + n100 * 100 + n4 * 4 + n1 - 1) / 100
                  + (0 * 400 + 1 + n100 * 100 + n4 * 4 + n1 - 1) / 400
                  = 36524 * n100 + 1461 * n4 + 365 * n1).
      { Z.div_mod_to_equations. lia. }
      rewrite Y. lia.
Qed.

Lemma ord_roundtrip_cycle (q r : Z) :
  0 <= r < 146097 ->
  toordinal (_ord2ymd (146097 * q + r + 1)) = 146097 * q + r + 1.
Proof.
  intros Hr.
  assert (C : toordinal (_ord2ymd (r + 1)) = r + 1).
  { rewrite ord2ymd_unfold. unfold _DI400Y.
    replace (r + 1 - 1) with r by ring.
    rewrite (Z.div_small r 146097), (Z.mod_small r 146097) by lia.
    apply tail_roundtrip, Hr. }
  rewrite (ord2ymd_cycle q r Hr).
  generalize dependent (_ord2ymd (r + 1)). intros d C.
  unfold toordinal in *. cbn [year month day].
  rewrite ymd2ord_cycle, C. ring.
Qed.

(** The date of a day number has that day number. *)
Lemma ord_roundtrip (n : Z) : toordinal (_ord2ymd n) = n.
Proof.
  pose proof (Z.div_mod (n - 1) 146097 ltac:(lia)) as E.
  pose proof (Z.mod_pos_bound (n - 1) 146097 ltac:(lia)) as B.
  remember ((n - 1) / 146097) as q eqn:Hq.
  remember ((n - 1) mod 146097) as r eqn:Hr. clear Hq Hr.
  assert (En : n = 146097 * q + r + 1) by lia. rewrite En.
  apply ord_roundtrip_cycle, B.
Qed.

Lemma add_days_ordinal (d d' : date) (n : Z) :
  add_days d n = Ok d' -> toordinal d' = toordinal d + n.
Proof.
  unfold add_days.
  destruct ((0 <? toordinal d + n) && (toordinal d + n <=? _MAXORDINAL));
    [|discriminate].
  intros [= <-]. apply ord_roundtrip.
Qed.

Lemma add_days_in_calendar (d d' : date) (n : Z) :
  add_days d n = Ok d' -> 1 <= toordinal d' <= _MAXORDINAL.
Proof.
  intros H. rewrite (add_days_ordinal _ _ _ H). unfold add_days in H.
  destruct ((0 <? toordinal d + n) && (toordinal d + n <=? _MAXORDINAL)) eqn:B;
    [|discriminate].
  apply andb_true_iff in B as [B1 B2]. apply Z.ltb_lt in B1.
  apply Z.leb_le in B2. lia.
Qed.

Lemma advance_ordinal (k : nat) (d d' : date) :
  Spec.advance k d = Ok d' -> toordinal d' = toordinal d + Z.of_nat k.
Proof.
  revert d. induction k as [|k IH]; intros d; simpl.
  - intros [= <-]. lia.
  - unfold rbind. destruct (add_days d 1) as [d1|] eqn:A; [|discriminate].
    intros H. rewrite (IH _ H), (add_days_ordinal _ _ _ A). lia.
Qed.

End Ordinals.

(** ** The holiday functions over the whole calendar *)

Section HolidaysAllYears.
Import Spec.

Lemma holiday_lists_ok_all :
  all_from holiday_lists_ok 1900 (Z.to_nat 201) = true.
Proof. vm_compute. reflexivity. Qed.

Lemma holiday_lists_ok_year (y : Z) :
  1900 <= y <= 2100 -> holiday_lists_ok y = true.
Proof.
  intros Hy.
  apply (all_from_range holiday_lists_ok 201 1900 y holiday_lists_ok_all). lia.
Qed.

(** The month and the day of the computus, from the ranges of its
    remainders. *)
Lemma computus_range (a h l : Z) :
  0 <= a < 19 -> 0 <= h < 30 -> 0 <= l < 7 ->
  let n := h + l - 7 * ((a + 11 * h + 22 * l) / 451) + 114 in
  (n / 31 = 3 /\ 22 <= n mod 31 + 1 <= 31)
  \/ (n / 31 = 4 /\ 1 <= n mod 31 + 1 <= 25).
Proof. intros Ha Hh Hl n. subst n. Z.div_mod_to_equations. lia. Qed.

Lemma calculate_easter_valid (y : Z) :
  1 <= y <= 9999 ->
  exists m d,
    _calculate_easter y = Ok (mkdate y m d)
    /\ ((m = 3 /\ 22 <= d <= 31) \/ (m = 4 /\ 1 <= d <= 25)).
Proof.
  intros Hy. unfold _calculate_easter. cbv zeta.
  set (a := y mod 19).
  set (h := (19 * a + y / 100 - y / 100 / 4
             - (y / 100 - (y / 100 + 8) / 25 + 1) / 3 + 15) mod 30).
  set (l := (32 + 2 * (y / 100 mod 4) + 2 * (y mod 100 / 4) - h
             - y mod 100 mod 4) mod 7).
  pose proof (computus_range a h l
                (Z.mod_pos_bound y 19 ltac:(lia))
                (Z.mod_pos_bound _ 30 ltac:(lia))
                (Z.mod_pos_bound _ 7 ltac:(lia))) as R.
  cbv zeta in R.
  set (n := h + l - 7 * ((a + 11 * h + 22 * l) / 451) + 114) in *.
  clearbody n. clear a h l.
  exists (n / 31), (n mod 31 + 1).
  split; [|exact R].
  rewrite new_date_fixed; [reflexivity | exact Hy | lia | lia |].
  destruct R as [[-> Hd]|[-> Hd]].
  - change (table _DAYS_IN_MONTH 3) with 31. lia.
  - change (table _DAYS_IN_MONTH 4) with 30. lia.
Qed.

Lemma toordinal_spring (y m d : Z) :
  1 <= y <= 9999 ->
  (m = 3 /\ 22 <= d <= 31) \/ (m = 4 /\ 1 <= d <= 25) ->
  80 <= toordinal (mkdate y m d) <= _MAXORDINAL - 200.
Proof.
  intros Hy Hm.
  unfold toordinal, _ymd2ord, _days_before_month, _days_before_year,
    _MAXORDINAL. cbv zeta. cbn [year month day].
  destruct Hm as [[-> Hd]|[-> Hd]].
  - change (table _DAYS_BEFORE_MONTH 3) with 59. change (2 <? 3) with true.
    destruct (_is_leap y); cbn [andb]; Z.div_mod_to_equations; lia.
  - change (table _DAYS_BEFORE_MONTH 4) with 90. change (2 <? 4) with true.
    destruct (_is_leap y); cbn [andb]; Z.div_mod_to_equations; lia.
Qed.


Lemma next_working_day_scan_first (n : nat) (x d' : date) (m : bool)
    (st : caches) :
  cache_ok st ->
  fst (next_working_day_scan n x m st) = Ok d' ->
  exists j : nat,
    (j <= n)%nat
    /\ advance j x = Ok d'
    /\ (forall i y, (i < j)%nat -> advance i x = Ok y -> non_working y m = true)
    /\ ((j < n)%nat -> non_working d' m = false).
Proof.
  revert x st. induction n as [|n IH]; intros x st H; simpl.
  - intros [= <-]. exists 0%nat.
    split; [lia|]. split; [reflexivity|]. split; intros; lia.
  - assert (W : forall st1 : caches,
              (if is_sunday x then (false, st)
               else let '(hol, st1) := is_holiday x m st in (negb hol, st1))
              = (negb (non_working x m),
                 snd (if is_sunday x then (false, st)
                      else let '(hol, st1) := is_holiday x m st in
                           (negb hol, st1)))).
    { intros _. unfold non_working.
      destruct (is_sunday x); [reflexivity|].
      destruct (is_holiday_ok x m st H) as [E _].
      destruct (is_holiday x m st) as [hol st1]; simpl in *. subst hol.
      reflexivity. }
    assert (K : cache_ok
                  (snd (if is_sunday x then (false, st)
                        else let '(hol, st1) := is_holiday x m st in
                             (negb hol, st1)))).
    { destruct (is_sunday x); [exact H|].
      destruct (is_holiday_ok x m st H) as [_ K].
      destruct (is_holiday x m st) as [hol st1]; exact K. }
    rewrite (W st). set (st1 := snd _) in *. clearbody st1.
    destruct (non_working x m) eqn:NW; simpl.
    + destruct (add_days x 1) as [x1|e] eqn:A; [|discriminate].
      intros R. destruct (IH x1 st1 K R) as (j & Hj & Ha & Hb & Hw).
      exists (S j). simpl. unfold rbind. rewrite A.
      split; [lia|]. split; [exact Ha|]. split.
      * intros [|i] y Hi; simpl.
        -- intros [= <-]. exact NW.
        -- unfold rbind. rewrite A. apply Hb. lia.
      * intros Hlt. apply Hw. lia.
    + intros [= <-]. exists 0%nat.
      split; [lia|]. split; [reflexivity|]. split.
      * intros i y Hi. lia.
      * intros _. exact NW.
Qed.

End HolidaysAllYears.

(** X1. For every year a date can have (1 to 9999), [_calculate_easter]
    returns a date of that year from March 22 to April 25, and
    [_get_holy_week_dates] returns three dates: the days 3, 2 and 1 before
    it, in this order. *)
Theorem X1_easter_every_year (Y : Z) :
  1 <= Y <= 9999 ->
  exists e mt gf bs,
    _calculate_easter Y = Ok e
    /\ year e = Y
    /\ ((month e = 3 /\ 22 <= day e <= 31) \/ (month e = 4 /\ 1 <= day e <= 25))
    /\ _get_holy_week_dates Y = [mt; gf; bs]
    /\ days_between e mt = 3 /\ days_between e gf = 2 /\ days_between e bs = 1.
Proof.
  intros HY. destruct (calculate_easter_valid Y HY) as (m & d & He & Hr).
  pose proof (toordinal_spring Y m d HY Hr) as Ho.
  assert (S : forall k, 1 <= k <= 3 ->
            sub_days (mkdate Y m d) k
            = Ok (_ord2ymd (toordinal (mkdate Y m d) - k))).
  { intros k Hk. unfold sub_days, add_days. cbv zeta.
    replace (toordinal (mkdate Y m d) + - k)
      with (toordinal (mkdate Y m d) - k) by ring.
    replace ((0 <? toordinal (mkdate Y m d) - k)
             && (toordinal (mkdate Y m d) - k <=? _MAXORDINAL)) with true;
      [reflexivity|].
    symmetry. apply andb_true_iff. rewrite Z.ltb_lt, Z.leb_le.
    unfold _MAXORDINAL in *. lia. }
  exists (mkdate Y m d),
    (_ord2ymd (toordinal (mkdate Y m d) - 3)),
    (_ord2ymd (toordinal (mkdate Y m d) - 2)),
    (_ord2ymd (toordinal (mkdate Y m d) - 1)).
  split; [exact He|]. split; [reflexivity|]. split; [exact Hr|].
  split.
  - unfold _get_holy_week_dates, rbind. rewrite He.
    rewrite !S by lia. reflexivity.
  - unfold days_between. rewrite !ord_roundtrip. lia.
Qed.

Lemma X1_witness :
  1 <= 9999 <= 9999
  /\ exists e mt gf bs,
       _calculate_easter 9999 = Ok e
       /\ year e = 9999
       /\ ((month e = 3 /\ 22 <= day e <= 31) \/ (month e = 4 /\ 1 <= day e <= 25))
       /\ _get_holy_week_dates 9999 = [mt; gf; bs]
       /\ days_between e mt = 3 /\ days_between e gf = 2 /\ days_between e bs = 1.
Proof. split; [lia|]. apply (X1_easter_every_year 9999). lia. Defined.



(** X3. For every year from 1900 to 2100, in every state of the
    dictionaries, [get_ph_holidays] returns 14 dates, or 13 when April 9 is
    one of the Holy Week dates of the year (the set drops the duplicate),
    and [get_major_ph_holidays] returns 4; all of them are dates of that
    year. *)
Theorem X3_holiday_list_sizes (Y : Z) (st : caches) :
  1900 <= Y <= 2100 ->
  Spec.cache_ok st ->
  Z.of_nat (length (fst (get_ph_holidays Y st)))
  = (if date_in (mkdate Y 4 9) (_get_holy_week_dates Y) then 13 else 14)
  /\ length (fst (get_major_ph_holidays Y st)) = 4%nat
  /\ (forall d, In d (fst (get_ph_holidays Y st)) -> year d = Y)
  /\ (forall d, In d (fst (get_major_ph_holidays Y st)) -> year d = Y).
Proof.
  intros HY H.
  rewrite (proj1 (get_ph_holidays_ok Y st H)).
  rewrite (proj1 (get_major_ph_holidays_ok Y st H)).
  pose proof (holiday_lists_ok_year Y HY) as L.
  unfold Spec.holiday_lists_ok in L. cbv zeta in L.
  rewrite !andb_true_iff in L. destruct L as (((La & Lm) & Ll) & L4).
  apply Z.eqb_eq in Ll, L4.
  rewrite forallb_forall in La, Lm.
  split; [exact Ll|]. split; [lia|].
  split; intros d Hd; apply Z.eqb_eq; [apply La | apply Lm]; exact Hd.
Qed.

Lemma X3_witness :
  1900 <= 2020 <= 2100
  /\ Spec.cache_ok HolidayCalculator.initial
  /\ Z.of_nat (length (fst (get_ph_holidays 2020 HolidayCalculator.initial))) = 13.
Proof.
  split; [lia|]. split; [exact cache_ok_initial|].
  exact (proj1 (X3_holiday_list_sizes 2020 HolidayCalculator.initial
                  ltac:(lia) cache_ok_initial)).
Defined.

(** X4. When [get_next_working_day] returns a date, it is the date [k]
    days after the given one for some [k] from 1 to 31; every day before it
    is a Sunday or a holiday of the kind looked at; and unless all 30
    iterations were used ([k] is 31), the date returned is neither. *)
Theorem X4_next_working_day (d d' : date) (major_holidays_only : bool)
    (st : caches) :
  Spec.cache_ok st ->
  fst (get_next_working_day d major_holidays_only st) = Ok d' ->
  exists k : nat,
    (1 <= k <= 31)%nat
    /\ Spec.advance k d = Ok d'
    /\ days_between d' d = Z.of_nat k
    /\ (forall j x, (1 <= j < k)%nat -> Spec.advance j d = Ok x ->
          Spec.non_working x major_holidays_only = true)
    /\ ((k <= 30)%nat -> Spec.non_working d' major_holidays_only = false).
Proof.
  intros H. unfold get_next_working_day.
  destruct (add_days d 1) as [x|e] eqn:A; [|discriminate].
  intros R.
  destruct (next_working_day_scan_first 30 x d' major_holidays_only st H R)
    as (j & Hj & Ha & Hb & Hw).
  assert (Hk : Spec.advance (S j) d = Ok d').
  { simpl. unfold rbind. rewrite A. exact Ha. }
  exists (S j). split; [lia|]. split; [exact Hk|].
  split; [unfold days_between; rewrite (advance_ordinal _ _ _ Hk); lia|].
  split.
  - intros [|i] y Hi; [lia|]. simpl. unfold rbind. rewrite A.
    apply Hb. lia.
  - intros Hle. apply Hw. lia.
Qed.

(** From Saturday 2025-12-27 the Sunday is passed over and Monday the 29th
    is returned. *)
Lemma X4_witness :
  Spec.cache_ok HolidayCalculator.initial
  /\ fst (get_next_working_day (mkdate 2025 12 27) false HolidayCalculator.initial)
     = Ok (mkdate 2025 12 29)
  /\ exists k : nat,
       (1 <= k <= 31)%nat
       /\ Spec.advance k (mkdate 2025 12 27) = Ok (mkdate 2025 12 29).
Proof.
  split; [exact cache_ok_initial|]. split; [vm_compute; reflexivity|].
  destruct (X4_next_working_day (mkdate 2025 12 27) (mkdate 2025 12 29) false
              HolidayCalculator.initial cache_ok_initial
              ltac:(vm_compute; reflexivity))
    as (k & Hk & Ha & _).
  exists k. split; [exact Hk | exact Ha].
Defined.

(** ** More on [calculate_delivery_date] *)

Section DeliveryMore.
Import Spec.

Lemma counted_le (c : string) (k : nat) (d : date) (n : Z) :
  counted c k d = Ok n -> n <= Z.of_nat k.
Proof.
  revert d n. induction k as [|k IH]; intros d n; simpl counted.
  - intros [= <-]. lia.
  - unfold rbind. destruct (add_days d 1) as [d1|]; [|discriminate].
    destruct (counted c k d1) as [m|] eqn:C; [|discriminate].
    intros [= <-]. specialize (IH _ _ C). destruct (skips c d1); lia.
Qed.

(** A successful call: the advance that reached [base_days] is numbered
    below the bound. *)
Lemma pure_calculate_inv (start d : date) (base_days : Z)
    (courier_name : string) (max_iterations : option Z) :
  pure_calculate start base_days courier_name max_iterations = Some d ->
  0 < base_days
  /\ exists k : nat,
       Z.of_nat k < bound max_iterations
       /\ reaches courier_name start base_days k d.
Proof.
  unfold pure_calculate.
  destruct (base_days <=? 0) eqn:B; [discriminate|]. apply Z.leb_gt in B.
  destruct (pure_loop _ _ _ _ _) as [[s|e]|] eqn:L; try discriminate.
  destruct (bound max_iterations <=? iterations s) eqn:I; [discriminate|].
  apply Z.leb_gt in I. intros [= <-]. split; [exact B|].
  destruct (pure_loop_exit _ _ _ _ _ _ L) as [Hd|Hi]; [|lia].
  destruct (pure_loop_reached _ _ _ _ _ _ L) as (k & Hk & Hadv & Hc & Hs);
    simpl in *; try lia.
  exists k. split; [lia|]. unfold reaches. rewrite Hadv, Hc, Hs.
  repeat split. f_equal. lia.
Qed.

(** Once the count of the first [k] days is [n], every smaller positive
    count is reached on an advance within those [k]. *)
Lemma first_hit (c : string) (k : nat) (d : date) (n b : Z) :
  counted c k d = Ok n -> 0 < b <= n ->
  exists (j : nat) (x : date), (j <= k)%nat /\ reaches c d b j x.
Proof.
  revert d n b. induction k as [|k IH]; intros d n b; simpl counted.
  - intros [= <-]. lia.
  - unfold rbind. destruct (add_days d 1) as [d1|] eqn:A; [|discriminate].
    destruct (counted c k d1) as [m|] eqn:C; [|discriminate].
    intros [= <-] Hb.
    destruct (skips c d1) eqn:Sk.
    + destruct (IH d1 m b C ltac:(lia)) as (j & x & Hj & Ha & Hc & Hs).
      exists (S j), x. split; [lia|]. unfold reaches. simpl.
      unfold rbind. rewrite A, Ha, Hc, Sk. repeat split; auto.
    + destruct (Z.eq_dec b 1) as [->|Hb1].
      * exists 1%nat, d1. split; [lia|]. unfold reaches. simpl.
        unfold rbind. rewrite A, Sk. repeat split; auto.
      * destruct (IH d1 m (b - 1) C ltac:(lia)) as (j & x & Hj & Ha & Hc & Hs).
        exists (S j), x. split; [lia|]. unfold reaches. simpl.
        unfold rbind. rewrite A, Ha, Hc, Sk.
        repeat split; auto. f_equal. lia.
Qed.

(** What "J&T" skips, every courier skips. *)
Lemma skips_jt_subset (c : string) (d : date) :
  skips "J&T" d = true -> skips c d = true.
Proof.
  unfold skips. simpl String.eqb. cbv iota.
  destruct (String.eqb c "J&T"); [auto|].
  unfold holiday. rewrite !date_in_In. intros H.
  apply orb_true_iff. right. apply date_in_In, major_subset_all, H.
Qed.

Lemma counted_jt_most (c : string) (k : nat) (d : date) (n : Z) :
  counted c k d = Ok n ->
  exists n', counted "J&T" k d = Ok n' /\ n <= n'.
Proof.
  revert d n. induction k as [|k IH]; intros d n; simpl counted.
  - intros [= <-]. exists 0. split; [reflexivity | lia].
  - unfold rbind. destruct (add_days d 1) as [d1|]; [|discriminate].
    destruct (counted c k d1) as [m|] eqn:C; [|discriminate].
    intros [= <-]. destruct (IH _ _ C) as (m' & -> & Hm).
    eexists. split; [reflexivity|].
    pose proof (skips_jt_subset c d1) as S.
    destruct (skips "J&T" d1); [rewrite S by reflexivity; lia|].
    destruct (skips c d1); lia.
Qed.

Lemma skips_default (c : string) (d : date) :
  c <> "J&T" -> skips c d = skips "LBC" d.
Proof.
  intros Hc. unfold skips.
  replace (String.eqb c "J&T") with false
    by (symmetry; apply String.eqb_neq; exact Hc).
  reflexivity.
Qed.

Lemma pure_loop_ext (c c' : string) (fuel : nat) (b m : Z) (s : loop_state) :
  (forall d, skips c d = skips c' d) ->
  pure_loop fuel c b m s = pure_loop fuel c' b m s.
Proof.
  intros E. revert s. induction fuel as [|n IH]; intros s;
    rewrite !(pure_loop_unfold _ b m); [reflexivity|].
  destruct ((days_added s <? b) && (iterations s <? m)); [|reflexivity].
  destruct (add_days (current_date s) 1) as [d|e]; [|reflexivity].
  rewrite E. apply IH.
Qed.

Lemma reaches_days (c : string) (start d : date) (b : Z) (k : nat) :
  reaches c start b k d ->
  days_between d start = Z.of_nat k /\ b <= Z.of_nat k.
Proof.
  intros (Ha & Hc & _). split.
  - unfold days_between. rewrite (advance_ordinal _ _ _ Ha). lia.
  - apply (counted_le _ _ _ _ Hc).
Qed.

Lemma get_courier_base_days_some (config : dict) (c r : string) (n : Z) :
  get_courier_base_days config c r = Some n <->
  exists couriers regions v,
    PyVal.dict_find config "couriers" = Some (PDict couriers)
    /\ PyVal.dict_find couriers c = Some (PDict regions)
    /\ PyVal.dict_find regions r = Some v
    /\ PyVal.isinstance_int v = true
    /\ PyVal.int_value v = n
    /\ 0 < n.
Proof.
  unfold get_courier_base_days, rbind, PyVal.dict_get. split.
  - destruct (PyVal.dict_find config "couriers") as [cs|] eqn:Hc;
      [|discriminate].
    destruct cs as [| | | |s|l|couriers]; simpl; try discriminate.
    + destruct (PyStr.contains c s); discriminate.
    + destruct (existsb (PyVal.is_str c) l); discriminate.
    + unfold PyVal.dict_has, PyVal.dict_get.
      destruct (PyVal.dict_find couriers c) as [cd|] eqn:Hd; simpl;
        [|discriminate].
      destruct cd as [| | | |s|l|regions]; simpl; try discriminate.
      * destruct (PyStr.contains r s); discriminate.
      * destruct (existsb (PyVal.is_str r) l); discriminate.
      * unfold PyVal.dict_has, PyVal.dict_get.
        destruct (PyVal.dict_find regions r) as [v|] eqn:Hv; simpl;
          [|discriminate].
        destruct (PyVal.isinstance_int v) eqn:I; simpl; [|discriminate].
        destruct (PyVal.int_value v <=? 0) eqn:P; [discriminate|].
        apply Z.leb_gt in P. intros [= <-].
        exists couriers, regions, v. repeat split; auto.
  - intros (couriers & regions & v & Hc & Hd & Hv & I & <- & P).
    rewrite Hc. simpl. unfold PyVal.dict_has, PyVal.dict_get.
    rewrite Hd. simpl. unfold PyVal.dict_has, PyVal.dict_get.
    rewrite Hv. simpl. rewrite I. simpl.
    replace (PyVal.int_value v <=? 0) with false
      by (symmetry; apply Z.leb_gt; lia).
    reflexivity.
Qed.

Lemma dict_find_In (d : dict) (k : string) (v : pyval) :
  PyVal.dict_find d k = Some v -> In (k, v) d.
Proof.
  induction d as [|[k' v'] d IH]; simpl; [discriminate|].
  destruct (String.eqb k' k) eqn:E.
  - apply String.eqb_eq in E. subst k'. intros [= ->]. left. reflexivity.
  - intros H. right. apply IH, H.
Qed.

End DeliveryMore.

(** X5. When [calculate_delivery_date] returns a date, [base_days] is
    positive, the date lies at least [base_days] and fewer than
    [max_iterations] calendar days after the start date, and it is a day
    the courier does not skip: never a Sunday for a courier other than
    "J&T". *)
Theorem X5_delivery_date_bounds (start d : date) (base_days : Z)
    (courier_name : string) (max_iterations : option Z) (st : caches) :
  Spec.cache_ok st ->
  fst (calculate_delivery_date start base_days courier_name max_iterations st)
  = Some d ->
  0 < base_days
  /\ base_days <= days_between d start < Spec.bound max_iterations
  /\ Spec.skips courier_name d = false
  /\ (courier_name <> "J&T" -> is_sunday d = false).
Proof.
  intros H.
  rewrite (proj1 (calculate_pure start base_days courier_name max_iterations st H)).
  intros R. destruct (pure_calculate_inv _ _ _ _ _ R) as (Hb & k & Hk & Hr).
  destruct (reaches_days _ _ _ _ _ Hr) as [Hd Hle].
  destruct Hr as (_ & _ & Hs).
  split; [exact Hb|]. split; [lia|]. split; [exact Hs|].
  intros Hc. rewrite (skips_default _ _ Hc) in Hs. unfold Spec.skips in Hs.
  simpl in Hs. apply orb_false_iff in Hs. tauto.
Qed.

Lemma X5_witness :
  Spec.cache_ok HolidayCalculator.initial
  /\ fst (calculate_delivery_date (mkdate 2025 12 24) 3 "LBC" None
            HolidayCalculator.initial) = Some (mkdate 2025 12 29)
  /\ 3 <= days_between (mkdate 2025 12 29) (mkdate 2025 12 24) < 100.
Proof.
  split; [exact cache_ok_initial|]. split; [vm_compute; reflexivity|].
  exact (proj1 (proj2 (X5_delivery_date_bounds
                         (mkdate 2025 12 24) (mkdate 2025 12 29) 3 "LBC" None
                         HolidayCalculator.initial cache_ok_initial
                         ltac:(vm_compute; reflexivity)))).
Defined.

(** X6. Whenever [calculate_delivery_date] returns a date for a courier,
    it returns one for "J&T" too, with the same start date, [base_days]
    and bound, and the "J&T" date is never the later of the two. *)
Theorem X6_jt_never_later (start d : date) (base_days : Z)
    (courier_name : string) (max_iterations : option Z) (st st' : caches) :
  Spec.cache_ok st -> Spec.cache_ok st' ->
  fst (calculate_delivery_date start base_days courier_name max_iterations st)
  = Some d ->
  exists d',
    fst (calculate_delivery_date start base_days "J&T" max_iterations st')
    = Some d'
    /\ 0 <= days_between d d'.
Proof.
  intros H H'.
  rewrite (proj1 (calculate_pure start base_days courier_name max_iterations st H)).
  rewrite (proj1 (calculate_pure start base_days "J&T" max_iterations st' H')).
  intros R. destruct (pure_calculate_inv _ _ _ _ _ R) as (Hb & k & Hk & Hr).
  destruct (counted_jt_most courier_name k start base_days (proj1 (proj2 Hr)))
    as (n' & Cj & Hn).
  destruct (first_hit "J&T" k start n' base_days Cj ltac:(lia))
    as (j & x & Hj & Hx).
  exists x. split.
  - apply (pure_calculate_reaches start x base_days "J&T" max_iterations j Hb Hx).
    lia.
  - destruct (reaches_days _ _ _ _ _ Hr) as [Hd _].
    destruct (reaches_days _ _ _ _ _ Hx) as [Hd' _].
    unfold days_between in *. lia.
Qed.

Lemma X6_witness :
  Spec.cache_ok HolidayCalculator.initial
  /\ fst (calculate_delivery_date (mkdate 2025 12 24) 3 "LBC" None
            HolidayCalculator.initial) = Some (mkdate 2025 12 29)
  /\ exists d',
       fst (calculate_delivery_date (mkdate 2025 12 24) 3 "J&T" None
              HolidayCalculator.initial) = Some d'
       /\ 0 <= days_between (mkdate 2025 12 29) d'.
Proof.
  split; [exact cache_ok_initial|]. split; [vm_compute; reflexivity|].
  exact (X6_jt_never_later (mkdate 2025 12 24) (mkdate 2025 12 29) 3 "LBC" None
           HolidayCalculator.initial HolidayCalculator.initial
           cache_ok_initial cache_ok_initial ltac:(vm_compute; reflexivity)).
Defined.

(** X7. When [calculate_delivery_date] returns a date for [base_days'],
    it returns one for every smaller positive [base_days], with the same
    start date, courier and bound, and that date is strictly earlier. *)
Theorem X7_fewer_days_earlier (start d' : date) (base_days base_days' : Z)
    (courier_name : string) (max_iterations : option Z) (st st' : caches) :
  Spec.cache_ok st -> Spec.cache_ok st' ->
  0 < base_days < base_days' ->
  fst (calculate_delivery_date start base_days' courier_name max_iterations st)
  = Some d' ->
  exists d,
    fst (calculate_delivery_date start base_days courier_name max_iterations st')
    = Some d
    /\ 0 < days_between d' d.
Proof.
  intros H H' Hb.
  rewrite (proj1 (calculate_pure start base_days' courier_name max_iterations st H)).
  rewrite (proj1 (calculate_pure start base_days courier_name max_iterations st' H')).
  intros R. destruct (pure_calculate_inv _ _ _ _ _ R) as (_ & k & Hk & Hr).
  destruct (first_hit courier_name k start base_days' base_days
              (proj1 (proj2 Hr)) ltac:(lia)) as (j & x & Hj & Hx).
  exists x. split.
  - apply (pure_calculate_reaches start x base_days courier_name
             max_iterations j ltac:(lia) Hx). lia.
  - destruct (reaches_days _ _ _ _ _ Hr) as [Hd _].
    destruct (reaches_days _ _ _ _ _ Hx) as [Hd' _].
    assert (j <> k).
    { intros ->. destruct Hr as (_ & C1 & _). destruct Hx as (_ & C2 & _).
      rewrite C1 in C2. injection C2. lia. }
    unfold days_between in *. lia.
Qed.

Lemma X7_witness :
  Spec.cache_ok HolidayCalculator.initial
  /\ 0 < 2 < 3
  /\ fst (calculate_delivery_date (mkdate 2025 12 24) 3 "LBC" None
            HolidayCalculator.initial) = Some (mkdate 2025 12 29)
  /\ exists d,
       fst (calculate_delivery_date (mkdate 2025 12 24) 2 "LBC" None
              HolidayCalculator.initial) = Some d
       /\ 0 < days_between (mkdate 2025 12 29) d.
Proof.
  split; [exact cache_ok_initial|]. split; [lia|].
  split; [vm_compute; reflexivity|].
  exact (X7_fewer_days_earlier (mkdate 2025 12 24) (mkdate 2025 12 29) 2 3 "LBC"
           None HolidayCalculator.initial HolidayCalculator.initial
           cache_ok_initial cache_ok_initial ltac:(lia)
           ltac:(vm_compute; reflexivity)).
Defined.

(** X8. The courier name matters only through being "J&T" or not: for
    every other name, known or unknown, [should_skip_date] and
    [calculate_delivery_date] answer as they do for "LBC". *)
Theorem X8_other_couriers_as_lbc (start d : date) (base_days : Z)
    (courier_name : string) (max_iterations : option Z) (st st' : caches) :
  courier_name <> "J&T" ->
  Spec.cache_ok st -> Spec.cache_ok st' ->
  fst (should_skip_date courier_name d st) = fst (should_skip_date "LBC" d st')
  /\ fst (calculate_delivery_date start base_days courier_name max_iterations st)
     = fst (calculate_delivery_date start base_days "LBC" max_iterations st').
Proof.
  intros Hc H H'. split.
  - rewrite (proj1 (should_skip_date_ok courier_name d st H)).
    rewrite (proj1 (should_skip_date_ok "LBC" d st' H')).
    apply skips_default, Hc.
  - rewrite (proj1 (calculate_pure start base_days courier_name max_iterations st H)).
    rewrite (proj1 (calculate_pure start base_days "LBC" max_iterations st' H')).
    unfold Spec.pure_calculate.
    rewrite (pure_loop_ext courier_name "LBC"); [reflexivity|].
    intros x. apply skips_default, Hc.
Qed.

Lemma X8_witness :
  "NINJAVAN" <> "J&T"
  /\ Spec.cache_ok HolidayCalculator.initial
  /\ fst (calculate_delivery_date (mkdate 2025 12 24) 3 "NINJAVAN" None
            HolidayCalculator.initial)
     = fst (calculate_delivery_date (mkdate 2025 12 24) 3 "LBC" None
              HolidayCalculator.initial).
Proof.
  split; [discriminate|]. split; [exact cache_ok_initial|].
  exact (proj2 (X8_other_couriers_as_lbc
                  (mkdate 2025 12 24) (mkdate 2025 12 24) 3 "NINJAVAN" None
                  HolidayCalculator.initial HolidayCalculator.initial
                  ltac:(discriminate) cache_ok_initial cache_ok_initial)).
Defined.

(** X9. [get_courier_base_days] returns a number exactly when the
    configuration has a courier table that is a dictionary, the courier's
    entry in it is a dictionary, and the region's entry in that is an
    [int] instance with a positive value; the number is that value. In
    every other case, the lookups that raise included, it returns
    [None]. *)
Theorem X9_courier_base_days_iff (config : dict) (courier_name region : string)
    (n : Z) :
  get_courier_base_days config courier_name region = Some n <->
  exists couriers regions v,
    PyVal.dict_find config "couriers" = Some (PDict couriers)
    /\ PyVal.dict_find couriers courier_name = Some (PDict regions)
    /\ PyVal.dict_find regions region = Some v
    /\ PyVal.isinstance_int v = true
    /\ PyVal.int_value v = n
    /\ 0 < n.
Proof. apply get_courier_base_days_some. Qed.

Lemma X9_witness :
  get_courier_base_days Sample.config "LBC" "luzon" = Some 3.
Proof.
  apply (proj2 (X9_courier_base_days_iff Sample.config "LBC" "luzon" 3)).
  exists [("LBC", PDict [("ncr", PInt 2); ("luzon", PInt 3)]);
          ("J&T", PDict [("ncr", PInt 1)])],
         [("ncr", PInt 2); ("luzon", PInt 3)], (PInt 3).
  repeat split; reflexivity.
Defined.

(** X10. In a configuration that [_validate_config] accepts, every region
    listed under a courier of the courier table has a positive number of
    days: [get_courier_base_days] returns it. *)
Theorem X10_validated_config_serves_listed (w : world) (config couriers : dict)
    (courier_name region : string) (regions : pyval) :
  ConfigCache._validate_config w config = true ->
  PyVal.dict_find config "couriers" = Some (PDict couriers) ->
  PyVal.dict_find couriers courier_name = Some regions ->
  PyVal.contains_str regions region = Ok true ->
  exists n, get_courier_base_days config courier_name region = Some n /\ 0 < n.
Proof.
  intros V Hc Hd Hr. unfold ConfigCache._validate_config in V.
  destruct (negb _); [discriminate|]. rewrite Hc in V.
  destruct (PyVal.dict_find config "cutoff_time"); [|discriminate].
  destruct (PyVal.dict_find config "timezone"); [|discriminate].
  destruct (_ =? 0); [discriminate|].
  destruct (negb (ConfigCache.valid_cutoff _)); [discriminate|].
  destruct (negb (ConfigCache.valid_timezone _ _)); [discriminate|].
  rewrite forallb_forall in V.
  pose proof (V _ (dict_find_In _ _ _ Hd)) as Vr. simpl in Vr.
  unfold ConfigCache.valid_regions in Vr.
  destruct regions as [| | | | | |rs]; try discriminate.
  simpl in Hr. unfold PyVal.dict_has in Hr.
  destruct (PyVal.dict_find rs region) as [v|] eqn:Hv; [|discriminate].
  rewrite forallb_forall in Vr.
  pose proof (Vr _ (dict_find_In _ _ _ Hv)) as Vv. simpl in Vv.
  unfold ConfigCache.valid_days in Vv. apply andb_true_iff in Vv as [I P].
  apply negb_true_iff, Z.leb_gt in P.
  exists (PyVal.int_value v). split; [|exact P].
  apply get_courier_base_days_some. exists couriers, rs, v.
  repeat split; auto.
Qed.

Lemma X10_witness :
  ConfigCache._validate_config Sample.deployment Sample.config = true
  /\ exists n, get_courier_base_days Sample.config "LBC" "luzon" = Some n /\ 0 < n.
Proof.
  split; [vm_compute; reflexivity|].
  exact (X10_validated_config_serves_listed
           Sample.deployment Sample.config
           [("LBC", PDict [("ncr", PInt 2); ("luzon", PInt 3)]);
            ("J&T", PDict [("ncr", PInt 1)])]
           "LBC" "luzon" (PDict [("ncr", PInt 2); ("luzon", PInt 3)])
           ltac:(vm_compute; reflexivity) eq_refl eq_refl eq_refl).
Defined.

(** ** More on the configuration cache *)

Section ConfigMore.
Import ConfigCache.

Variable w : world.

Lemma refresh_outcome_valid (n : nat) (config : dict) :
  Spec.refresh_outcome w n = Ok config -> _validate_config w config = true.
Proof.
  unfold Spec.refresh_outcome.
  destruct (get_sheet_data w n) as [[|row rows]|e]; try discriminate.
  destruct (SheetCredential.parse_to_config w (row :: rows)) as [c|e];
    [|discriminate].
  destruct (_validate_config w c) eqn:V; [|discriminate].
  intros [= <-]. exact V.
Qed.

Lemma set_in_progress_idle (st : cache_state) :
  _fetch_in_progress st = false -> set_in_progress st false = st.
Proof. destruct st; simpl. intros ->. reflexivity. Qed.

(** [get_config] when no fetch is in flight. *)
Lemma get_config_cases (force_refresh : bool) (now : Z) (st : cache_state)
    (n : nat) :
  _fetch_in_progress st = false ->
  get_config w force_refresh now (st, n)
  = if Spec.fresh force_refresh now st then (Ok (_cache st), (st, n))
    else
      match Spec.refresh_outcome w n with
      | Ok c =>
          (Ok (Some c),
           (mkcache (Some c) (Some now) (_cache_ttl st) false, S n))
      | Raise e => (stale_or_raise st e, (st, S n))
      end.
Proof.
  intros Hf. unfold ConfigCache.get_config, get_config_enter.
  fold (Spec.fresh force_refresh now st).
  destruct (Spec.fresh force_refresh now st); [reflexivity|].
  rewrite Hf.
  destruct (Spec.refresh_outcome w n) as [c|e] eqn:R.
  - rewrite (get_config_refresh_success w now n _ c R). reflexivity.
  - rewrite (get_config_refresh_failure w now n _ e R).
    destruct st; simpl in *. subst. reflexivity.
Qed.

Lemma validated_nonempty (config : dict) :
  _validate_config w config = true -> config <> [].
Proof. intros V ->. discriminate. Qed.

Lemma get_config_valid (force_refresh : bool) (now : Z) (st : cache_state)
    (n : nat) :
  Spec.cache_valid w st ->
  Spec.cache_valid w (fst (snd (get_config w force_refresh now (st, n)))).
Proof.
  intros (Hf & Ht & Hc). rewrite (get_config_cases _ _ _ _ Hf).
  destruct (Spec.fresh force_refresh now st); [repeat split; auto|].
  destruct (Spec.refresh_outcome w n) as [c|e] eqn:R; [|repeat split; auto].
  split; [reflexivity|]. split; [exact Ht|]. simpl.
  split; [apply (refresh_outcome_valid n), R | discriminate].
Qed.

Lemma run_config_op_valid (o : Spec.config_op) (s : cache_state * nat) :
  Spec.cache_valid w (fst s) -> Spec.cache_valid w (fst (Spec.run_config_op w o s)).
Proof.
  destruct s as [st n]. intros H. destruct o as [f now| |ttl]; simpl.
  - apply get_config_valid, H.
  - destruct H as (Hf & Ht & _). repeat split; auto.
  - destruct H as (Hf & Ht & Hc). unfold set_cache_ttl.
    destruct (ttl <? 0) eqn:L; [repeat split; auto|].
    apply Z.ltb_ge in L. repeat split; auto.
Qed.

Lemma run_config_ops_valid (ops : list Spec.config_op) (s : cache_state * nat) :
  Spec.cache_valid w (fst s) ->
  Spec.cache_valid w (fst (Spec.run_config_ops w ops s)).
Proof.
  revert s. induction ops as [|o ops IH]; intros s H; simpl; [exact H|].
  apply IH, run_config_op_valid, H.
Qed.

Lemma cache_valid_initial : Spec.cache_valid w ConfigCache.initial.
Proof. repeat split; simpl; auto. lia. Qed.

(** What a call gives in such a state. *)
Lemma get_config_result (force_refresh : bool) (now : Z) (st : cache_state)
    (n : nat) :
  Spec.cache_valid w st ->
  match fst (get_config w force_refresh now (st, n)) with
  | Ok (Some c) =>
      _cache (fst (snd (get_config w force_refresh now (st, n)))) = Some c
      /\ _validate_config w c = true
  | Ok None => False
  | Raise e =>
      _cache st = None
      /\ Spec.refresh_outcome w n = Raise e
      /\ fst (snd (get_config w force_refresh now (st, n))) = st
  end.
Proof.
  intros (Hf & Ht & Hc). rewrite (get_config_cases _ _ _ _ Hf).
  destruct (Spec.fresh force_refresh now st) eqn:F.
  - simpl. unfold Spec.fresh in F.
    destruct (_cache st) as [c|]; [tauto|].
    rewrite andb_false_r in F. discriminate.
  - destruct (Spec.refresh_outcome w n) as [c|e] eqn:R; simpl.
    + split; [reflexivity | apply (refresh_outcome_valid n), R].
    + unfold stale_or_raise. destruct (_cache st) as [c|]; simpl; tauto.
Qed.

End ConfigMore.

(** X11. From the start of the process, whatever calls of [get_config],
    [clear_cache] and [set_cache_ttl] are made one after the other and
    whatever the sheet answers, between the calls no fetch is flagged as
    in flight, the ttl is not negative, and a snapshot in the cache is one
    that [_validate_config] accepted, stored with its time stamp. *)
Theorem X11_config_cache_invariant (w : world) (ops : list Spec.config_op) :
  Spec.cache_valid w
    (fst (Spec.run_config_ops w ops (ConfigCache.initial, 0%nat))).
Proof. apply run_config_ops_valid, cache_valid_initial. Qed.

(** X12. In such a state a call of [get_config] never returns [None]: it
    returns a configuration that [_validate_config] accepted, which is the
    snapshot the cache holds after the call; or it raises, which happens
    only when there was no snapshot and the refresh failed, and then the
    state is as before. *)
Theorem X12_get_config_result (w : world) (force_refresh : bool) (now : Z)
    (st : ConfigCache.cache_state) (n : nat) :
  Spec.cache_valid w st ->
  match fst (ConfigCache.get_config w force_refresh now (st, n)) with
  | Ok (Some c) =>
      ConfigCache._cache
        (fst (snd (ConfigCache.get_config w force_refresh now (st, n))))
      = Some c
      /\ ConfigCache._validate_config w c = true
  | Ok None => False
  | Raise e =>
      ConfigCache._cache st = None
      /\ Spec.refresh_outcome w n = Raise e
      /\ fst (snd (ConfigCache.get_config w force_refresh now (st, n))) = st
  end.
Proof. apply get_config_result. Qed.

Lemma X12_witness :
  Spec.cache_valid Sample.deployment Sample.loaded
  /\ ConfigCache._cache
       (fst (snd (ConfigCache.get_config Sample.deployment true 2000
                    (Sample.loaded, 1%nat))))
     = Some Sample.config.
Proof.
  assert (V : Spec.cache_valid Sample.deployment Sample.loaded).
  { split; [reflexivity|]. split; [simpl; lia|].
    split; [vm_compute; reflexivity | discriminate]. }
  split; [exact V|].
  exact (proj1 (X12_get_config_result Sample.deployment true 2000
                  Sample.loaded 1 V)).
Defined.

(** X13. While a fetch is flagged as in flight, a call of [get_config],
    forced or not, fetches nothing and changes nothing: it returns the
    snapshot the cache holds, which is [None] when there is none. *)
Theorem X13_fetch_in_flight (w : world) (force_refresh : bool) (now : Z)
    (st : ConfigCache.cache_state) (n : nat) :
  ConfigCache._fetch_in_progress st = true ->
  ConfigCache.get_config w force_refresh now (st, n)
  = (Ok (ConfigCache._cache st), (st, n)).
Proof.
  intros Hf. unfold ConfigCache.get_config, ConfigCache.get_config_enter.
  rewrite Hf. destruct (negb force_refresh && _); reflexivity.
Qed.

Lemma X13_witness :
  ConfigCache._fetch_in_progress
    (ConfigCache.set_in_progress ConfigCache.initial true) = true
  /\ ConfigCache.get_config Sample.deployment true 1000
       (ConfigCache.set_in_progress ConfigCache.initial true, 0%nat)
     = (Ok None, (ConfigCache.set_in_progress ConfigCache.initial true, 0%nat)).
Proof.
  split; [reflexivity|].
  exact (X13_fetch_in_flight Sample.deployment true 1000
           (ConfigCache.set_in_progress ConfigCache.initial true) 0 eq_refl).
Defined.

(** X14. [get_cache_info] and [get_config] draw the line of staleness
    differently. When [get_cache_info] reports the snapshot stale, a call
    of [get_config] at the same clock reading fetches. But at an age equal
    to the ttl [get_cache_info] reports it not stale while [get_config]
    fetches; and with a time stamp of zero [get_cache_info] reports no age
    and not stale, whatever the clock reads. *)
Theorem X14_stale_boundary (w : world) (now t : Z)
    (st : ConfigCache.cache_state) (n : nat) (c : dict)
    (age : option Z) (ttl : Z) (stale : bool) (count : Z) :
  ConfigCache._cache st = Some c ->
  ConfigCache._cache_time st = Some t ->
  ConfigCache._fetch_in_progress st = false ->
  ConfigCache.get_cache_info now st = Ok (ConfigCache.Cached age ttl stale count) ->
  (stale = true ->
   snd (snd (ConfigCache.get_config w false now (st, n))) = S n)
  /\ (now - t = ConfigCache._cache_ttl st ->
      stale = false
      /\ snd (snd (ConfigCache.get_config w false now (st, n))) = S n)
  /\ (t = 0 -> stale = false /\ age = None).
Proof.
  intros Hc Ht Hf. unfold ConfigCache.get_cache_info. rewrite Hc, Ht.
  unfold rbind.
  destruct (ConfigCache.py_len _) as [cnt|e]; [|discriminate].
  intros [= <- <- <- <-].
  split; [|split].
  - intros Hs. apply (get_config_stale_fetches w now t st n Ht Hf).
    destruct (t =? 0); [discriminate|].
    destruct (now - t =? 0); [discriminate|].
    apply Z.ltb_lt in Hs. lia.
  - intros He. split.
    + destruct (t =? 0); [reflexivity|].
      destruct (now - t =? 0); [reflexivity|].
      apply Z.ltb_ge. lia.
    + apply (get_config_stale_fetches w now t st n Ht Hf). lia.
  - intros ->. simpl. auto.
Qed.

Lemma X14_witness :
  ConfigCache.get_cache_info 1600 Sample.loaded
  = Ok (ConfigCache.Cached (Some 600) 600 false 2)
  /\ snd (snd (ConfigCache.get_config Sample.deployment false 1600
                 (Sample.loaded, 1%nat))) = 2%nat.
Proof.
  split; [reflexivity|].
  exact (proj2 (proj1 (proj2 (X14_stale_boundary
                                Sample.deployment 1600 1000 Sample.loaded 1
                                Sample.config (Some 600) 600 false 2
                                eq_refl eq_refl eq_refl eq_refl))
                      eq_refl)).
Defined.

(** X15. After [clear_cache], and at the start of the process, a call of
    [get_config] always fetches, whatever the clock reads and whether
    forced or not; it returns and installs the configuration when the
    fetch, the parse and the validation succeed, and raises the exception
    of the failure otherwise, leaving the cache empty. *)
Theorem X15_get_config_after_clear (w : world) (force_refresh : bool) (now : Z)
    (st : ConfigCache.cache_state) (n : nat) :
  ConfigCache._fetch_in_progress st = false ->
  ConfigCache.get_config w force_refresh now (ConfigCache.clear_cache st, n)
  = match Spec.refresh_outcome w n with
    | Ok c =>
        (Ok (Some c),
         (ConfigCache.mkcache (Some c) (Some now) (ConfigCache._cache_ttl st)
            false, S n))
    | Raise e => (Raise e, (ConfigCache.clear_cache st, S n))
    end.
Proof.
  intros Hf.
  rewrite (get_config_cases w force_refresh now (ConfigCache.clear_cache st) n Hf).
  unfold Spec.fresh. simpl. rewrite andb_false_r. reflexivity.
Qed.

Lemma X15_witness :
  ConfigCache._fetch_in_progress Sample.loaded = false
  /\ ConfigCache.get_config Sample.deployment false 1001
       (ConfigCache.clear_cache Sample.loaded, 1%nat)
     = (Raise RemoteError, (ConfigCache.clear_cache Sample.loaded, 2%nat)).
Proof.
  split; [reflexivity|].
  exact (X15_get_config_after_clear Sample.deployment false 1001
           Sample.loaded 1 eq_refl).
Defined.

(** ** The sheet parser *)

Section Parse.
Import SheetCredential.

Variable w : world.

Lemma dict_find_set_ne (d : dict) (k k' : string) (v : pyval) :
  k <> k' -> PyVal.dict_find (PyVal.dict_set d k v) k' = PyVal.dict_find d k'.
Proof.
  intros Hne. induction d as [|[k0 v0] d IH]; simpl.
  - replace (String.eqb k k') with false
      by (symmetry; apply String.eqb_neq; exact Hne). reflexivity.
  - destruct (String.eqb k0 k) eqn:E; simpl.
    + apply String.eqb_eq in E. subst k0.
      replace (String.eqb k k') with false
        by (symmetry; apply String.eqb_neq; exact Hne). reflexivity.
    + rewrite IH. reflexivity.
Qed.

Lemma dict_keys_set (d : dict) (k : string) (v : pyval) :
  In k (PyVal.dict_keys d) ->
  PyVal.dict_keys (PyVal.dict_set d k v) = PyVal.dict_keys d.
Proof.
  unfold PyVal.dict_keys. induction d as [|[k0 v0] d IH]; simpl; [tauto|].
  destruct (String.eqb k0 k) eqn:E; simpl; [reflexivity|].
  apply String.eqb_neq in E. intros [H|H]; [congruence|].
  rewrite IH by exact H. reflexivity.
Qed.

Lemma parse_row_keys (config config' : dict) (row : list string) :
  PyVal.dict_keys config = Spec.config_keys ->
  parse_row w config row = Ok config' ->
  PyVal.dict_keys config' = Spec.config_keys.
Proof.
  intros K. unfold parse_row.
  destruct row as [|r0 [|r1 rest]]; try (intros [= <-]; exact K).
  assert (S : forall k v, In k Spec.config_keys ->
              PyVal.dict_keys (PyVal.dict_set config k v) = Spec.config_keys).
  { intros k v Hk. rewrite dict_keys_set; [exact K | rewrite K; exact Hk]. }
  repeat (destruct (String.eqb (PyStr.strip r0) _);
          [first [ intros [= <-]; apply S; simpl; tauto
                 | unfold rbind; destruct (json_loads w _); [|discriminate];
                   intros [= <-]; apply S; simpl; tauto ]|]).
  intros [= <-]. exact K.
Qed.

Lemma parse_rows_keys (rows : list (list string)) (config config' : dict) :
  PyVal.dict_keys config = Spec.config_keys ->
  parse_rows w config rows = Ok config' ->
  PyVal.dict_keys config' = Spec.config_keys.
Proof.
  revert config. induction rows as [|row rows IH]; intros config K; simpl.
  - intros [= <-]. exact K.
  - unfold rbind. destruct (parse_row w config row) as [c1|e] eqn:P;
      [|discriminate].
    apply IH. apply (parse_row_keys config c1 row K P).
Qed.

(** A row raises exactly when it is a couriers row with a text that
    [json.loads] rejects. *)
Lemma parse_row_raise (config : dict) (row : list string) :
  (exists e, parse_row w config row = Raise e) <-> Spec.bad_couriers_row w row.
Proof.
  unfold parse_row, Spec.bad_couriers_row.
  destruct row as [|r0 [|r1 rest]];
    try (split; [intros [e H]; discriminate | tauto]).
  destruct (String.eqb (PyStr.strip r0) "store_name") eqn:E1.
  { apply String.eqb_eq in E1. rewrite E1.
    split; [intros [e H]; discriminate | intros [H _]; discriminate]. }
  destruct (String.eqb (PyStr.strip r0) "timezone") eqn:E2.
  { apply String.eqb_eq in E2. rewrite E2.
    split; [intros [e H]; discriminate | intros [H _]; discriminate]. }
  destruct (String.eqb (PyStr.strip r0) "cutoff_time") eqn:E3.
  { apply String.eqb_eq in E3. rewrite E3.
    split; [intros [e H]; discriminate | intros [H _]; discriminate]. }
  destruct (String.eqb (PyStr.strip r0) "working_days") eqn:E4.
  { apply String.eqb_eq in E4. rewrite E4.
    split; [intros [e H]; discriminate | intros [H _]; discriminate]. }
  destruct (String.eqb (PyStr.strip r0) "couriers") eqn:E5.
  - apply String.eqb_eq in E5. unfold rbind.
    destruct (json_loads w (PyStr.strip r1)) as [v|e].
    + split; [intros [e H]; discriminate | intros [_ [e H]]; discriminate].
    + split; [intros _; split; [exact E5 | eauto] | eauto].
  - apply String.eqb_neq in E5.
    split; [intros [e H]; discriminate | tauto].
Qed.

Lemma parse_rows_raise (rows : list (list string)) (config : dict) :
  (exists e, parse_rows w config rows = Raise e)
  <-> List.Exists (Spec.bad_couriers_row w) rows.
Proof.
  revert config. induction rows as [|row rows IH]; intros config; simpl.
  - split; [intros [e H]; discriminate | intros H; inversion H].
  - rewrite List.Exists_cons, <- (parse_row_raise config row). unfold rbind.
    destruct (parse_row w config row) as [c1|e] eqn:P.
    + rewrite (IH c1). split; [tauto|].
      intros [[e H]|H]; [discriminate | exact H].
    + split; eauto.
Qed.

Lemma parse_row_other (config : dict) (row : list string) :
  Spec.row_key row <> Some "couriers" ->
  exists config',
    parse_row w config row = Ok config'
    /\ PyVal.dict_find config' "couriers" = PyVal.dict_find config "couriers".
Proof.
  unfold Spec.row_key, parse_row.
  destruct row as [|r0 [|r1 rest]]; try solve [intros _; eauto].
  intros Hk.
  repeat (case_key;
          [first [ eexists; split; [reflexivity|];
                   apply dict_find_set_ne; discriminate
                 | exfalso; apply Hk; f_equal; apply String.eqb_eq; assumption ]
          |]).
  exists config. split; reflexivity.
Qed.

Lemma parse_rows_no_couriers (rows : list (list string)) (config : dict) :
  Forall (fun row => Spec.row_key row <> Some "couriers") rows ->
  exists config',
    parse_rows w config rows = Ok config'
    /\ PyVal.dict_find config' "couriers" = PyVal.dict_find config "couriers".
Proof.
  intros H. revert config. induction H as [|row rows Hr _ IH]; intros config;
    simpl; [eauto|].
  destruct (parse_row_other config row Hr) as (c1 & -> & E1). simpl.
  destruct (IH c1) as (c2 & -> & E2). exists c2. split; [reflexivity|].
  congruence.
Qed.

Lemma validate_config_no_couriers (config : dict) :
  PyVal.dict_find config "couriers" = Some (PDict []) ->
  ConfigCache._validate_config w config = false.
Proof.
  intros H. unfold ConfigCache._validate_config. rewrite H.
  destruct (negb _); [reflexivity|].
  destruct (PyVal.dict_find config "cutoff_time"); [|reflexivity].
  destruct (PyVal.dict_find config "timezone"); reflexivity.
Qed.

Lemma refresh_outcome_no_couriers (n : nat) (rows : list (list string)) :
  get_sheet_data w n = Ok rows ->
  Forall (fun row => Spec.row_key row <> Some "couriers") rows ->
  Spec.refresh_outcome w n = Raise ValueError.
Proof.
  intros G H. unfold Spec.refresh_outcome. rewrite G.
  destruct rows as [|row rows]; [reflexivity|].
  unfold parse_to_config.
  destruct (parse_rows_no_couriers (row :: rows) empty_config H)
    as (c & -> & E).
  rewrite (validate_config_no_couriers c E). reflexivity.
Qed.

Lemma parse_rows_app (a b : list (list string)) (config : dict) :
  parse_rows w config (a ++ b)
  = (c <-! parse_rows w config a ;; parse_rows w c b).
Proof.
  revert config. induction a as [|row a IH]; intros config; simpl;
    [reflexivity|].
  unfold rbind at 1 3. destruct (parse_row w config row); [apply IH|reflexivity].
Qed.

Lemma parse_row_ignored (config : dict) (row : list string) :
  match Spec.row_key row with
  | Some k => ~ In k Spec.config_keys
  | None => True
  end ->
  parse_row w config row = Ok config.
Proof.
  unfold Spec.row_key, parse_row.
  destruct row as [|r0 [|r1 rest]]; try reflexivity.
  simpl. intros H.
  repeat (case_key;
          [exfalso; apply H;
           match goal with E : String.eqb _ _ = true |- _ =>
             apply String.eqb_eq in E; rewrite E end; tauto|]).
  reflexivity.
Qed.

End Parse.

(** X16. A dictionary that [parse_to_config] returns has exactly the five
    keys it starts from, in their order, whatever the rows are. *)
Theorem X16_parsed_config_keys (w : world) (rows : list (list string))
    (config : dict) :
  SheetCredential.parse_to_config w rows = Ok config ->
  PyVal.dict_keys config
  = ["store_name"; "timezone"; "cutoff_time"; "working_days"; "couriers"].
Proof. apply (parse_rows_keys w rows SheetCredential.empty_config). reflexivity. Qed.

Lemma X16_witness :
  SheetCredential.parse_to_config Sample.deployment Sample.rows = Ok Sample.config
  /\ PyVal.dict_keys Sample.config
     = ["store_name"; "timezone"; "cutoff_time"; "working_days"; "couriers"].
Proof.
  split; [vm_compute; reflexivity|].
  apply (X16_parsed_config_keys Sample.deployment Sample.rows).
  vm_compute. reflexivity.
Defined.

(** X17. [parse_to_config] raises exactly when some row of two cells or
    more has the key "couriers" (after stripping) and a text that
    [json.loads] rejects; no other row makes it fail. *)
Theorem X17_parse_raises_iff (w : world) (rows : list (list string)) :
  (exists e, SheetCredential.parse_to_config w rows = Raise e)
  <-> List.Exists (Spec.bad_couriers_row w) rows.
Proof. apply parse_rows_raise. Qed.

Lemma X17_witness :
  exists e,
    SheetCredential.parse_to_config Sample.deployment
      [["timezone"; "UTC"]; [" couriers "; "{"]] = Raise e.
Proof.
  apply (proj2 (X17_parse_raises_iff Sample.deployment
                  [["timezone"; "UTC"]; [" couriers "; "{"]])).
  apply List.Exists_cons_tl, List.Exists_cons_hd.
  split; [reflexivity | exists ValueError; reflexivity].
Defined.

(** X18. A sheet without a row for the courier table never refreshes the
    configuration: a call of [get_config] that fetches it, with no fetch in
    flight, ends as a failed refresh does, with the previous snapshot kept
    and returned, or with [ValueError] when there is none. *)
Theorem X18_no_couriers_row (w : world) (force_refresh : bool) (now : Z)
    (st : ConfigCache.cache_state) (n : nat) (rows : list (list string)) :
  get_sheet_data w n = Ok rows ->
  Forall (fun row => Spec.row_key row <> Some "couriers") rows ->
  ConfigCache._fetch_in_progress st = false ->
  Spec.fresh force_refresh now st = false ->
  ConfigCache.get_config w force_refresh now (st, n)
  = (match ConfigCache._cache st with
     | Some previous => Ok (Some previous)
     | None => Raise ValueError
     end, (st, S n)).
Proof.
  intros G H Hf Hfr. rewrite (get_config_cases w _ _ _ _ Hf), Hfr.
  rewrite (refresh_outcome_no_couriers w n rows G H). reflexivity.
Qed.

Lemma X18_witness :
  get_sheet_data
    (mkworld Sample.known_zone Sample.json_loads
       (fun _ => Ok [["timezone"; "Asia/Manila"]; ["cutoff_time"; "14:00"]])
       Sample.now_in) 0
  = Ok [["timezone"; "Asia/Manila"]; ["cutoff_time"; "14:00"]]
  /\ ConfigCache.get_config
       (mkworld Sample.known_zone Sample.json_loads
          (fun _ => Ok [["timezone"; "Asia/Manila"]; ["cutoff_time"; "14:00"]])
          Sample.now_in)
       false 1000 (ConfigCache.initial, 0%nat)
     = (Raise ValueError, (ConfigCache.initial, 1%nat)).
Proof.
  split; [reflexivity|].
  apply (X18_no_couriers_row _ false 1000 ConfigCache.initial 0
           [["timezone"; "Asia/Manila"]; ["cutoff_time"; "14:00"]]).
  - reflexivity.
  - repeat constructor; vm_compute; discriminate.
  - reflexivity.
  - reflexivity.
Defined.

(** X19. A row with fewer than two cells, or whose key is none of the
    five, changes nothing: [parse_to_config] gives the same with the row,
    wherever it stands, as without it. *)
Theorem X19_row_ignored (w : world) (before after : list (list string))
    (row : list string) :
  match Spec.row_key row with
  | Some k => ~ In k Spec.config_keys
  | None => True
  end ->
  SheetCredential.parse_to_config w (before ++ row :: after)
  = SheetCredential.parse_to_config w (before ++ after).
Proof.
  intros H. unfold SheetCredential.parse_to_config.
  rewrite !parse_rows_app. unfold rbind.
  destruct (SheetCredential.parse_rows w _ before) as [c|e]; [|reflexivity].
  simpl. rewrite (parse_row_ignored w c row H). reflexivity.
Qed.

Lemma X19_witness :
  SheetCredential.parse_to_config Sample.deployment
    ([["timezone"; "Asia/Manila"]] ++ ["note"; "seasonal"] :: [["cutoff_time"; "14:00"]])
  = SheetCredential.parse_to_config Sample.deployment
      ([["timezone"; "Asia/Manila"]] ++ [["cutoff_time"; "14:00"]]).
Proof.
  apply (X19_row_ignored Sample.deployment).
  vm_compute. intuition discriminate.
Defined.

(** ** The input validation *)

Section Strings.
Import PyStr.

Lemma rstrip_by_idem (p : ascii -> bool) (s : string) :
  rstrip_by p (rstrip_by p s) = rstrip_by p s.
Proof.
  induction s as [|c r IH]; simpl; [reflexivity|].
  destruct (rstrip_by p r) as [|c' r'] eqn:E.
  - destruct (p c) eqn:P; simpl; [reflexivity|]. rewrite P. reflexivity.
  - change (rstrip_by p (String c (String c' r')))
      with (match rstrip_by p (String c' r') with
            | EmptyString => if p c then EmptyString else String c EmptyString
            | x => String c x
            end).
    rewrite IH. reflexivity.
Qed.

Lemma lstrip_by_head (p : ascii -> bool) (s : string) :
  match lstrip_by p s with
  | EmptyString => True
  | String c _ => p c = false
  end.
Proof.
  induction s as [|c r IH]; simpl; [exact I|].
  destruct (p c) eqn:P; [exact IH | exact P].
Qed.

Lemma lstrip_rstrip (p : ascii -> bool) (s : string) :
  match s with EmptyString => True | String c _ => p c = false end ->
  lstrip_by p (rstrip_by p s) = rstrip_by p s.
Proof.
  destruct s as [|c r]; simpl; [reflexivity|]. intros P.
  destruct (rstrip_by p r); rewrite ?P; simpl; rewrite P; reflexivity.
Qed.

Lemma strip_by_idem (p : ascii -> bool) (s : string) :
  rstrip_by p (lstrip_by p (rstrip_by p (lstrip_by p s)))
  = rstrip_by p (lstrip_by p s).
Proof.
  rewrite (lstrip_rstrip p (lstrip_by p s) (lstrip_by_head p s)).
  apply rstrip_by_idem.
Qed.

Lemma strip_idem (s : string) : strip (strip s) = strip s.
Proof. apply strip_by_idem. Qed.

Lemma lstrip_by_map (p : ascii -> bool) (f : ascii -> ascii) (s : string) :
  (forall c, p (f c) = p c) ->
  lstrip_by p (map_chars f s) = map_chars f (lstrip_by p s).
Proof.
  intros H. induction s as [|c r IH]; simpl; [reflexivity|].
  rewrite H. destruct (p c); [exact IH | reflexivity].
Qed.

Lemma rstrip_by_map (p : ascii -> bool) (f : ascii -> ascii) (s : string) :
  (forall c, p (f c) = p c) ->
  rstrip_by p (map_chars f s) = map_chars f (rstrip_by p s).
Proof.
  intros H. induction s as [|c r IH]; simpl; [reflexivity|].
  rewrite IH, H. destruct (rstrip_by p r); simpl; [|reflexivity].
  destruct (p c); reflexivity.
Qed.

Lemma map_chars_idem (f : ascii -> ascii) (s : string) :
  (forall c, f (f c) = f c) -> map_chars f (map_chars f s) = map_chars f s.
Proof.
  intros H. induction s as [|c r IH]; simpl; [reflexivity|].
  rewrite H, IH. reflexivity.
Qed.

Lemma isspace_upper_char (c : ascii) : isspace (upper_char c) = isspace c.
Proof. destruct c as [[] [] [] [] [] [] [] []]; reflexivity. Qed.

Lemma isspace_lower_char (c : ascii) : isspace (lower_char c) = isspace c.
Proof. destruct c as [[] [] [] [] [] [] [] []]; reflexivity. Qed.

Lemma upper_char_idem (c : ascii) : upper_char (upper_char c) = upper_char c.
Proof. destruct c as [[] [] [] [] [] [] [] []]; reflexivity. Qed.

Lemma lower_char_idem (c : ascii) : lower_char (lower_char c) = lower_char c.
Proof. destruct c as [[] [] [] [] [] [] [] []]; reflexivity. Qed.

Lemma islower_upper_char (c : ascii) : islower (upper_char c) = false.
Proof. destruct c as [[] [] [] [] [] [] [] []]; reflexivity. Qed.

(** Normalizing a normalized name changes nothing. *)
Lemma upper_strip_idem (s : string) :
  upper (strip (upper (strip s))) = upper (strip s).
Proof.
  unfold upper, strip.
  rewrite (lstrip_by_map isspace upper_char _ isspace_upper_char).
  rewrite (rstrip_by_map isspace upper_char _ isspace_upper_char).
  rewrite (map_chars_idem upper_char _ upper_char_idem).
  rewrite strip_by_idem. reflexivity.
Qed.

Lemma lower_strip_idem (s : string) :
  lower (strip (lower (strip s))) = lower (strip s).
Proof.
  unfold lower, strip.
  rewrite (lstrip_by_map isspace lower_char _ isspace_lower_char).
  rewrite (rstrip_by_map isspace lower_char _ isspace_lower_char).
  rewrite (map_chars_idem lower_char _ lower_char_idem).
  rewrite strip_by_idem. reflexivity.
Qed.

Lemma all_chars_remove (p : ascii -> bool) (x : ascii) (s : string) :
  all_chars p (remove_char x s) = true ->
  all_chars (fun c => p c || Ascii.eqb c x) s = true.
Proof.
  induction s as [|c r IH]; simpl; [reflexivity|].
  destruct (Ascii.eqb c x) eqn:E; simpl.
  - intros H. rewrite orb_true_r. simpl. apply IH, H.
  - rewrite orb_false_r. intros H. apply andb_true_iff in H as [H1 H2].
    rewrite H1. simpl. apply IH, H2.
Qed.

Lemma all_chars_impl (p q : ascii -> bool) (s : string) :
  (forall c, p c = true -> q c = true) ->
  all_chars p s = true -> all_chars q s = true.
Proof.
  intros H. induction s as [|c r IH]; simpl; [reflexivity|].
  intros A. apply andb_true_iff in A as [A1 A2].
  rewrite (H _ A1), (IH A2). reflexivity.
Qed.

Lemma all_chars_upper (s : string) :
  all_chars (fun c => negb (islower c)) (upper s) = true.
Proof.
  induction s as [|c r IH]; simpl; [reflexivity|].
  rewrite islower_upper_char. exact IH.
Qed.

Lemma all_chars_and (p q : ascii -> bool) (s : string) :
  all_chars p s = true -> all_chars q s = true ->
  all_chars (fun c => p c && q c) s = true.
Proof.
  induction s as [|c r IH]; simpl; [reflexivity|].
  intros A B. apply andb_true_iff in A as [A1 A2].
  apply andb_true_iff in B as [B1 B2].
  rewrite A1, B1, (IH A2 B2). reflexivity.
Qed.

Lemma isalnum_all_chars (s : string) :
  isalnum s = true -> all_chars isalnum_char s = true.
Proof. destruct s; [discriminate | auto]. Qed.

End Strings.

Section Validators.
Import InputValidator.

Lemma str_in_In (x : string) (l : list string) : str_in x l = true <-> In x l.
Proof.
  unfold str_in. rewrite existsb_exists. split.
  - intros (y & Hy & E). apply String.eqb_eq in E. subst. exact Hy.
  - intros H. exists x. split; [exact H | apply String.eqb_refl].
Qed.

Lemma validate_courier_inv (courier_name c : string) (e : option string) :
  validate_courier courier_name = (true, Some c, e) ->
  e = None
  /\ c = PyStr.upper (PyStr.strip courier_name)
  /\ c <> ""
  /\ PyStr.len c <= 50
  /\ PyStr.isalnum
       (PyStr.remove_char " "
          (PyStr.remove_char "-" (PyStr.remove_char "&" c))) = true.
Proof.
  unfold validate_courier, MAX_COURIER_LENGTH.
  destruct (String.eqb courier_name ""); [discriminate|].
  destruct (String.eqb (PyStr.upper (PyStr.strip courier_name)) "") eqn:E;
    [discriminate|].
  destruct (50 <? PyStr.len _) eqn:L; [discriminate|].
  destruct (negb (PyStr.isalnum _)) eqn:A; [discriminate|].
  intros [= <- <-]. apply String.eqb_neq in E. apply Z.ltb_ge in L.
  apply negb_false_iff in A. auto.
Qed.

Lemma validate_courier_again (c : string) :
  c = PyStr.upper (PyStr.strip c) ->
  c <> "" ->
  PyStr.len c <= 50 ->
  PyStr.isalnum
    (PyStr.remove_char " "
       (PyStr.remove_char "-" (PyStr.remove_char "&" c))) = true ->
  validate_courier c = (true, Some c, None).
Proof.
  intros E Hne L A. unfold validate_courier, MAX_COURIER_LENGTH.
  rewrite <- E.
  replace (String.eqb c "") with false
    by (symmetry; apply String.eqb_neq; exact Hne).
  replace (50 <? PyStr.len c) with false by (symmetry; apply Z.ltb_ge; lia).
  rewrite A. reflexivity.
Qed.

Lemma validate_region_inv (a : allowed) (region r : string)
    (e : option string) :
  validate_region a region = (true, Some r, e) ->
  e = None
  /\ r = PyStr.lower (PyStr.strip region)
  /\ r <> ""
  /\ PyStr.len r <= 50
  /\ In r (ALLOWED_REGIONS a).
Proof.
  unfold validate_region, MAX_REGION_LENGTH.
  destruct (String.eqb region ""); [discriminate|].
  destruct (String.eqb (PyStr.lower (PyStr.strip region)) "") eqn:E;
    [discriminate|].
  destruct (50 <? PyStr.len _) eqn:L; [discriminate|].
  destruct (negb (str_in _ _)) eqn:A; [discriminate|].
  intros [= <- <-]. apply String.eqb_neq in E. apply Z.ltb_ge in L.
  apply negb_false_iff, str_in_In in A. auto.
Qed.

Lemma validate_region_accepts (a : allowed) (region : string) :
  PyStr.lower (PyStr.strip region) <> "" ->
  PyStr.len (PyStr.lower (PyStr.strip region)) <= 50 ->
  In (PyStr.lower (PyStr.strip region)) (ALLOWED_REGIONS a) ->
  validate_region a region
  = (true, Some (PyStr.lower (PyStr.strip region)), None).
Proof.
  intros Hne L Hin. unfold validate_region, MAX_REGION_LENGTH.
  destruct (String.eqb region "") eqn:E0.
  { apply String.eqb_eq in E0. subst region. exfalso. apply Hne. reflexivity. }
  replace (String.eqb (PyStr.lower (PyStr.strip region)) "") with false
    by (symmetry; apply String.eqb_neq; exact Hne).
  replace (50 <? PyStr.len (PyStr.lower (PyStr.strip region))) with false
    by (symmetry; apply Z.ltb_ge; lia).
  replace (str_in (PyStr.lower (PyStr.strip region)) (ALLOWED_REGIONS a))
    with true by (symmetry; apply str_in_In; exact Hin).
  reflexivity.
Qed.

Lemma add_allowed_region_regions (name : string) (a : allowed) (r : string) :
  In r (ALLOWED_REGIONS (add_allowed_region name a))
  <-> In r (ALLOWED_REGIONS a)
      \/ (r = PyStr.lower (PyStr.strip name) /\ r <> "").
Proof.
  unfold add_allowed_region.
  destruct (String.eqb (PyStr.lower (PyStr.strip name)) "") eqn:E; simpl.
  - apply String.eqb_eq in E. rewrite E. split; [tauto|].
    intros [H|[-> H]]; [exact H | congruence].
  - apply String.eqb_neq in E.
    destruct (str_in _ (ALLOWED_REGIONS a)) eqn:S; simpl.
    + apply str_in_In in S. split; [tauto|].
      intros [H|[-> _]]; [exact H | exact S].
    + rewrite in_app_iff. simpl. split.
      * intros [H|[<-|[]]]; auto.
      * intros [H|[-> _]]; auto.
Qed.

End Validators.

(** X20. A name [validate_courier] accepts comes without a message and is
    the input stripped and in upper case; it is not empty, has at most 50
    characters, all of them digits, capital letters, "&", "-" or spaces;
    and it is accepted again, unchanged. *)
Theorem X20_validate_courier_accepted (courier_name c : string)
    (e : option string) :
  InputValidator.validate_courier courier_name = (true, Some c, e) ->
  e = None
  /\ c = PyStr.upper (PyStr.strip courier_name)
  /\ c <> ""
  /\ PyStr.len c <= 50
  /\ PyStr.all_chars Spec.courier_char c = true
  /\ InputValidator.validate_courier c = (true, Some c, None).
Proof.
  intros H. destruct (validate_courier_inv _ _ _ H) as (He & Hc & Hne & L & A).
  split; [exact He|]. split; [exact Hc|]. split; [exact Hne|].
  split; [exact L|]. split.
  - apply isalnum_all_chars in A.
    apply all_chars_remove, all_chars_remove, all_chars_remove in A.
    pose proof (all_chars_upper (PyStr.strip courier_name)) as U.
    fold (PyStr.upper (PyStr.strip courier_name)) in U. rewrite <- Hc in U.
    pose proof (all_chars_and _ _ _ A U) as B.
    revert B. apply all_chars_impl. intros ch.
    unfold Spec.courier_char, PyStr.isalnum_char.
    destruct (PyStr.isdigit ch), (PyStr.isupper ch), (PyStr.islower ch),
      (Ascii.eqb ch " "), (Ascii.eqb ch "-"), (Ascii.eqb ch "&");
      simpl; auto.
  - apply validate_courier_again; auto.
    rewrite Hc at 1. rewrite Hc. symmetry. apply upper_strip_idem.
Qed.

Lemma X20_witness :
  InputValidator.validate_courier "  j&t " = (true, Some "J&T", None)
  /\ InputValidator.validate_courier "J&T" = (true, Some "J&T", None).
Proof.
  split; [reflexivity|].
  exact (proj2 (proj2 (proj2 (proj2 (proj2
           (X20_validate_courier_accepted "  j&t " "J&T" None eq_refl)))))).
Defined.

(** X21. A region [validate_region] accepts is the input stripped and in
    lower case; it is one of the allowed regions, and it is accepted
    again, unchanged. *)
Theorem X21_validate_region_accepted (a : InputValidator.allowed)
    (region r : string) (e : option string) :
  InputValidator.validate_region a region = (true, Some r, e) ->
  e = None
  /\ r = PyStr.lower (PyStr.strip region)
  /\ In r (InputValidator.ALLOWED_REGIONS a)
  /\ InputValidator.validate_region a r = (true, Some r, None).
Proof.
  intros H. destruct (validate_region_inv _ _ _ _ H) as (He & Hr & Hne & L & Hin).
  split; [exact He|]. split; [exact Hr|]. split; [exact Hin|].
  assert (E : PyStr.lower (PyStr.strip r) = r).
  { rewrite Hr. apply lower_strip_idem. }
  rewrite <- E at 2. apply validate_region_accepts; rewrite E; assumption.
Qed.

Lemma X21_witness :
  InputValidator.validate_region InputValidator.initial " Luzon "
  = (true, Some "luzon", None)
  /\ InputValidator.validate_region InputValidator.initial "luzon"
     = (true, Some "luzon", None).
Proof.
  split; [reflexivity|].
  exact (proj2 (proj2 (proj2
           (X21_validate_region_accepted InputValidator.initial
              " Luzon " "luzon" None eq_refl)))).
Defined.

(** X22. [add_allowed_region] leaves the couriers alone and only ever
    adds: a region accepted before is accepted after, with the same
    answer; adding the same name twice is adding it once; and the name
    added is accepted afterwards, provided it is not blank and has at most
    50 characters once normalized. *)
Theorem X22_add_allowed_region (a : InputValidator.allowed)
    (region_name : string) :
  InputValidator.ALLOWED_COURIERS
    (InputValidator.add_allowed_region region_name a)
  = InputValidator.ALLOWED_COURIERS a
  /\ (forall region r e,
        InputValidator.validate_region a region = (true, Some r, e) ->
        InputValidator.validate_region
          (InputValidator.add_allowed_region region_name a) region
        = (true, Some r, e))
  /\ InputValidator.add_allowed_region region_name
       (InputValidator.add_allowed_region region_name a)
     = InputValidator.add_allowed_region region_name a
  /\ (PyStr.lower (PyStr.strip region_name) <> "" ->
      PyStr.len (PyStr.lower (PyStr.strip region_name)) <= 50 ->
      InputValidator.validate_region
        (InputValidator.add_allowed_region region_name a) region_name
      = (true, Some (PyStr.lower (PyStr.strip region_name)), None)).
Proof.
  split; [|split; [|split]].
  - unfold InputValidator.add_allowed_region.
    destruct (negb _ && negb _); reflexivity.
  - intros region r e H.
    destruct (validate_region_inv _ _ _ _ H) as (-> & Hr & Hne & L & Hin).
    subst r. apply validate_region_accepts; auto.
    apply add_allowed_region_regions. left. exact Hin.
  - unfold InputValidator.add_allowed_region at 1.
    destruct (String.eqb (PyStr.lower (PyStr.strip region_name)) "") eqn:E;
      simpl; [reflexivity|].
    replace (InputValidator.str_in (PyStr.lower (PyStr.strip region_name))
               (InputValidator.ALLOWED_REGIONS
                  (InputValidator.add_allowed_region region_name a)))
      with true; [reflexivity|].
    symmetry. apply str_in_In, add_allowed_region_regions. right.
    apply String.eqb_neq in E. auto.
  - intros Hne L. apply validate_region_accepts; auto.
    apply add_allowed_region_regions. right. auto.
Qed.

Lemma X22_witness :
  PyStr.lower (PyStr.strip " Palawan ") <> ""
  /\ PyStr.len (PyStr.lower (PyStr.strip " Palawan ")) <= 50
  /\ InputValidator.validate_region InputValidator.initial " Palawan "
     = (false, None,
        Some "Invalid region 'palawan'. Allowed regions: ncr, luzon, visayas, mindanao")
  /\ InputValidator.validate_region
       (InputValidator.add_allowed_region " Palawan " InputValidator.initial)
       " Palawan "
     = (true, Some "palawan", None).
Proof.
  split; [vm_compute; discriminate|]. split; [vm_compute; discriminate|].
  split; [reflexivity|].
  apply (proj2 (proj2 (proj2
           (X22_add_allowed_region InputValidator.initial " Palawan "))));
    vm_compute; discriminate.
Defined.

(** ** The request handlers *)

Section Handlers.
Import Main.

Variable w : world.

Lemma get_current_datetime_some (timezone : pyval) :
  get_current_datetime w timezone <> None.
Proof.
  unfold get_current_datetime. destruct timezone; try discriminate.
  destruct (known_zone w s); discriminate.
Qed.

(** What [_validate_config] checked of a configuration. *)
Lemma validated_entries (config : dict) :
  ConfigCache._validate_config w config = true ->
  exists couriers cutoff timezone,
    PyVal.dict_find config "couriers" = Some (PDict couriers)
    /\ PyVal.dict_find config "cutoff_time" = Some cutoff
    /\ PyVal.dict_find config "timezone" = Some timezone
    /\ couriers <> []
    /\ forallb (fun kv => ConfigCache.valid_regions (snd kv)) couriers = true.
Proof.
  unfold ConfigCache._validate_config. destruct (negb _); [discriminate|].
  destruct (PyVal.dict_find config "couriers") as [[| | | | | |cs]|];
    try discriminate.
  destruct (PyVal.dict_find config "cutoff_time") as [cut|]; [|discriminate].
  destruct (PyVal.dict_find config "timezone") as [tz|]; [|discriminate].
  destruct (Z.of_nat (length cs) =? 0) eqn:L; [discriminate|].
  destruct (negb (ConfigCache.valid_cutoff cut)); [discriminate|].
  destruct (negb (ConfigCache.valid_timezone w tz)); [discriminate|].
  intros V. exists cs, cut, tz. repeat split; auto.
  intros ->. discriminate.
Qed.

(** The error answers of steps 3 to 8. *)
Lemma estimate_with_config_error (config : dict) (c r : string)
    (hc : HolidayCalculator.caches) (msg : string) (code : ErrorCode)
    (av : option (list string)) :
  fst (estimate_with_config w config c r hc) = Ok (ErrorResponse msg code av) ->
  (code = INVALID_COURIER /\ av <> None
   /\ get_courier_base_days config c r = None)
  \/ (code = INTERNAL_ERROR /\ av = None).
Proof.
  unfold estimate_with_config, rbind, PyVal.dict_get.
  destruct (PyVal.dict_find config "timezone") as [tz|]; [|discriminate].
  destruct (get_current_datetime w tz) as [ct|].
  2:{ simpl. intros [= <- <- <-]. right. auto. }
  destruct (PyVal.dict_find config "cutoff_time") as [cut|]; [|discriminate].
  destruct (get_courier_base_days config c r) as [base|] eqn:B.
  - destruct (if check_cutoff_time ct cut then Ok (dt_date ct)
              else add_days (dt_date ct) 1) as [start|e]; [|discriminate].
    destruct (calculate_delivery_date start base c None hc) as [[d|] hc1];
      simpl; [discriminate|].
    intros [= <- <- <-]. right. auto.
  - destruct (PyVal.dict_find config "couriers") as [[| | | | | |d]|];
      try discriminate.
    simpl. intros [= <- <- <-]. left.
    split; [reflexivity|]. split; [discriminate | reflexivity].
Qed.

(** The estimate of steps 3 to 8. *)
Lemma estimate_with_config_estimate (config : dict) (c r : string)
    (hc : HolidayCalculator.caches) (e : DeliveryEstimate) :
  Spec.cache_ok hc ->
  fst (estimate_with_config w config c r hc) = Ok (EstimateResponse e) ->
  courier e = c /\ region e = r /\ confidence_level e = "high"
  /\ before_cutoff e = check_cutoff_time (order_time e) (cutoff_time e)
  /\ PyVal.dict_find config "cutoff_time" = Some (cutoff_time e)
  /\ get_courier_base_days config c r = Some (base_delivery_days e)
  /\ (if before_cutoff e then Ok (dt_date (order_time e))
      else add_days (dt_date (order_time e)) 1) = Ok (start_date e)
  /\ Spec.pure_calculate (start_date e) (base_delivery_days e) c None
     = Some (estimated_delivery_date e)
  /\ total_calendar_days e
     = days_between (estimated_delivery_date e) (start_date e).
Proof.
  intros H. unfold estimate_with_config, rbind, PyVal.dict_get.
  destruct (PyVal.dict_find config "timezone") as [tz|]; [|discriminate].
  destruct (get_current_datetime w tz) as [ct|]; [|discriminate].
  destruct (PyVal.dict_find config "cutoff_time") as [cut|]; [|discriminate].
  destruct (get_courier_base_days config c r) as [base|] eqn:B.
  - destruct (if check_cutoff_time ct cut then Ok (dt_date ct)
              else add_days (dt_date ct) 1) as [start|x] eqn:S; [|discriminate].
    pose proof (proj1 (calculate_pure start base c None hc H)) as P.
    destruct (calculate_delivery_date start base c None hc) as [[d|] hc1];
      simpl in *; [|discriminate].
    intros [= <-]. simpl. repeat split; auto.
  - destruct (PyVal.dict_find config "couriers") as [[| | | | | |d]|];
      discriminate.
Qed.

Lemma delivery_estimate_fst (clock : Z) (courier_name region : string)
    (sv : service) :
  fst (delivery_estimate w clock courier_name region sv)
  = match InputValidator.validate_courier courier_name with
    | (true, Some c, _) =>
        match InputValidator.validate_region (validator sv) region with
        | (true, Some r, _) =>
            match fst (ConfigCache.get_config w false clock
                         (config_cache sv, fetches sv)) with
            | Ok (Some ((_ :: _) as config)) =>
                match fst (estimate_with_config w config c r
                             (holiday_caches sv)) with
                | Ok resp => resp
                | Raise _ =>
                    ErrorResponse "An unexpected error occurred"
                      INTERNAL_ERROR None
                end
            | _ =>
                ErrorResponse
                  "Service temporarily unavailable. Please try again later."
                  CONFIG_ERROR None
            end
        | (_, _, region_error) =>
            ErrorResponse (default "" region_error) INVALID_REGION None
        end
    | (_, _, courier_error) =>
        ErrorResponse (default "" courier_error) INVALID_COURIER None
    end.
Proof.
  unfold delivery_estimate.
  destruct (InputValidator.validate_courier courier_name) as [[[] [c|]] ce];
    try reflexivity.
  destruct (InputValidator.validate_region (validator sv) region)
    as [[[] [r|]] re]; try reflexivity.
  destruct (ConfigCache.get_config w false clock _) as [cfg [cs n]]. simpl.
  destruct cfg as [[[|kv rest]|]|x]; try reflexivity.
  destruct (estimate_with_config w (kv :: rest) c r (holiday_caches sv))
    as [[resp|x] hc]; reflexivity.
Qed.




End Handlers.

(** X23. An error answer of [delivery_estimate] carries one of the codes
    INVALID_COURIER, INVALID_REGION, CONFIG_ERROR and INTERNAL_ERROR, never
    INVALID_INPUT or SERVICE_UNAVAILABLE; and it lists the available
    couriers only with INVALID_COURIER, for a request that passed both
    validations. *)
Theorem X23_estimate_error_codes (w : world) (clock : Z)
    (courier_name region : string) (sv : Main.service) (msg : string)
    (code : ErrorCode) (av : option (list string)) :
  fst (Main.delivery_estimate w clock courier_name region sv)
  = Main.ErrorResponse msg code av ->
  (code = INVALID_COURIER \/ code = INVALID_REGION \/ code = CONFIG_ERROR
   \/ code = INTERNAL_ERROR)
  /\ (av <> None ->
      code = INVALID_COURIER
      /\ exists c r,
           InputValidator.validate_courier courier_name = (true, Some c, None)
           /\ InputValidator.validate_region (Main.validator sv) region
              = (true, Some r, None)).
Proof.
  rewrite delivery_estimate_fst.
  destruct (InputValidator.validate_courier courier_name) as [[b o] ce] eqn:Vc.
  assert (Ec : forall c, b = true -> o = Some c -> ce = None).
  { intros c -> ->. apply (validate_courier_inv _ _ _ Vc). }
  destruct b; [|intros [= <- <- <-]; split; [auto | congruence]].
  destruct o as [c|]; [|intros [= <- <- <-]; split; [auto | congruence]].
  rewrite (Ec c eq_refl eq_refl) in *.
  destruct (InputValidator.validate_region (Main.validator sv) region)
    as [[b o] re] eqn:Vr.
  assert (Er : forall r, b = true -> o = Some r -> re = None).
  { intros r -> ->. apply (validate_region_inv _ _ _ _ Vr). }
  destruct b; [|intros [= <- <- <-]; split; [auto | congruence]].
  destruct o as [r|]; [|intros [= <- <- <-]; split; [auto | congruence]].
  rewrite (Er r eq_refl eq_refl) in *.
  destruct (fst (ConfigCache.get_config w false clock _))
    as [[[|kv rest]|]|x];
    try (intros [= <- <- <-]; split; [auto | congruence]).
  destruct (fst (Main.estimate_with_config w (kv :: rest) c r _))
    as [resp|x] eqn:E;
    [|intros [= <- <- <-]; split; [auto | congruence]].
  intros ->.
  destruct (estimate_with_config_error w _ _ _ _ _ _ _ E)
    as [(-> & _ & _)|(-> & ->)].
  - split; [auto|]. intros _. split; [reflexivity|]. eauto.
  - split; [auto | congruence].
Qed.

Lemma X23_witness :
  fst (Main.delivery_estimate Sample.deployment 1000 "LBC" "mindanao" Main.initial)
  = Main.ErrorResponse "Courier 'LBC' does not service region 'mindanao'"
      INVALID_COURIER (Some ["LBC"; "J&T"])
  /\ (INVALID_COURIER = INVALID_COURIER \/ INVALID_COURIER = INVALID_REGION
      \/ INVALID_COURIER = CONFIG_ERROR \/ INVALID_COURIER = INTERNAL_ERROR).
Proof.
  split; [reflexivity|].
  exact (proj1 (X23_estimate_error_codes Sample.deployment 1000 "LBC" "mindanao"
                  Main.initial _ _ _ eq_refl)).
Defined.

(** X24. An estimate that [delivery_estimate] answers with, the holiday
    dictionaries being as the class keeps them: the courier and the region
    are the normalized inputs, the region an allowed one; the confidence
    level is "high" in every case; the number of delivery days is positive
    and is what [get_courier_base_days] finds in the configuration that
    [get_config] returned, from which the cutoff time is taken too; the
    start date is the order date when the order is before the cutoff and
    the next day otherwise; the delivery date is a day the courier does
    not skip, and the calendar days from the start date to it are at least
    the delivery days and fewer than 100. *)
Theorem X24_estimate_answer (w : world) (clock : Z)
    (courier_name region_name : string) (sv : Main.service)
    (e : DeliveryEstimate) :
  Spec.cache_ok (Main.holiday_caches sv) ->
  fst (Main.delivery_estimate w clock courier_name region_name sv)
  = Main.EstimateResponse e ->
  courier e = PyStr.upper (PyStr.strip courier_name)
  /\ region e = PyStr.lower (PyStr.strip region_name)
  /\ In (region e) (InputValidator.ALLOWED_REGIONS (Main.validator sv))
  /\ confidence_level e = "high"
  /\ 0 < base_delivery_days e
  /\ (exists config,
        fst (ConfigCache.get_config w false clock
               (Main.config_cache sv, Main.fetches sv)) = Ok (Some config)
        /\ PyVal.dict_find config "cutoff_time" = Some (cutoff_time e)
        /\ get_courier_base_days config (courier e) (region e)
           = Some (base_delivery_days e))
  /\ before_cutoff e = check_cutoff_time (order_time e) (cutoff_time e)
  /\ days_between (start_date e) (dt_date (order_time e))
     = (if before_cutoff e then 0 else 1)
  /\ Spec.skips (courier e) (estimated_delivery_date e) = false
  /\ total_calendar_days e
     = days_between (estimated_delivery_date e) (start_date e)
  /\ base_delivery_days e <= total_calendar_days e < 100.
Proof.
  intros H. rewrite delivery_estimate_fst.
  destruct (InputValidator.validate_courier courier_name) as [[b o] ce] eqn:Vc.
  destruct b; [|discriminate]. destruct o as [c|]; [|discriminate].
  destruct (validate_courier_inv _ _ _ Vc) as (_ & Hc & _).
  destruct (InputValidator.validate_region (Main.validator sv) region_name)
    as [[b o] re] eqn:Vr.
  destruct b; [|discriminate]. destruct o as [r|]; [|discriminate].
  destruct (validate_region_inv _ _ _ _ Vr) as (_ & Hr & _ & _ & Hin).
  destruct (fst (ConfigCache.get_config w false clock _))
    as [[[|kv rest]|]|x]; try discriminate.
  destruct (fst (Main.estimate_with_config w (kv :: rest) c r _))
    as [resp|x] eqn:E; [|discriminate].
  intros ->.
  destruct (estimate_with_config_estimate w _ _ _ _ _ H E)
    as (E1 & E2 & E3 & E4 & E5 & E6 & E7 & E8 & E9).
  destruct (pure_calculate_inv _ _ _ _ _ E8) as (Hb & k & Hk & Hreach).
  destruct (reaches_days _ _ _ _ _ Hreach) as [Hd Hle].
  destruct Hreach as (_ & _ & Hs).
  rewrite E1, E2.
  split; [exact Hc|]. split; [exact Hr|]. split; [exact Hin|].
  split; [exact E3|]. split; [exact Hb|]. split.
  { exists (kv :: rest). split; [reflexivity|]. split; [exact E5 | exact E6]. }
  split; [exact E4|]. split.
  { unfold days_between. destruct (before_cutoff e).
    - injection E7 as <-. lia.
    - rewrite (add_days_ordinal _ _ _ E7). lia. }
  split; [exact Hs|]. split; [exact E9|].
  rewrite E9. simpl in Hk. unfold MAX_CALCULATION_ITERATIONS in Hk. lia.
Qed.

Lemma X24_witness :
  Spec.cache_ok (Main.holiday_caches Main.initial)
  /\ fst (Main.delivery_estimate Sample.deployment 1000 "lbc" "Luzon" Main.initial)
     = Main.EstimateResponse
         (mkestimate "LBC" "luzon" (Sample.now_in "Asia/Manila") (PStr "14:00")
            true "Order placed before cutoff - same day processing"
            (mkdate 2025 12 24) 3 (mkdate 2025 12 29) 5 "high")
  /\ 3 <= 5 < 100.
Proof.
  split; [exact cache_ok_initial|]. split; [vm_compute; reflexivity|].
  exact (proj2 (proj2 (proj2 (proj2 (proj2 (proj2 (proj2 (proj2 (proj2 (proj2
           (X24_estimate_answer Sample.deployment 1000 "lbc" "Luzon"
              Main.initial
              (mkestimate "LBC" "luzon" (Sample.now_in "Asia/Manila")
                 (PStr "14:00") true
                 "Order placed before cutoff - same day processing"
                 (mkdate 2025 12 24) 3 (mkdate 2025 12 29) 5 "high")
              cache_ok_initial ltac:(vm_compute; reflexivity)))))))))))).
Defined.

(** X25. A request that one of the two validations rejects is answered
    with INVALID_COURIER or INVALID_REGION and no list of couriers, and
    leaves the whole state of the service as it was: nothing is fetched
    and no dictionary is touched. *)
Theorem X25_rejected_request_no_effect (w : world) (clock : Z)
    (courier_name region : string) (sv : Main.service) :
  (forall c, InputValidator.validate_courier courier_name
             <> (true, Some c, None))
  \/ (forall r, InputValidator.validate_region (Main.validator sv) region
                <> (true, Some r, None)) ->
  snd (Main.delivery_estimate w clock courier_name region sv) = sv
  /\ exists msg code,
       fst (Main.delivery_estimate w clock courier_name region sv)
       = Main.ErrorResponse msg code None
       /\ (code = INVALID_COURIER \/ code = INVALID_REGION).
Proof.
  intros Hrej. unfold Main.delivery_estimate.
  destruct (InputValidator.validate_courier courier_name) as [[b o] ce] eqn:Vc.
  destruct b; [|simpl; eauto 6]. destruct o as [c|]; [|simpl; eauto 6].
  pose proof (proj1 (validate_courier_inv _ _ _ Vc)) as ->.
  destruct (InputValidator.validate_region (Main.validator sv) region)
    as [[b o] re] eqn:Vr.
  destruct b; [|simpl; eauto 6]. destruct o as [r|]; [|simpl; eauto 6].
  pose proof (proj1 (validate_region_inv _ _ _ _ Vr)) as ->.
  exfalso. destruct Hrej as [Hrej|Hrej]; [apply (Hrej c) | apply (Hrej r)];
    reflexivity.
Qed.

Lemma X25_witness :
  snd (Main.delivery_estimate Sample.deployment 1000 "LBC" "mars" Main.initial)
  = Main.initial.
Proof.
  apply (X25_rejected_request_no_effect Sample.deployment 1000 "LBC" "mars"
           Main.initial).
  right. intros r. vm_compute. discriminate.
Defined.

(** X26. [refresh_config], the cache being as the class keeps it, answers
    with an error only when there is no snapshot and the refresh fails.
    Otherwise it answers "success" with the couriers of the snapshot the
    cache holds after the call: so also when the refresh fails and an
    earlier snapshot is there, which is then kept and listed. *)
Theorem X26_refresh_config (w : world) (clock : Z) (sv : Main.service) :
  Spec.cache_valid w (Main.config_cache sv) ->
  match fst (Main.refresh_config w clock sv) with
  | Main.RefreshError e =>
      ConfigCache._cache (Main.config_cache sv) = None
      /\ Spec.refresh_outcome w (Main.fetches sv) = Raise e
  | Main.RefreshSuccess l =>
      exists c d,
        ConfigCache._cache
          (Main.config_cache (snd (Main.refresh_config w clock sv))) = Some c
        /\ PyVal.dict_find c "couriers" = Some (PDict d)
        /\ l = PyVal.dict_keys d
        /\ (forall e, Spec.refresh_outcome w (Main.fetches sv) = Raise e ->
              ConfigCache._cache (Main.config_cache sv) = Some c)
  end.
Proof.
  intros V. unfold Main.refresh_config.
  pose proof (get_config_result w true clock (Main.config_cache sv)
                (Main.fetches sv) V) as R.
  pose proof (get_config_cases w true clock (Main.config_cache sv)
                (Main.fetches sv) (proj1 V)) as C.
  destruct (ConfigCache.get_config w true clock _) as [cfg [cs n]].
  simpl in R. destruct cfg as [[c|]|e]; simpl; [| tauto | tauto].
  destruct R as [Rc Rv].
  destruct (validated_entries w c Rv) as (d & cut & tz & Hd & _).
  destruct c as [|kv rest]; [discriminate|].
  unfold PyVal.dict_get. rewrite Hd. simpl.
  exists (kv :: rest), d. repeat split; auto.
  intros e Ho. unfold Spec.fresh in C. simpl in C. rewrite Ho in C.
  unfold ConfigCache.stale_or_raise in C.
  destruct (ConfigCache._cache (Main.config_cache sv)); congruence.
Qed.

Lemma X26_witness :
  Spec.cache_valid Sample.deployment Sample.loaded
  /\ Spec.refresh_outcome Sample.deployment 1 = Raise RemoteError
  /\ fst (Main.refresh_config Sample.deployment 2000
            (Main.mkservice Sample.loaded 1 HolidayCalculator.initial
               InputValidator.initial))
     = Main.RefreshSuccess ["LBC"; "J&T"]
  /\ exists c d,
       ConfigCache._cache
         (Main.config_cache
            (snd (Main.refresh_config Sample.deployment 2000
                    (Main.mkservice Sample.loaded 1 HolidayCalculator.initial
                       InputValidator.initial)))) = Some c
       /\ PyVal.dict_find c "couriers" = Some (PDict d)
       /\ ["LBC"; "J&T"] = PyVal.dict_keys d
       /\ (forall e, Spec.refresh_outcome Sample.deployment 1 = Raise e ->
             ConfigCache._cache Sample.loaded = Some c).
Proof.
  assert (V : Spec.cache_valid Sample.deployment Sample.loaded).
  { split; [reflexivity|]. split; [simpl; lia|].
    split; [vm_compute; reflexivity | discriminate]. }
  split; [exact V|]. split; [reflexivity|]. split; [reflexivity|].
  exact (X26_refresh_config Sample.deployment 2000
           (Main.mkservice Sample.loaded 1 HolidayCalculator.initial
              InputValidator.initial) V).
Defined.





(** X29. The list of allowed couriers is never consulted:
    [add_allowed_courier] leaves the allowed regions alone, and after it
    [validate_region] and [delivery_estimate] answer every request as
    before. *)
Theorem X29_allowed_couriers_unused (w : world) (clock : Z)
    (name courier_name region_name : string) (sv : Main.service) :
  InputValidator.ALLOWED_REGIONS
    (InputValidator.add_allowed_courier name (Main.validator sv))
  = InputValidator.ALLOWED_REGIONS (Main.validator sv)
  /\ InputValidator.validate_region
       (InputValidator.add_allowed_courier name (Main.validator sv)) region_name
     = InputValidator.validate_region (Main.validator sv) region_name
  /\ fst (Main.delivery_estimate w clock courier_name region_name
            (Main.mkservice (Main.config_cache sv) (Main.fetches sv)
               (Main.holiday_caches sv)
               (InputValidator.add_allowed_courier name (Main.validator sv))))
     = fst (Main.delivery_estimate w clock courier_name region_name sv).
Proof.
  assert (R : InputValidator.ALLOWED_REGIONS
                (InputValidator.add_allowed_courier name (Main.validator sv))
              = InputValidator.ALLOWED_REGIONS (Main.validator sv)).
  { unfold InputValidator.add_allowed_courier.
    destruct (negb _ && negb _); reflexivity. }
  assert (V : InputValidator.validate_region
                (InputValidator.add_allowed_courier name (Main.validator sv))
                region_name
              = InputValidator.validate_region (Main.validator sv) region_name).
  { unfold InputValidator.validate_region. rewrite R. reflexivity. }
  split; [exact R|]. split; [exact V|].
  rewrite !delivery_estimate_fst. simpl. rewrite V. reflexivity.
Qed.
